(** * NextAccounting admin API: a shallow embedding of the route handlers

    The development follows four source files:
    - [src/app/api/admin/reports/[id]/generate/route.ts]: the report
      generation handler with its tab-separated and CSV formatters, followed
      in the same file by the export-schedule handlers (GET, POST, PATCH,
      DELETE of /api/admin/users/exports/schedule);
    - the filter-preset handlers (GET, PATCH, DELETE of
      /api/admin/filter-presets/[id]);
    - the component tests of QuickStatsCard and SavedViewsButtons;
    - [src/components/admin/shared/ClientFormModal.tsx]: the validation and
      the submit handler of the client form.

    JavaScript values are an inductive type, the relational store is a record
    of tables (lists of rows), and a handler is a function from the request,
    the answers of its collaborators and the store to a response and the new
    store.  Exceptions are values of a small state-and-error monad, so that
    [try]/[catch] is a combinator and a write made before a [throw] stays
    made. *)

From Stdlib Require Import Ascii String ZArith Lia.
From stdpp Require Import base strings list gmap pretty sorting.

#[local] Set Warnings "-register-all".
#[local] Open Scope string_scope.
#[local] Open Scope Z_scope.

(** ** Characters and strings *)

Definition dquote : ascii := "034"%char.
Definition comma : ascii := ","%char.
Definition newline : ascii := "010"%char.
Definition tabchar : ascii := "009"%char.

Definition str1 (c : ascii) : string := String c EmptyString.
Definition nl : string := str1 newline.
Definition tab : string := str1 tabchar.

(** [Array.prototype.join] on an array of strings. *)
Fixpoint join (sep : string) (l : list string) : string :=
  match l with
  | [] => ""
  | [x] => x
  | x :: rest => x +:+ sep +:+ join sep rest
  end.

(** [s.replace(/c/g, by)] for a one-character pattern. *)
Fixpoint replaceAll (c : ascii) (by_ : string) (s : string) : string :=
  match s with
  | EmptyString => EmptyString
  | String a s' =>
      if Ascii.eqb a c then by_ +:+ replaceAll c by_ s'
      else String a (replaceAll c by_ s')
  end.

(** ** JavaScript values *)

(** The values a parsed JSON body or a row of the store can hold, and the
    built-in functions that every object inherits.  [JNum n] is the number
    [n] for the integers that a double holds exactly and that [String()]
    prints digit by digit, those between -2^53 and 2^53; fractions and
    larger numbers are not among the values.  A [Date] carries the text
    [String()] gives it in the runtime's locale, a built-in function its
    [name] and its [length]. *)
Inductive JsVal :=
| JUndefined
| JNull
| JBool (b : bool)
| JNum (n : Z)
| JStr (s : string)
| JDate (shown : string)
| JArr (l : list JsVal)
| JObj (o : gmap string JsVal)
| JFun (name : string) (arity : Z).

(** [ToBoolean]: what [!v], [v || w] and [if (v)] test. *)
Definition truthy (v : JsVal) : bool :=
  match v with
  | JUndefined | JNull => false
  | JBool b => b
  | JNum n => negb (n =? 0)
  | JStr s => negb (String.eqb s "")
  | JDate _ | JArr _ | JObj _ | JFun _ _ => true
  end.

Definition falsy (v : JsVal) : bool := negb (truthy v).

(** [a || b] *)
Definition js_or (a b : JsVal) : JsVal := if truthy a then a else b.

(** [String(v)], also what a template literal and [join] apply to [v]. *)
Fixpoint toString (v : JsVal) : string :=
  match v with
  | JUndefined => "undefined"
  | JNull => "null"
  | JBool true => "true"
  | JBool false => "false"
  | JNum n => pretty n
  | JStr s => s
  | JDate shown => shown
  | JArr l =>
      join ","
        ((fun x => match x with
                   | JUndefined | JNull => ""
                   | _ => toString x
                   end) <$> l)
  | JObj _ => "[object Object]"
  | JFun name _ => "function " +:+ name +:+ "() { [native code] }"
  end.

(** [v === 'lit'] for a string literal. *)
Definition str_eq (v : JsVal) (lit : string) : bool :=
  match v with
  | JStr s => String.eqb s lit
  | _ => false
  end.

(** The members that a plain object inherits from [Object.prototype]: the
    constructor, ten methods, and the accessor [__proto__], which answers
    with the prototype itself (an object with no member but these). *)
Definition objectPrototype : list (string * JsVal) :=
  [ ("constructor", JFun "Object" 1);
    ("__defineGetter__", JFun "__defineGetter__" 2);
    ("__defineSetter__", JFun "__defineSetter__" 2);
    ("hasOwnProperty", JFun "hasOwnProperty" 1);
    ("__lookupGetter__", JFun "__lookupGetter__" 1);
    ("__lookupSetter__", JFun "__lookupSetter__" 1);
    ("isPrototypeOf", JFun "isPrototypeOf" 1);
    ("propertyIsEnumerable", JFun "propertyIsEnumerable" 1);
    ("toString", JFun "toString" 0);
    ("valueOf", JFun "valueOf" 0);
    ("toLocaleString", JFun "toLocaleString" 0);
    ("__proto__", JObj ∅) ].

Definition inherited (k : string) : option JsVal :=
  snd <$> List.find (λ kv, String.eqb kv.1 k) objectPrototype.

(** [o[k]] on a plain object: its own property [k], else the member of that
    name it inherits, else [undefined]. *)
Definition get (k : string) (o : gmap string JsVal) : JsVal :=
  match o !! k with
  | Some v => v
  | None => default JUndefined (inherited k)
  end.

(** ** Reports, columns and rows *)

Record Column := { col_name : string; col_label : string }.

(** A row handed to the formatters: a flat record read by column name. *)
Abbreviation Row := (gmap string JsVal).

Record ReportSection := {
  sec_columns : option (list Column);
  sec_calculations : JsVal
}.

Record Report := {
  report_id : string;
  report_name : string;
  report_description : JsVal;
  report_tenantId : string;
  report_sections : option (list ReportSection);
  report_lastGeneratedAt : option Z;
  report_generationCount : Z
}.

(** [reportData] as the generate handler builds it; [None] stands for a
    field that is [undefined]. *)
Record ReportData := {
  rd_columns : option (list Column);
  rd_rows : option (list Row);
  rd_rowCount : nat;
  rd_summary : option (list (string * JsVal))
}.

Definition defaultColumns : list Column :=
  [ {| col_name := "name"; col_label := "Name" |};
    {| col_name := "email"; col_label := "Email" |};
    {| col_name := "role"; col_label := "Role" |};
    {| col_name := "availabilityStatus"; col_label := "Status" |} ].

(** [list.length > 0] behind a [x &&] guard. *)
Definition nonempty {A} (o : option (list A)) : bool :=
  match o with
  | Some (_ :: _) => true
  | _ => false
  end.

(** The cell of [generateExcelReport]: [row[c.name] || '']. *)
Definition excelCell (row : Row) (c : Column) : string :=
  toString (js_or (get (col_name c) row) (JStr "")).

(** [generateExcelReport]; [today] is [new Date().toLocaleDateString()]. *)
Definition generateExcelReport (today : string) (report : Report)
    (reportData : ReportData) : string :=
  let tsv := "" in
  let tsv := tsv +:+ report_name report +:+ nl in
  let tsv :=
    if truthy (report_description report)
    then tsv +:+ toString (report_description report) +:+ nl
    else tsv in
  let tsv := tsv +:+ "Generated: " +:+ today +:+ nl +:+ nl in
  let tsv :=
    if nonempty (rd_summary reportData)
    then
      let tsv := tsv +:+ "SUMMARY" +:+ nl in
      let tsv :=
        foldl (fun acc kv =>
                 acc +:+ replaceAll "_"%char " " kv.1 +:+ tab
                   +:+ toString kv.2 +:+ nl)
              tsv (default [] (rd_summary reportData)) in
      tsv +:+ nl +:+ nl
    else tsv in
  let tsv :=
    if nonempty (rd_rows reportData)
    then
      let columns := default defaultColumns (rd_columns reportData) in
      let tsv := tsv +:+ join tab (col_label <$> columns) +:+ nl in
      foldl (fun acc row => acc +:+ join tab (excelCell row <$> columns) +:+ nl)
            tsv (default [] (rd_rows reportData))
    else tsv in
  tsv.

(** The template literal that puts [s] between two double quotes. *)
Definition quoted (s : string) : string :=
  String dquote (s +:+ str1 dquote).

(** [String(value).replace] of every double quote by two of them. *)
Definition escapeQuotes (s : string) : string :=
  replaceAll dquote (String dquote (str1 dquote)) s.

(** The cell of [generateCSVReport]. *)
Definition csvCell (row : Row) (c : Column) : string :=
  let value := js_or (get (col_name c) row) (JStr "") in
  quoted (escapeQuotes (toString value)).

Definition csvHeader (columns : list Column) : string :=
  join (str1 comma) ((fun c => quoted (col_label c)) <$> columns) +:+ nl.

Definition csvLine (columns : list Column) (row : Row) : string :=
  join (str1 comma) (csvCell row <$> columns) +:+ nl.

(** [generateCSVReport] *)
Definition generateCSVReport (report : Report) (reportData : ReportData)
    : string :=
  let csv := "" in
  let csv :=
    if nonempty (rd_columns reportData)
    then csv +:+ csvHeader (default [] (rd_columns reportData))
    else csv in
  let csv :=
    if nonempty (rd_rows reportData)
    then
      let columns := default [] (rd_columns reportData) in
      foldl (fun acc row => acc +:+ csvLine columns row)
            csv (default [] (rd_rows reportData))
    else csv in
  csv.

(** ** Exceptions and the handler monad *)

(** A thrown value: an [Error] with its message, or anything else. *)
Inductive Exn :=
| ErrorObj (message : string)
| Thrown (v : JsVal).

Definition TypeError (message : string) : Exn := ErrorObj message.

(** [error instanceof Error ? error.message : 'Unknown error'] *)
Definition errorMessage (e : Exn) : string :=
  match e with
  | ErrorObj message => message
  | Thrown _ => "Unknown error"
  end.

Inductive Result (A : Type) :=
| Ok (a : A)
| Throw (e : Exn).
Arguments Ok {A} a.
Arguments Throw {A} e.

(** A computation over a store [S]: it ends with a value or an exception,
    and in both cases with the store as the writes so far left it. *)
Definition M (S A : Type) : Type := S → Result A * S.

#[export] Instance M_ret {S} : MRet (M S) := λ A a s, (Ok a, s).
#[export] Instance M_bind {S} : MBind (M S) := λ A B f m s,
  match m s with
  | (Ok a, s') => f a s'
  | (Throw e, s') => (Throw e, s')
  end.

Definition throw {S A} (e : Exn) : M S A := λ s, (Throw e, s).
Definition lift {S A} (r : Result A) : M S A := λ s, (r, s).
Definition gets {S A} (f : S → A) : M S A := λ s, (Ok (f s), s).
Definition modify {S} (f : S → S) : M S () := λ s, (Ok (), f s).

(** [try { body } catch (error) { handler(error) }] *)
Definition try_catch {S A} (body : M S A) (handler : Exn → M S A) : M S A :=
  λ s, match body s with
       | (Ok a, s') => (Ok a, s')
       | (Throw e, s') => handler e s'
       end.

(** ** The relational store *)

Record User := {
  user_id : string;
  user_tenantId : option string;
  user_name : JsVal;
  user_email : JsVal;
  user_phone : JsVal;
  user_role : JsVal;
  user_availabilityStatus : JsVal;
  user_department : JsVal;
  user_position : JsVal;
  user_createdAt : JsVal;
  user_lastLoginAt : JsVal
}.

Record ReportExecution := {
  rx_id : string;
  rx_reportId : string;
  rx_status : string;
  rx_executedAt : Z;
  rx_fileSizeBytes : option nat;
  rx_errorMessage : option string;
  rx_completedAt : option Z
}.

Record ExportSchedule := {
  es_id : string;
  es_name : JsVal;
  es_description : JsVal;
  es_frequency : JsVal;
  es_format : JsVal;
  es_recipients : JsVal;
  es_dayOfWeek : JsVal;
  es_dayOfMonth : JsVal;
  es_time : JsVal;
  es_emailSubject : JsVal;
  es_emailBody : JsVal;
  es_filterPresetId : JsVal;
  es_isActive : JsVal;
  es_tenantId : string;
  es_userId : string;
  es_createdAt : Z;
  es_updatedAt : Z
}.

Record ExportScheduleExecution := {
  ese_id : string;
  ese_scheduleId : string
}.

Record FilterPreset := {
  fp_id : string;
  fp_name : JsVal;
  fp_description : JsVal;
  fp_isPublic : JsVal;
  fp_icon : JsVal;
  fp_color : JsVal;
  fp_filterConfig : string;
  fp_filterLogic : JsVal;
  fp_tenantId : string;
  fp_createdBy : string;
  fp_updatedAt : Z
}.

Record Db := {
  users : list User;
  reports : list Report;
  reportExecutions : list ReportExecution;
  exportSchedules : list ExportSchedule;
  exportScheduleExecutions : list ExportScheduleExecution;
  filter_presets : list FilterPreset
}.

Definition emptyDb : Db :=
  {| users := []; reports := []; reportExecutions := [];
     exportSchedules := []; exportScheduleExecutions := [];
     filter_presets := [] |}.

Definition set_reports (f : list Report → list Report) (db : Db) : Db :=
  {| users := users db; reports := f (reports db);
     reportExecutions := reportExecutions db;
     exportSchedules := exportSchedules db;
     exportScheduleExecutions := exportScheduleExecutions db;
     filter_presets := filter_presets db |}.

Definition set_reportExecutions
    (f : list ReportExecution → list ReportExecution) (db : Db) : Db :=
  {| users := users db; reports := reports db;
     reportExecutions := f (reportExecutions db);
     exportSchedules := exportSchedules db;
     exportScheduleExecutions := exportScheduleExecutions db;
     filter_presets := filter_presets db |}.

Definition set_exportSchedules
    (f : list ExportSchedule → list ExportSchedule) (db : Db) : Db :=
  {| users := users db; reports := reports db;
     reportExecutions := reportExecutions db;
     exportSchedules := f (exportSchedules db);
     exportScheduleExecutions := exportScheduleExecutions db;
     filter_presets := filter_presets db |}.

Definition set_exportScheduleExecutions
    (f : list ExportScheduleExecution → list ExportScheduleExecution)
    (db : Db) : Db :=
  {| users := users db; reports := reports db;
     reportExecutions := reportExecutions db;
     exportSchedules := exportSchedules db;
     exportScheduleExecutions := f (exportScheduleExecutions db);
     filter_presets := filter_presets db |}.

Definition set_filter_presets
    (f : list FilterPreset → list FilterPreset) (db : Db) : Db :=
  {| users := users db; reports := reports db;
     reportExecutions := reportExecutions db;
     exportSchedules := exportSchedules db;
     exportScheduleExecutions := exportScheduleExecutions db;
     filter_presets := f (filter_presets db) |}.

(** *** The query layer

    What the handlers use of the ORM client, over one table: the row with a
    given key, a bulk update and a bulk delete by a [where] predicate, and a
    keyed update that throws when the row is missing.  [create] throws on a
    key the table already holds. *)

Module prisma.

Section Table.
Context {A : Type} (key : A → string).

Definition findUnique (id : string) (rows : list A) : option A :=
  List.find (λ r, String.eqb (key r) id) rows.

Definition updateMany (where_ : A → bool) (data : A → A)
    (rows : list A) : list A :=
  (λ r, if where_ r then data r else r) <$> rows.

Definition deleteMany (where_ : A → bool) (rows : list A) : list A :=
  filter (λ r, where_ r = false) rows.

(** The [count] a bulk operation reports: the rows its [where] matches. *)
Definition countWhere (where_ : A → bool) (rows : list A) : nat :=
  length (filter (λ r, where_ r = true) rows).

Definition create (row : A) (rows : list A) : Result (list A) :=
  match findUnique (key row) rows with
  | Some _ => Throw (ErrorObj "Unique constraint failed on the fields: (`id`)")
  | None => Ok (rows ++ [row])%list
  end.

Definition update (id : string) (data : A → A) (rows : list A)
    : Result (list A) :=
  match findUnique id rows with
  | Some _ => Ok (updateMany (λ r, String.eqb (key r) id) data rows)
  | None => Throw (ErrorObj "Record to update not found.")
  end.

Definition delete (id : string) (rows : list A) : Result (list A) :=
  match findUnique id rows with
  | Some _ => Ok (deleteMany (λ r, String.eqb (key r) id) rows)
  | None => Throw (ErrorObj "Record to delete does not exist.")
  end.
End Table.

End prisma.

(** ** Requests, responses and collaborators *)

Record Request := {
  req_forwarded_for : option string;   (* headers.get('x-forwarded-for') *)
  req_json : Result JsVal;             (* await request.json() *)
  req_ids : option string;             (* searchParams.get('ids') *)
  req_param_id : string                (* params.id *)
}.

(** The payload of a response, one constructor per shape the handlers send. *)
Inductive Body :=
| BError (error : string)
| BMessage (message : string)
| BSchedules (schedules : list (ExportSchedule * nat))
| BSchedule (schedule : ExportSchedule) (message : string)
| BDeleted (deletedCount : nat) (message : string)
| BFile (content : string)
| BPreset (preset : FilterPreset) (creator : option User) (filterConfig : JsVal)
| BHelperDefault.

Record Response := {
  status : Z;
  body : Body;
  headers : list (string * string)
}.

(** [NextResponse.json(body, { status })] *)
Definition json (st : Z) (b : Body) : Response :=
  {| status := st; body := b; headers := [] |}.

(** What the collaborators outside the handlers answer during one request:
    the rate limiter, the session provider, the permission service, the
    tenant context, the runtime ([crypto], the clock, [JSON]) and the report
    builder.  A call that can throw answers with a [Result]; the clock reads
    the same instant [now] throughout a request.  [getRandomUUID] is what
    the call [crypto.getRandomUUID()] of the handlers gives: the [crypto] of
    the platform has no member of that name (its method is [randomUUID]),
    so there the call throws [notAFunction].  [context_userId] is the
    user of the context that [requireTenantContext] hands to the callback of
    the generate handler, [tenantContext_userId] the [ctx?.userId] that the
    preset handlers read. *)
Record Env := {
  rateLimit : string → bool;
  getServerSession : option string;
  hasPermission : string → string → bool;
  getRandomUUID : Result string;
  now : Z;
  toLocaleDateString : string;
  context_userId : string;
  tenantContext_userId : option string;
  applyFilters : list Row → JsVal → Result (list Row);
  calculateSummaryStats :
    list Row → JsVal → Result (option (list (string * JsVal)));
  generateReportHTML : Report → ReportData → Result string;
  stringifyReportData : ReportData → string;
  JSON_parse : string → Result JsVal;
  JSON_stringify : JsVal → string
}.

(** What calling a member that an object does not have throws. *)
Definition notAFunction : Exn :=
  TypeError "crypto.getRandomUUID is not a function".

(** [header || 'anonymous'] *)
Definition identifier_of (req : Request) : string :=
  match req_forwarded_for req with
  | Some h => if String.eqb h "" then "anonymous" else h
  | None => "anonymous"
  end.

(** [session?.user?.id], kept when truthy. *)
Definition session_id (env : Env) : option string :=
  match getServerSession env with
  | Some id => if String.eqb id "" then None else Some id
  | None => None
  end.

(** A property of a destructured or dotted value: [null] and [undefined]
    have none and the read throws; an object answers with its own property
    or the one it inherits; of the names read here a function holds [name]
    and [length], and any other primitive or an array holds none. *)
Definition prop (k : string) (v : JsVal) : Result JsVal :=
  match v with
  | JUndefined | JNull =>
      Throw (TypeError ("Cannot read properties of null or undefined (reading " +:+ k +:+ ")"))
  | JObj o => Ok (get k o)
  | JFun name arity =>
      Ok (if String.eqb k "name" then JStr name
          else if String.eqb k "length" then JNum arity
          else JUndefined)
  | _ => Ok JUndefined
  end.

(** A destructuring default, [const { x = dflt } = body]: it applies to a
    property that is [undefined] and to no other. *)
Definition or_default (v dflt : JsVal) : JsVal :=
  match v with
  | JUndefined => dflt
  | _ => v
  end.

(** [v.length] of a truthy value. *)
Definition js_length (v : JsVal) : JsVal :=
  match v with
  | JArr l => JNum (Z.of_nat (length l))
  | JStr s => JNum (Z.of_nat (String.length s))
  | JObj o => get "length" o
  | JFun _ arity => JNum arity
  | _ => JUndefined
  end.

(** [v === 0] *)
Definition is_zero (v : JsVal) : bool :=
  match v with
  | JNum n => n =? 0
  | _ => false
  end.

(** [s.split(',')] for a one-character separator. *)
Fixpoint js_split (c : ascii) (s : string) : list string :=
  match s with
  | EmptyString => [EmptyString]
  | String a s' =>
      if Ascii.eqb a c then EmptyString :: js_split c s'
      else match js_split c s' with
           | x :: xs => String a x :: xs
           | [] => [str1 a]
           end
  end.

(** *** The recipient pattern [/^[^\s@]+@[^\s@]+\.[^\s@]+$/]

    Strings are sequences of code units below 256; of these, [\s] holds the
    six ASCII blanks and the no-break space. *)
Definition is_space (c : ascii) : bool :=
  let n := nat_of_ascii c in
  ((9 <=? n) && (n <=? 13) || (n =? 32) || (n =? 160))%nat.

(** [[^\s@]] *)
Definition plain (c : ascii) : bool :=
  negb (is_space c) && negb (Ascii.eqb c "@"%char).

Fixpoint all_plain (s : string) : bool :=
  match s with
  | EmptyString => true
  | String c s' => plain c && all_plain s'
  end.

(** The text before and after the first [c] of [s]. *)
Fixpoint cut (c : ascii) (s : string) : option (string * string) :=
  match s with
  | EmptyString => None
  | String a s' =>
      if Ascii.eqb a c then Some (EmptyString, s')
      else match cut c s' with
           | Some (l, r) => Some (String a l, r)
           | None => None
           end
  end.

(** [s] starts with a dot that has a character after it. *)
Definition dot_then_more (s : string) : bool :=
  match s with
  | String c (String _ _) => Ascii.eqb c "."%char
  | _ => false
  end.

(** Some dot of [s] has a character before it and one after it. *)
Fixpoint inner_dot (s : string) : bool :=
  match s with
  | EmptyString => false
  | String _ s' => dot_then_more s' || inner_dot s'
  end.

Definition emailRegex_test (email : JsVal) : bool :=
  match cut "@"%char (toString email) with
  | Some (local_part, domain) =>
      negb (String.eqb local_part "") && all_plain local_part
      && all_plain domain && inner_dot domain
  | None => false
  end.

(** What the pattern says, without the search: a local part, an at sign, and
    a domain with a dot inside, all three parts non-empty and free of blanks
    and at signs. *)
Definition EmailShaped (s : string) : Prop :=
  ∃ a b c,
    s = a +:+ "@" +:+ b +:+ "." +:+ c
    ∧ a ≠ "" ∧ b ≠ "" ∧ c ≠ ""
    ∧ all_plain a = true ∧ all_plain b = true ∧ all_plain c = true.

(** ** Store access inside a handler *)

(** A write through the query layer: the table changes when the operation
    succeeds and the exception is raised, the store untouched, when not. *)
Definition write {A} (table : Db → list A)
    (set : (list A → list A) → Db → Db)
    (op : list A → Result (list A)) : M Db () :=
  λ db, match op (table db) with
        | Ok rows => (Ok (), set (λ _, rows) db)
        | Throw e => (Throw e, db)
        end.

(** [user?.tenantId], kept when truthy. *)
Definition tenant_of (user : option User) : option string :=
  match user with
  | Some u =>
      match user_tenantId u with
      | Some t => if String.eqb t "" then None else Some t
      | None => None
      end
  | None => None
  end.

(** ** The export-schedule handlers
    (/api/admin/users/exports/schedule) *)

Module ScheduleRoute.

(** [id: { in: ids }] on a list of JSON values. *)
Definition id_in (ids : list JsVal) (id : string) : bool :=
  existsb (λ v, str_eq v id) ids.

(** [recipients.some((email) => !emailRegex.test(email))] *)
Definition some_invalid (recipients : JsVal) : Result bool :=
  match recipients with
  | JArr l => Ok (existsb (λ email, negb (emailRegex_test email)) l)
  | _ => Throw (TypeError "recipients.some is not a function")
  end.

(** The value the bulk update writes: the object literal [{ not: true }]. *)
Definition not_true : JsVal := JObj {[ "not" := JBool true ]}.

Definition set_isActive (v : JsVal) (s : ExportSchedule) : ExportSchedule :=
  {| es_id := es_id s; es_name := es_name s;
     es_description := es_description s; es_frequency := es_frequency s;
     es_format := es_format s; es_recipients := es_recipients s;
     es_dayOfWeek := es_dayOfWeek s; es_dayOfMonth := es_dayOfMonth s;
     es_time := es_time s; es_emailSubject := es_emailSubject s;
     es_emailBody := es_emailBody s;
     es_filterPresetId := es_filterPresetId s;
     es_isActive := v;
     es_tenantId := es_tenantId s; es_userId := es_userId s;
     es_createdAt := es_createdAt s; es_updatedAt := es_updatedAt s |}.

(** The three gates every schedule handler starts with are passed: the rate
    limiter lets the request through, the session names the user [uid], and
    [uid] holds the export permission. *)
Definition admitted (env : Env) (req : Request) (uid : string) : Prop :=
  rateLimit env (identifier_of req) = true
  ∧ session_id env = Some uid
  ∧ hasPermission env uid "admin:users:export" = true.

(** [prisma.exportSchedule.count({ where: { tenantId } })] *)
Definition countSchedules (tenantId : string) (db : Db) : nat :=
  length (filter (λ s, es_tenantId s = tenantId) (exportSchedules db)).

(** [_count: { select: { executions: true } }] *)
Definition executionCount (db : Db) (s : ExportSchedule) : nat :=
  length (filter (λ e, ese_scheduleId e = es_id s)
                 (exportScheduleExecutions db)).

(** [orderBy: { createdAt: 'desc' }] *)
Definition newest_first (a b : ExportSchedule) : Prop :=
  es_createdAt b ≤ es_createdAt a.

#[export] Instance newest_first_dec : RelDecision newest_first.
Proof. intros a b. unfold newest_first. apply _. Defined.

(** GET: the schedules of the caller's tenant, newest first. *)
Definition GET (env : Env) (req : Request) : M Db Response :=
  try_catch
    (if negb (rateLimit env (identifier_of req))
     then mret (json 429 (BError "Rate limit exceeded"))
     else match session_id env with
     | None => mret (json 401 (BError "Unauthorized"))
     | Some uid =>
     if negb (hasPermission env uid "admin:users:export")
     then mret (json 403 (BError "Forbidden"))
     else
       user ← gets (λ db, prisma.findUnique user_id uid (users db));
       match tenant_of user with
       | None => mret (json 400 (BError "User not associated with tenant"))
       | Some tenantId =>
           schedules ← gets (λ db,
             (λ s, (s, executionCount db s)) <$>
               merge_sort newest_first
                 (filter (λ s, es_tenantId s = tenantId)
                         (exportSchedules db)));
           mret (json 200 (BSchedules schedules))
       end
     end)
    (λ error, mret (json 500 (BError "Failed to fetch export schedules"))).

(** POST, past its gates: parse, validate, check the limit, create. *)
Definition createSchedule (env : Env) (req : Request) (uid tenantId : string)
    : M Db Response :=
  body ← lift (req_json req);
  name ← lift (prop "name" body);
  description ← lift (prop "description" body);
  frequency ← lift (prop "frequency" body);
  format ← lift (prop "format" body);
  recipients ← lift (prop "recipients" body);
  dayOfWeek ← lift (prop "dayOfWeek" body);
  dayOfMonth ← lift (prop "dayOfMonth" body);
  time ← lift (prop "time" body);
  emailSubject ← lift (prop "emailSubject" body);
  emailBody ← lift (prop "emailBody" body);
  filterPresetId ← lift (prop "filterPresetId" body);
  isActive ← lift (prop "isActive" body);
  let isActive := or_default isActive (JBool true) in
  if falsy name || falsy frequency || falsy format || falsy recipients
     || is_zero (js_length recipients)
  then mret (json 400
         (BError "Missing required fields: name, frequency, format, recipients"))
  else if negb (existsb (str_eq format) ["csv"; "xlsx"; "json"; "pdf"])
  then mret (json 400 (BError "Invalid export format"))
  else
    invalid ← lift (some_invalid recipients);
    if invalid : bool
    then mret (json 400 (BError "One or more recipient emails are invalid"))
    else
      existingSchedules ← gets (countSchedules tenantId);
      if (20 <=? existingSchedules)%nat
      then mret (json 400
             (BError "Maximum number of export schedules (20) reached for this tenant"))
      else
        id ← lift (getRandomUUID env);
        let schedule :=
          {| es_id := id; es_name := name;
             es_description := description;
             es_frequency := frequency; es_format := format;
             es_recipients := recipients;
             es_dayOfWeek := js_or dayOfWeek JNull;
             es_dayOfMonth := js_or dayOfMonth JNull;
             es_time := js_or time (JStr "09:00");
             es_emailSubject := emailSubject;
             es_emailBody := emailBody;
             es_filterPresetId := js_or filterPresetId JNull;
             es_isActive := isActive;
             es_tenantId := tenantId; es_userId := uid;
             es_createdAt := now env; es_updatedAt := now env |} in
        write exportSchedules set_exportSchedules
          (prisma.create es_id schedule);;
        mret (json 200
          (BSchedule schedule "Export schedule created successfully")).

(** POST: create a schedule. *)
Definition POST (env : Env) (req : Request) : M Db Response :=
  try_catch
    (if negb (rateLimit env (identifier_of req))
     then mret (json 429 (BError "Rate limit exceeded"))
     else match session_id env with
     | None => mret (json 401 (BError "Unauthorized"))
     | Some uid =>
     if negb (hasPermission env uid "admin:users:export")
     then mret (json 403 (BError "Forbidden"))
     else
       user ← gets (λ db, prisma.findUnique user_id uid (users db));
       match tenant_of user with
       | None => mret (json 400 (BError "User not associated with tenant"))
       | Some tenantId => createSchedule env req uid tenantId
       end
     end)
    (λ error, mret (json 500 (BError "Failed to create export schedule"))).

(** PATCH, past its gates: the bulk operation [toggleActive]. *)
Definition bulkUpdate (req : Request) : M Db Response :=
  body ← lift (req_json req);
  action ← lift (prop "action" body);
  scheduleIds ← lift (prop "scheduleIds" body);
  match str_eq action "toggleActive", scheduleIds with
  | true, JArr ids =>
      modify (set_exportSchedules
                (prisma.updateMany (λ s, id_in ids (es_id s))
                                   (set_isActive not_true)));;
      mret (json 200 (BMessage "Schedules updated"))
  | _, _ => mret (json 400 (BError "Invalid action"))
  end.

(** PATCH: update several schedules at once. *)
Definition PATCH (env : Env) (req : Request) : M Db Response :=
  try_catch
    (if negb (rateLimit env (identifier_of req))
     then mret (json 429 (BError "Rate limit exceeded"))
     else match session_id env with
     | None => mret (json 401 (BError "Unauthorized"))
     | Some uid =>
     if negb (hasPermission env uid "admin:users:export")
     then mret (json 403 (BError "Forbidden"))
     else bulkUpdate req
     end)
    (λ error, mret (json 500 (BError "Failed to update export schedules"))).

(** [searchParams.get('ids')?.split(',') || []] *)
Definition ids_of (req : Request) : list string :=
  match req_ids req with
  | Some s => js_split comma s
  | None => []
  end.

(** DELETE, past its gates: the schedules named by [?ids=id1,id2,...] and
    their executions. *)
Definition bulkDelete (req : Request) : M Db Response :=
  let ids := ids_of req in
  if (length ids =? 0)%nat
  then mret (json 400 (BError "No schedule IDs provided"))
  else
    modify (set_exportScheduleExecutions
              (prisma.deleteMany (λ e, bool_decide (ese_scheduleId e ∈ ids))));;
    count ← gets (λ db,
      prisma.countWhere (λ s, bool_decide (es_id s ∈ ids)) (exportSchedules db));
    modify (set_exportSchedules
              (prisma.deleteMany (λ s, bool_decide (es_id s ∈ ids))));;
    mret (json 200
      (BDeleted count (pretty count +:+ " schedule(s) deleted"))).

(** DELETE: delete several schedules at once. *)
Definition DELETE (env : Env) (req : Request) : M Db Response :=
  try_catch
    (if negb (rateLimit env (identifier_of req))
     then mret (json 429 (BError "Rate limit exceeded"))
     else match session_id env with
     | None => mret (json 401 (BError "Unauthorized"))
     | Some uid =>
     if negb (hasPermission env uid "admin:users:export")
     then mret (json 403 (BError "Forbidden"))
     else bulkDelete req
     end)
    (λ error, mret (json 500 (BError "Failed to delete export schedules"))).

End ScheduleRoute.

(** ** The report generation handler
    (POST /api/admin/reports/[id]/generate) *)

Module GenerateRoute.

(** The [select] of the user query: the ten columns of a report row. *)
Definition user_select (u : User) : Row :=
  list_to_map
    [ ("id", JStr (user_id u)); ("name", user_name u);
      ("email", user_email u); ("phone", user_phone u);
      ("role", user_role u);
      ("availabilityStatus", user_availabilityStatus u);
      ("department", user_department u); ("position", user_position u);
      ("createdAt", user_createdAt u);
      ("lastLoginAt", user_lastLoginAt u) ].

(** [name.replace(/\s+/g, '-')]: every run of blanks becomes one dash. *)
Fixpoint dash_blanks (in_run : bool) (s : string) : string :=
  match s with
  | EmptyString => EmptyString
  | String c s' =>
      if is_space c
      then if in_run then dash_blanks true s'
           else String "-"%char (dash_blanks true s')
      else String c (dash_blanks false s')
  end.

(** [Buffer.byteLength(s)], the length of the UTF-8 encoding: one byte for
    a code unit below 128, two for the others below 256. *)
Fixpoint byteLength (s : string) : nat :=
  match s with
  | EmptyString => 0
  | String c s' =>
      ((if nat_of_ascii c <? 128 then 1 else 2) + byteLength s')%nat
  end.

(** [report.sections[0]]: the read throws when [sections] is missing. *)
Definition first_section (report : Report) : Result (option ReportSection) :=
  match report_sections report with
  | Some l => Ok (head l)
  | None =>
      Throw (TypeError "Cannot read properties of undefined (reading '0')")
  end.

Definition set_completed (size : nat) (at_ : Z) (r : ReportExecution)
    : ReportExecution :=
  {| rx_id := rx_id r; rx_reportId := rx_reportId r;
     rx_status := "completed"; rx_executedAt := rx_executedAt r;
     rx_fileSizeBytes := Some size; rx_errorMessage := rx_errorMessage r;
     rx_completedAt := Some at_ |}.

Definition set_failed (message : string) (at_ : Z) (r : ReportExecution)
    : ReportExecution :=
  {| rx_id := rx_id r; rx_reportId := rx_reportId r;
     rx_status := "failed"; rx_executedAt := rx_executedAt r;
     rx_fileSizeBytes := rx_fileSizeBytes r;
     rx_errorMessage := Some message;
     rx_completedAt := Some at_ |}.

Definition set_generated (at_ : Z) (r : Report) : Report :=
  {| report_id := report_id r; report_name := report_name r;
     report_description := report_description r;
     report_tenantId := report_tenantId r;
     report_sections := report_sections r;
     report_lastGeneratedAt := Some at_;
     report_generationCount := report_generationCount r + 1 |}.

(** The body of the inner [try]: fetch, filter, format, record success. *)
Definition generate (env : Env) (report : Report) (execution : ReportExecution)
    (format filters : JsVal) : M Db Response :=
  users ← gets (λ db,
    user_select <$>
      filter (λ u, user_tenantId u = Some (report_tenantId report)) (users db));
  data ← (if truthy filters then lift (applyFilters env users filters)
          else mret users);
  section0 ← lift (first_section report);
  let columns := default [] (section0 ≫= sec_columns) in
  section0' ← lift (first_section report);
  let calculations :=
    js_or (default JUndefined (sec_calculations <$> section0')) (JArr []) in
  summary ← lift (calculateSummaryStats env data calculations);
  let reportData :=
    {| rd_columns := Some columns; rd_rows := Some data;
       rd_rowCount := length data; rd_summary := summary |} in
  let filename :=
    dash_blanks false (report_name report) +:+ "-" +:+ pretty (now env) in
  '(generatedContent, contentType, filename) ←
    (if str_eq format "pdf" then
       html ← lift (generateReportHTML env report reportData);
       mret (html, "text/html", filename +:+ ".html")
     else if str_eq format "xlsx" then
       mret (generateExcelReport (toLocaleDateString env) report reportData,
             "text/tab-separated-values", filename +:+ ".xlsx")
     else if str_eq format "csv" then
       mret (generateCSVReport report reportData,
             "text/csv", filename +:+ ".csv")
     else if str_eq format "json" then
       mret (stringifyReportData env reportData,
             "application/json", filename +:+ ".json")
     else mret ("", "text/html", filename));
  write reportExecutions set_reportExecutions
    (prisma.update rx_id (rx_id execution)
       (set_completed (byteLength generatedContent) (now env)));;
  write reports set_reports
    (prisma.update report_id (report_id report) (set_generated (now env)));;
  mret {| status := 200; body := BFile generatedContent;
          headers :=
            [ ("Content-Type", contentType);
              ("Content-Disposition",
               "attachment; filename=" +:+ quoted filename) ] |}.

(** The inner [try]/[catch]: a failure is recorded on the execution, then
    thrown again. *)
Definition attempt (env : Env) (report : Report) (execution : ReportExecution)
    (format filters : JsVal) : M Db Response :=
  try_catch
    (generate env report execution format filters)
    (λ error,
       write reportExecutions set_reportExecutions
         (prisma.update rx_id (rx_id execution)
            (set_failed (errorMessage error) (now env)));;
       throw error).

(** The execution record a generation starts with. *)
Definition newExecution (env : Env) (report : Report) (id : string)
    : ReportExecution :=
  {| rx_id := id; rx_reportId := report_id report;
     rx_status := "generating"; rx_executedAt := now env;
     rx_fileSizeBytes := None; rx_errorMessage := None;
     rx_completedAt := None |}.



Definition POST (env : Env) (req : Request) : M Db Response :=
  try_catch
    (if negb (rateLimit env (identifier_of req))
     then mret (json 429 (BError "Rate limit exceeded"))
     else if negb (hasPermission env (context_userId env)
                     "admin:reports:generate")
     then mret (json 403 (BError "Forbidden"))
     else
       found ← gets (λ db,
         prisma.findUnique report_id (req_param_id req) (reports db));
       match found with
       | None => mret (json 404 (BError "Report not found"))
       | Some report =>
       body ← lift (req_json req);
       format ← lift (prop "format" body);
       let format := or_default format (JStr "pdf") in
       filters ← lift (prop "filters" body);
       if negb (existsb (str_eq format) ["pdf"; "xlsx"; "csv"; "json"])
       then mret (json 400
              (BError "Invalid export format. Supported: pdf, xlsx, csv, json"))
       else
         id ← lift (getRandomUUID env);
         let execution := newExecution env report id in
         write reportExecutions set_reportExecutions
           (prisma.create rx_id execution);;
         attempt env report execution format filters
       end)
    (λ error, mret (json 500 (BError "Failed to generate report"))).

End GenerateRoute.

(** ** The filter-preset handlers (/api/admin/filter-presets/[id]) *)

Module FilterPresetRoute.

(** Modelled from the spec: the response helper [respond] of
    [@/lib/api-response] is not among the sources.  The spec's error taxonomy
    gives the status of each helper (401 authentication, 403 authorization,
    404 not found, 409 uniqueness conflict, 500 unexpected failure); the
    payload a helper attaches when the handler passes none is left as
    [BHelperDefault]. *)
Module respond.
Definition ok (b : Body) : Response := json 200 b.
Definition unauthorized : Response := json 401 BHelperDefault.
Definition forbidden : Response := json 403 BHelperDefault.
Definition notFound : Response := json 404 BHelperDefault.
Definition conflict (message : string) : Response :=
  json 409 (BError message).
Definition serverError (message : string) : Response :=
  json 500 (BError message).
End respond.

(** [ctx?.userId], kept when truthy. *)
Definition ctx_userId (env : Env) : option string :=
  match tenantContext_userId env with
  | Some id => if String.eqb id "" then None else Some id
  | None => None
  end.

(** [a === b] on values of which at least one was just parsed from JSON:
    primitives compare by value, objects are never the same object. *)
Definition strict_eq (a b : JsVal) : bool :=
  match a, b with
  | JUndefined, JUndefined | JNull, JNull => true
  | JBool x, JBool y => bool_decide (x = y)
  | JNum x, JNum y => x =? y
  | JStr x, JStr y => String.eqb x y
  | _, _ => false
  end.

(** [if (v !== undefined) updateData.k = v] *)
Definition assigned (v old : JsVal) : JsVal :=
  match v with
  | JUndefined => old
  | _ => v
  end.

(** [include: { creator: ... }] *)
Definition creator_of (db : Db) (p : FilterPreset) : option User :=
  prisma.findUnique user_id (fp_createdBy p) (users db).

(** GET: one preset, for its owner or when it is public. *)
Definition GET (env : Env) (req : Request) : M Db Response :=
  try_catch
    (match ctx_userId env with
     | None => mret respond.unauthorized
     | Some userId =>
       found ← gets (λ db,
         prisma.findUnique fp_id (req_param_id req) (filter_presets db));
       match found with
       | None => mret respond.notFound
       | Some preset =>
         if falsy (fp_isPublic preset)
            && negb (String.eqb (fp_createdBy preset) userId)
         then mret respond.forbidden
         else
           creator ← gets (λ db, creator_of db preset);
           filterConfig ← lift (JSON_parse env (fp_filterConfig preset));
           mret (respond.ok (BPreset preset creator filterConfig))
       end
     end)
    (λ error, mret (respond.serverError "Failed to fetch preset")).

(** PATCH: update a preset; only its owner may. *)
Definition PATCH (env : Env) (req : Request) : M Db Response :=
  try_catch
    (match ctx_userId env with
     | None => mret respond.unauthorized
     | Some userId =>
       found ← gets (λ db,
         prisma.findUnique fp_id (req_param_id req) (filter_presets db));
       match found with
       | None => mret respond.notFound
       | Some preset =>
         if negb (String.eqb (fp_createdBy preset) userId)
         then mret respond.forbidden
         else
           body ← lift (req_json req);
           name ← lift (prop "name" body);
           description ← lift (prop "description" body);
           isPublic ← lift (prop "isPublic" body);
           icon ← lift (prop "icon" body);
           color ← lift (prop "color" body);
           filterConfig ← lift (prop "filterConfig" body);
           logic ← (match filterConfig with
                    | JUndefined => mret JUndefined
                    | _ => logic ← lift (prop "logic" filterConfig);
                           mret (js_or logic (JStr "AND"))
                    end);
           let updateData (p : FilterPreset) : FilterPreset :=
             {| fp_id := fp_id p;
                fp_name := assigned name (fp_name p);
                fp_description := assigned description (fp_description p);
                fp_isPublic := assigned isPublic (fp_isPublic p);
                fp_icon := assigned icon (fp_icon p);
                fp_color := assigned color (fp_color p);
                fp_filterConfig :=
                  match filterConfig with
                  | JUndefined => fp_filterConfig p
                  | _ => JSON_stringify env filterConfig
                  end;
                fp_filterLogic := assigned logic (fp_filterLogic p);
                fp_tenantId := fp_tenantId p;
                fp_createdBy := fp_createdBy p;
                fp_updatedAt := now env |} in
           existing ← (if truthy name && negb (strict_eq name (fp_name preset))
                       then gets (λ db,
                         List.find
                           (λ p, String.eqb (fp_tenantId p) (fp_tenantId preset)
                                 && strict_eq (fp_name p) name
                                 && String.eqb (fp_createdBy p) userId
                                 && negb (String.eqb (fp_id p) (req_param_id req)))
                           (filter_presets db))
                       else mret None);
           match existing with
           | Some _ =>
               mret (respond.conflict
                       "Another preset with this name already exists")
           | None =>
               write filter_presets set_filter_presets
                 (prisma.update fp_id (req_param_id req) updateData);;
               updated ← gets (λ db,
                 prisma.findUnique fp_id (req_param_id req) (filter_presets db));
               let updatedPreset := default (updateData preset) updated in
               creator ← gets (λ db, creator_of db updatedPreset);
               parsed ← lift (JSON_parse env (fp_filterConfig updatedPreset));
               mret (respond.ok (BPreset updatedPreset creator parsed))
           end
       end
     end)
    (λ error, mret (respond.serverError "Failed to update preset")).

(** DELETE: remove a preset; only its owner may. *)
Definition DELETE (env : Env) (req : Request) : M Db Response :=
  try_catch
    (match ctx_userId env with
     | None => mret respond.unauthorized
     | Some userId =>
       found ← gets (λ db,
         prisma.findUnique fp_id (req_param_id req) (filter_presets db));
       match found with
       | None => mret respond.notFound
       | Some preset =>
         if negb (String.eqb (fp_createdBy preset) userId)
         then mret respond.forbidden
         else
           write filter_presets set_filter_presets
             (prisma.delete fp_id (req_param_id req));;
           mret (respond.ok (BMessage "Preset deleted successfully"))
       end
     end)
    (λ error, mret (respond.serverError "Failed to delete preset")).

End FilterPresetRoute.

(** ** The service as a whole: one request at a time *)

Inductive Operation :=
| GenerateReport
| ListSchedules
| CreateSchedule
| ToggleSchedules
| DeleteSchedules
| GetPreset
| UpdatePreset
| DeletePreset.

Definition handle (op : Operation) : Env → Request → M Db Response :=
  match op with
  | GenerateReport => GenerateRoute.POST
  | ListSchedules => ScheduleRoute.GET
  | CreateSchedule => ScheduleRoute.POST
  | ToggleSchedules => ScheduleRoute.PATCH
  | DeleteSchedules => ScheduleRoute.DELETE
  | GetPreset => FilterPresetRoute.GET
  | UpdatePreset => FilterPresetRoute.PATCH
  | DeletePreset => FilterPresetRoute.DELETE
  end.

(** The store after a sequence of requests, each handled to its end before
    the next one starts. *)
Fixpoint run (requests : list (Operation * Env * Request)) (db : Db) : Db :=
  match requests with
  | [] => db
  | (op, env, req) :: rest => run rest (handle op env req db).2
  end.

(** [keeps R m]: from every store, [m] ends in a store related to it by [R],
    whether it returns or throws. *)
Definition keeps (R : Db → Db → Prop) {A} (m : M Db A) : Prop :=
  ∀ db, R db (m db).2.

(** One step of symbolic execution: the monad's operations unfolded. *)
Ltac run_monad :=
  unfold mbind, M_bind, mret, M_ret, lift, gets, modify, throw, write,
    try_catch;
  cbn beta iota.

(** No tenant holds more than twenty export schedules. *)
Definition within_limit (db : Db) : Prop :=
  ∀ tenantId, (ScheduleRoute.countSchedules tenantId db ≤ 20)%nat.

(** The limit is kept from one store to the next. *)
Definition limit_kept (db db' : Db) : Prop :=
  within_limit db → within_limit db'.

(** A destructured property of the body, [undefined] when the body has
    none. *)
Definition field (k : string) (body : JsVal) : JsVal :=
  match prop k body with
  | Ok v => v
  | Throw _ => JUndefined
  end.

(** The parsed body of a request, [undefined] when parsing throws. *)
Definition field_of_json (req : Request) : JsVal :=
  match req_json req with
  | Ok body => body
  | Throw _ => JUndefined
  end.

(** A body that passes the validation of the creation handler. *)
Definition validCreation (body : JsVal) : Prop :=
  truthy (field "name" body) = true
  ∧ truthy (field "frequency" body) = true
  ∧ existsb (str_eq (field "format" body)) ["csv"; "xlsx"; "json"; "pdf"]
    = true
  ∧ ∃ l, field "recipients" body = JArr l
         ∧ l ≠ [] ∧ forallb emailRegex_test l = true.

(** A row without its falsy fields. *)
Definition drop_falsy (row : Row) : Row :=
  filter (λ kv, truthy kv.2 = true) row.

(** [reportData] with another row set. *)
Definition with_rows (rd : ReportData) (rows : list Row) : ReportData :=
  {| rd_columns := rd_columns rd; rd_rows := Some rows;
     rd_rowCount := length rows; rd_summary := rd_summary rd |}.

(** A label that holds a double quote, and a column that carries it. *)
Definition quoteLabel : string := "a" +:+ str1 dquote +:+ "b".
Definition quoteColumn : Column :=
  {| col_name := "n"; col_label := quoteLabel |}.
Definition headerOnly : ReportData :=
  {| rd_columns := Some [quoteColumn]; rd_rows := Some [];
     rd_rowCount := 0; rd_summary := None |}.

(** A column whose name is not that of a member every object inherits, so
    that a row answers for it with its own field or with [undefined]. *)
Definition own_name (c : Column) : Prop := inherited (col_name c) = None.

(** A column named after the constructor that rows inherit. *)
Definition constructorColumn : Column :=
  {| col_name := "constructor"; col_label := "Constructor" |}.

(** ** Sample data

    A caller the gates admit, a store whose tenant [t1] holds twenty
    schedules and whose tenant [t2] holds one, and a few requests.  The
    environments are those of the platform: [crypto.getRandomUUID()]
    throws. *)

Definition sampleEnv : Env :=
  {| rateLimit := λ _, true;
     getServerSession := Some "u1";
     hasPermission := λ _ _, true;
     getRandomUUID := Throw notAFunction;
     now := 1700000000000;
     toLocaleDateString := "1/1/2025";
     context_userId := "u1";
     tenantContext_userId := Some "u1";
     applyFilters := λ rows _, Ok rows;
     calculateSummaryStats := λ _ _, Ok None;
     generateReportHTML := λ _ _, Ok "<html></html>";
     stringifyReportData := λ _, "{}";
     JSON_parse := λ _, Ok (JObj ∅);
     JSON_stringify := λ _, "{}" |}.

(** A caller without a session. *)
Definition anonymousEnv : Env :=
  {| rateLimit := λ _, true;
     getServerSession := None;
     hasPermission := λ _ _, true;
     getRandomUUID := Throw notAFunction;
     now := 1700000000000;
     toLocaleDateString := "1/1/2025";
     context_userId := "";
     tenantContext_userId := None;
     applyFilters := λ rows _, Ok rows;
     calculateSummaryStats := λ _ _, Ok None;
     generateReportHTML := λ _ _, Ok "<html></html>";
     stringifyReportData := λ _, "{}";
     JSON_parse := λ _, Ok (JObj ∅);
     JSON_stringify := λ _, "{}" |}.

Definition sampleUser (id tenantId : string) : User :=
  {| user_id := id; user_tenantId := Some tenantId;
     user_name := JStr "Ann"; user_email := JStr "ann@example.com";
     user_phone := JNull; user_role := JStr "ADMIN";
     user_availabilityStatus := JStr "AVAILABLE";
     user_department := JNull; user_position := JNull;
     user_createdAt := JDate "2025-01-01"; user_lastLoginAt := JNull |}.

Definition sampleSchedule (id tenantId : string) (isActive : JsVal)
    : ExportSchedule :=
  {| es_id := id; es_name := JStr "Weekly"; es_description := JUndefined;
     es_frequency := JStr "weekly"; es_format := JStr "csv";
     es_recipients := JArr [JStr "ann@example.com"];
     es_dayOfWeek := JNull; es_dayOfMonth := JNull;
     es_time := JStr "09:00"; es_emailSubject := JUndefined;
     es_emailBody := JUndefined; es_filterPresetId := JNull;
     es_isActive := isActive; es_tenantId := tenantId; es_userId := "u1";
     es_createdAt := 0; es_updatedAt := 0 |}.

Definition twentySchedules : list ExportSchedule :=
  (λ n, sampleSchedule (str1 (ascii_of_nat (65 + n))) "t1"
          (JBool (Nat.even n)))
    <$> seq 0 20.

Definition sampleDb : Db :=
  {| users := [sampleUser "u1" "t1"];
     reports := [];
     reportExecutions := [];
     exportSchedules :=
       (twentySchedules ++ [sampleSchedule "other" "t2" (JBool true)])%list;
     exportScheduleExecutions :=
       [ {| ese_id := "e1"; ese_scheduleId := "other" |} ];
     filter_presets := [] |}.

Definition requestWith (body : JsVal) : Request :=
  {| req_forwarded_for := None; req_json := Ok body;
     req_ids := None; req_param_id := "" |}.

(** A caller the rate limiter turns away. *)
Definition throttledEnv : Env :=
  {| rateLimit := λ _, false;
     getServerSession := Some "u1";
     hasPermission := λ _ _, true;
     getRandomUUID := Throw notAFunction;
     now := 1700000000000;
     toLocaleDateString := "1/1/2025";
     context_userId := "u1";
     tenantContext_userId := Some "u1";
     applyFilters := λ rows _, Ok rows;
     calculateSummaryStats := λ _ _, Ok None;
     generateReportHTML := λ _ _, Ok "<html></html>";
     stringifyReportData := λ _, "{}";
     JSON_parse := λ _, Ok (JObj ∅);
     JSON_stringify := λ _, "{}" |}.

(** The user [u1] with a session but without any permission. *)
Definition unprivilegedEnv : Env :=
  {| rateLimit := λ _, true;
     getServerSession := Some "u1";
     hasPermission := λ _ _, false;
     getRandomUUID := Throw notAFunction;
     now := 1700000000000;
     toLocaleDateString := "1/1/2025";
     context_userId := "u1";
     tenantContext_userId := Some "u1";
     applyFilters := λ rows _, Ok rows;
     calculateSummaryStats := λ _ _, Ok None;
     generateReportHTML := λ _ _, Ok "<html></html>";
     stringifyReportData := λ _, "{}";
     JSON_parse := λ _, Ok (JObj ∅);
     JSON_stringify := λ _, "{}" |}.

(** A bulk toggle of the schedules [A] and [B]. *)
Definition toggleBody : JsVal :=
  JObj (list_to_map
    [ ("action", JStr "toggleActive");
      ("scheduleIds", JArr [JStr "A"; JStr "B"]) ]).

(** A bulk toggle of the schedule [other], which belongs to tenant [t2]. *)
Definition toggleOther : Request :=
  requestWith (JObj (list_to_map
    [ ("action", JStr "toggleActive");
      ("scheduleIds", JArr [JStr "other"]) ])).

(** A bulk delete of the schedule [other], which belongs to tenant [t2]. *)
Definition deleteOther : Request :=
  {| req_forwarded_for := None; req_json := Throw (ErrorObj "no body");
     req_ids := Some "other"; req_param_id := "" |}.

(** A private preset of user [u2], and a store that holds it. *)
Definition privatePreset : FilterPreset :=
  {| fp_id := "p1"; fp_name := JStr "Mine"; fp_description := JNull;
     fp_isPublic := JBool false; fp_icon := JNull; fp_color := JNull;
     fp_filterConfig := "{}"; fp_filterLogic := JStr "AND";
     fp_tenantId := "t1"; fp_createdBy := "u2"; fp_updatedAt := 0 |}.

Definition presetDb : Db :=
  {| users := [sampleUser "u1" "t1"; sampleUser "u2" "t1"];
     reports := []; reportExecutions := []; exportSchedules := [];
     exportScheduleExecutions := []; filter_presets := [privatePreset] |}.

(** A public preset of user [u2] in the same store. *)
Definition publicPreset : FilterPreset :=
  {| fp_id := "p2"; fp_name := JStr "Shared"; fp_description := JNull;
     fp_isPublic := JBool true; fp_icon := JNull; fp_color := JNull;
     fp_filterConfig := "{}"; fp_filterLogic := JStr "AND";
     fp_tenantId := "t1"; fp_createdBy := "u2"; fp_updatedAt := 0 |}.

Definition sharedDb : Db :=
  {| users := [sampleUser "u1" "t1"; sampleUser "u2" "t1"];
     reports := []; reportExecutions := []; exportSchedules := [];
     exportScheduleExecutions := [];
     filter_presets := [privatePreset; publicPreset] |}.

Definition sharedRequest : Request :=
  {| req_forwarded_for := None; req_json := Ok (JObj ∅);
     req_ids := None; req_param_id := "p2" |}.

Definition presetRequest : Request :=
  {| req_forwarded_for := None;
     req_json := Ok (JObj {[ "name" := JStr "Taken over" ]});
     req_ids := None; req_param_id := "p1" |}.

(** A report whose [sections] is missing, so that formatting it throws. *)
Definition brokenReport : Report :=
  {| report_id := "r1"; report_name := "Team list";
     report_description := JNull; report_tenantId := "t1";
     report_sections := None; report_lastGeneratedAt := None;
     report_generationCount := 0 |}.

Definition reportDb : Db :=
  {| users := [sampleUser "u1" "t1"]; reports := [brokenReport];
     reportExecutions := []; exportSchedules := [];
     exportScheduleExecutions := []; filter_presets := [] |}.

Definition generateRequest : Request :=
  {| req_forwarded_for := None;
     req_json := Ok (JObj {[ "format" := JStr "csv" ]});
     req_ids := None; req_param_id := "r1" |}.

(** A body that would create a schedule. *)
Definition validBody : JsVal :=
  JObj (list_to_map
    [ ("name", JStr "Weekly"); ("frequency", JStr "weekly");
      ("format", JStr "csv");
      ("recipients", JArr [JStr "ann@example.com"]) ]).

(** ** Standard CSV quoting

    The reading that the CSV output is measured against (RFC 4180): a field
    is bare or enclosed in double quotes; inside quotes a quote is written
    twice; a quote anywhere else is an error.  [parseCsv] reads a text into
    its records, carrying the field and the record read so far. *)

Inductive CsvState := FieldStart | InBare | InQuoted | AfterQuote.

Fixpoint parseCsv (st : CsvState) (field_ : string) (record : list string)
    (s : string) : option (list (list string)) :=
  match s with
  | EmptyString =>
      match st, record with
      | FieldStart, [] => Some []
      | InQuoted, _ => None
      | _, _ => Some [(record ++ [field_])%list]
      end
  | String c s' =>
      let end_field := parseCsv FieldStart "" (record ++ [field_])%list s' in
      let end_record :=
        cons (record ++ [field_])%list <$> parseCsv FieldStart "" [] s' in
      match st with
      | FieldStart =>
          if Ascii.eqb c dquote then parseCsv InQuoted "" record s'
          else if Ascii.eqb c comma then end_field
          else if Ascii.eqb c newline then end_record
          else parseCsv InBare (str1 c) record s'
      | InBare =>
          if Ascii.eqb c dquote then None
          else if Ascii.eqb c comma then end_field
          else if Ascii.eqb c newline then end_record
          else parseCsv InBare (field_ +:+ str1 c) record s'
      | InQuoted =>
          if Ascii.eqb c dquote then parseCsv AfterQuote field_ record s'
          else parseCsv InQuoted (field_ +:+ str1 c) record s'
      | AfterQuote =>
          if Ascii.eqb c dquote
          then parseCsv InQuoted (field_ +:+ str1 dquote) record s'
          else if Ascii.eqb c comma then end_field
          else if Ascii.eqb c newline then end_record
          else None
      end
  end.

Definition readCsv (s : string) : option (list (list string)) :=
  parseCsv FieldStart "" [] s.

(** [c] occurs in [s]. *)
Fixpoint occurs (c : ascii) (s : string) : bool :=
  match s with
  | EmptyString => false
  | String a s' => Ascii.eqb a c || occurs c s'
  end.

(** The text of the cell at [c] of [row], before quoting. *)
Definition cellText (row : Row) (c : Column) : string :=
  toString (js_or (get (col_name c) row) (JStr "")).

(** ** The filter state of the user directory *)

Module FilterStateHook.

(** Modelled from the spec: the hook [useFilterState] and the hook
    [useFilterUsers] it filters with are not among the sources; the sources
    hold the status report that describes them.  The spec gives the filter
    specification (free-text query, optional role, optional status), the
    logical AND of the active predicates, the case-insensitive substring
    search over a fixed field list and the count triple; the status report
    names the fields of the state and of the statistics and lists the search
    fields as name, email, phone and company. *)
Record UserItem := {
  item_name : option string;
  item_email : option string;
  item_phone : option string;
  item_company : option string;
  item_role : string;
  item_status : string
}.

Record FilterState := {
  fs_search : string;
  fs_role : option string;
  fs_status : option string
}.

Record FilterStats := {
  totalCount : nat;
  filteredCount : nat;
  isFiltered : bool
}.

(** Lower case of the ASCII letters. *)
Definition lower (c : ascii) : ascii :=
  let n := nat_of_ascii c in
  if ((65 <=? n) && (n <=? 90))%nat then ascii_of_nat (n + 32) else c.

Fixpoint toLowerCase (s : string) : string :=
  match s with
  | EmptyString => EmptyString
  | String c s' => String (lower c) (toLowerCase s')
  end.

Fixpoint startsWith (needle hay : string) : bool :=
  match needle, hay with
  | EmptyString, _ => true
  | String a n', String b h' => Ascii.eqb a b && startsWith n' h'
  | String _ _, EmptyString => false
  end.

(** [hay.includes(needle)] *)
Fixpoint includes (needle hay : string) : bool :=
  startsWith needle hay
  || match hay with
     | EmptyString => false
     | String _ h' => includes needle h'
     end.

Definition searchFields (u : UserItem) : list (option string) :=
  [item_name u; item_email u; item_phone u; item_company u].

Definition matchesSearch (query : string) (u : UserItem) : bool :=
  existsb (λ f, match f with
                | Some v => includes (toLowerCase query) (toLowerCase v)
                | None => false
                end)
          (searchFields u).

Definition matchesChoice (choice : option string) (v : string) : bool :=
  match choice with
  | Some c => String.eqb v c
  | None => true
  end.

Definition matches (f : FilterState) (u : UserItem) : bool :=
  (String.eqb (fs_search f) "" || matchesSearch (fs_search f) u)
  && matchesChoice (fs_role f) (item_role u)
  && matchesChoice (fs_status f) (item_status u).

Definition useFilterState (users : list UserItem) (f : FilterState)
    : list UserItem * FilterStats :=
  let filteredUsers := List.filter (matches f) users in
  (filteredUsers,
   {| totalCount := length users;
      filteredCount := length filteredUsers;
      isFiltered := negb (String.eqb (fs_search f) "")
                    || bool_decide (is_Some (fs_role f))
                    || bool_decide (is_Some (fs_status f)) |}).

(** What the claim asks of a record, stated without the search procedure:
    every active predicate holds. *)
Definition Contains (needle hay : string) : Prop :=
  ∃ before after, hay = before +:+ needle +:+ after.

Definition Satisfies (f : FilterState) (u : UserItem) : Prop :=
  (fs_search f ≠ "" →
     ∃ v, Some v ∈ searchFields u
          ∧ Contains (toLowerCase (fs_search f)) (toLowerCase v))
  ∧ (∀ r, fs_role f = Some r → item_role u = r)
  ∧ (∀ s, fs_status f = Some s → item_status u = s).

(** [CountOf P l n]: exactly [n] of the records of [l] satisfy [P]. *)
Inductive CountOf {A} (P : A → Prop) : list A → nat → Prop :=
| CountOf_nil : CountOf P [] 0
| CountOf_yes x l n : P x → CountOf P l n → CountOf P (x :: l) (S n)
| CountOf_no x l n : ¬ P x → CountOf P l n → CountOf P (x :: l) n.

(** The directory of the component tests: 150 users, of which 50 clients,
    75 team members and 25 administrators. *)
Definition userWithRole (r : string) : UserItem :=
  {| item_name := Some "Sam"; item_email := Some "sam@example.com";
     item_phone := None; item_company := None;
     item_role := r; item_status := "ACTIVE" |}.

Definition directory : list UserItem :=
  (replicate 50 (userWithRole "CLIENT") ++ replicate 75 (userWithRole "TEAM")
   ++ replicate 25 (userWithRole "ADMIN"))%list.

Definition roleView (r : option string) : FilterState :=
  {| fs_search := ""; fs_role := r; fs_status := None |}.

End FilterStateHook.

(** ** The saved-view buttons and their tests

    The component [SavedViewsButtons] is not among the sources; its tests
    are.  The tests are embedded as they are written: the counts they hand
    to the component and the texts they look for on the screen. *)

Module SavedViews.















End SavedViews.

(** ** The client form (components/admin/shared/ClientFormModal.tsx)

    The state of the component is a record; a handler is a function from
    the state to the calls it makes, in their order, and the state it
    leaves.  [fetch] is the one collaborator that can fail; the toasts and
    the callbacks [onSuccess] and [onClose] are calls that return. *)

Module ClientForm.

(** [String.prototype.trim]: the blanks at both ends removed.  The blanks of
    [trim] are those of [\s]. *)
Fixpoint trimStart (s : string) : string :=
  match s with
  | EmptyString => EmptyString
  | String c s' => if is_space c then trimStart s' else s
  end.

Fixpoint trimEnd (s : string) : string :=
  match s with
  | EmptyString => EmptyString
  | String c s' =>
      let rest := trimEnd s' in
      if is_space c && String.eqb rest "" then EmptyString
      else String c rest
  end.

Definition trim (s : string) : string := trimEnd (trimStart s).

Record ClientFormData := {
  cf_name : string;
  cf_email : string;
  cf_phone : string;
  cf_company : string;
  cf_tier : string;
  cf_status : string;
  cf_address : string;
  cf_city : string;
  cf_country : string;
  cf_notes : string
}.

(** [Partial<ClientFormData & { id: string }>]: [None] is a property that is
    missing. *)
Record InitialData := {
  init_id : option string;
  init_name : option string;
  init_email : option string;
  init_phone : option string;
  init_company : option string;
  init_tier : option string;
  init_status : option string;
  init_address : option string;
  init_city : option string;
  init_country : option string;
  init_notes : option string
}.

Inductive Mode := create | edit.

Record Props := {
  mode : Mode;
  initialData : option InitialData;
  onSuccess : bool                     (* an [onSuccess] handler is passed *)
}.

(** [initialData?.k || dflt] *)
Definition initial (initialData : option InitialData)
    (k : InitialData → option string) (dflt : string) : string :=
  match initialData ≫= k with
  | Some v => if String.eqb v "" then dflt else v
  | None => dflt
  end.

(** The first value of the [formData] state. *)
Definition initialFormData (initialData : option InitialData)
    : ClientFormData :=
  {| cf_name := initial initialData init_name "";
     cf_email := initial initialData init_email "";
     cf_phone := initial initialData init_phone "";
     cf_company := initial initialData init_company "";
     cf_tier := initial initialData init_tier "INDIVIDUAL";
     cf_status := initial initialData init_status "ACTIVE";
     cf_address := initial initialData init_address "";
     cf_city := initial initialData init_city "";
     cf_country := initial initialData init_country "";
     cf_notes := initial initialData init_notes "" |}.

(** The three pieces of state of the component. *)
Record FormState := {
  isSubmitting : bool;
  error : option string;
  formData : ClientFormData
}.

Definition initialState (props : Props) : FormState :=
  {| isSubmitting := false; error := None;
     formData := initialFormData (initialData props) |}.

Definition setError (e : option string) (st : FormState) : FormState :=
  {| isSubmitting := isSubmitting st; error := e; formData := formData st |}.

Definition setIsSubmitting (b : bool) (st : FormState) : FormState :=
  {| isSubmitting := b; error := error st; formData := formData st |}.

(** [keyof ClientFormData] *)
Inductive Field :=
| name | email | phone | company | tier | status_
| address | city | country | notes.

(** [{ ...prev, [field]: value }] *)
Definition setField (field : Field) (value : string) (d : ClientFormData)
    : ClientFormData :=
  {| cf_name := match field with name => value | _ => cf_name d end;
     cf_email := match field with email => value | _ => cf_email d end;
     cf_phone := match field with phone => value | _ => cf_phone d end;
     cf_company := match field with company => value | _ => cf_company d end;
     cf_tier := match field with tier => value | _ => cf_tier d end;
     cf_status := match field with status_ => value | _ => cf_status d end;
     cf_address := match field with address => value | _ => cf_address d end;
     cf_city := match field with city => value | _ => cf_city d end;
     cf_country := match field with country => value | _ => cf_country d end;
     cf_notes := match field with notes => value | _ => cf_notes d end |}.

Definition handleChange (field : Field) (value : string) (st : FormState)
    : FormState :=
  {| isSubmitting := isSubmitting st; error := None;
     formData := setField field value (formData st) |}.

(** [validateForm]: the verdict and the state it leaves. *)
Definition validateForm (st : FormState) : bool * FormState :=
  if String.eqb (trim (cf_name (formData st))) ""
  then (false, setError (Some "Client name is required") st)
  else if String.eqb (trim (cf_email (formData st))) ""
  then (false, setError (Some "Email is required") st)
  else if negb (emailRegex_test (JStr (cf_email (formData st))))
  then (false, setError (Some "Invalid email format") st)
  else (true, st).

(** What [fetch] answers: whether the status is a success, and what
    [response.json()] gives. *)
Record FetchResponse := {
  resp_ok : bool;
  resp_json : Result JsVal
}.

(** The calls the submit handler makes, in their order. *)
Inductive Effect :=
| PreventDefault
| Fetch (endpoint method : string) (body : ClientFormData)
| ToastSuccess (message : string)
| ToastError (message : string)
| OnSuccess (clientId : JsVal)
| OnClose.

Definition endpointOf (props : Props) : string :=
  match mode props with
  | create => "/api/admin/entities/clients"
  | edit =>
      "/api/admin/entities/clients/"
      +:+ default "undefined" (initialData props ≫= init_id)
  end.

Definition methodOf (props : Props) : string :=
  match mode props with create => "POST" | edit => "PATCH" end.

Definition verbOf (props : Props) : string :=
  match mode props with create => "create" | edit => "update" end.

(** The [try] block of [handleSubmit]: the calls it makes and how it ends.
    [fetch] answers the one request, or throws. *)
Definition send (props : Props)
    (fetch : string → string → ClientFormData → Result FetchResponse)
    (data : ClientFormData) : list Effect * Result () :=
  let endpoint := endpointOf props in
  let method := methodOf props in
  let sent := [Fetch endpoint method data] in
  match fetch endpoint method data with
  | Throw e => (sent, Throw e)
  | Ok response =>
      if negb (resp_ok response)
      then
        match resp_json response with
        | Throw e => (sent, Throw e)
        | Ok errorData =>
            match prop "message" errorData with
            | Throw e => (sent, Throw e)
            | Ok message =>
                (sent,
                 Throw (ErrorObj
                   (toString
                      (js_or message
                         (JStr ("Failed to " +:+ verbOf props
                                +:+ " client"))))))
            end
        end
      else
        match resp_json response with
        | Throw e => (sent, Throw e)
        | Ok result =>
            let toast :=
              ToastSuccess
                (match mode props with
                 | create => "Client created successfully"
                 | edit => "Client updated successfully"
                 end) in
            if onSuccess props
            then match prop "id" result with
                 | Throw e => (sent ++ [toast], Throw e)
                 | Ok id => (sent ++ [toast; OnSuccess id; OnClose], Ok ())
                 end
            else (sent ++ [toast; OnClose], Ok ())
        end
  end%list.

(** [err instanceof Error ? err.message : 'An error occurred'] *)
Definition messageOf (e : Exn) : string :=
  match e with
  | ErrorObj message => message
  | Thrown _ => "An error occurred"
  end.

(** [handleSubmit]: the calls made and the state once the handler is done. *)
Definition handleSubmit (props : Props)
    (fetch : string → string → ClientFormData → Result FetchResponse)
    (st : FormState) : list Effect * FormState :=
  let '(valid, st) := validateForm st in
  if negb valid then ([PreventDefault], st)
  else
    let '(effects, outcome) := send props fetch (formData st) in
    match outcome with
    | Ok _ => (PreventDefault :: effects, setIsSubmitting false st)
    | Throw err =>
        (PreventDefault :: effects ++ [ToastError (messageOf err)],
         setIsSubmitting false (setError (Some (messageOf err)) st))
    end%list.

(** A text that holds blanks only. *)
Fixpoint all_blank (s : string) : bool :=
  match s with
  | EmptyString => true
  | String c s' => is_space c && all_blank s'
  end.

End ClientForm.

(** ** What the handlers compute, by name *)

(** [updateData] of the preset PATCH, applied to the stored row: the
    properties of the body that are not [undefined], and the time. *)
Definition updateData (env : Env) (body : JsVal) (p : FilterPreset)
    : FilterPreset :=
  let filterConfig := field "filterConfig" body in
  {| fp_id := fp_id p;
     fp_name := FilterPresetRoute.assigned (field "name" body) (fp_name p);
     fp_description :=
       FilterPresetRoute.assigned (field "description" body)
         (fp_description p);
     fp_isPublic :=
       FilterPresetRoute.assigned (field "isPublic" body) (fp_isPublic p);
     fp_icon := FilterPresetRoute.assigned (field "icon" body) (fp_icon p);
     fp_color := FilterPresetRoute.assigned (field "color" body) (fp_color p);
     fp_filterConfig :=
       match filterConfig with
       | JUndefined => fp_filterConfig p
       | _ => JSON_stringify env filterConfig
       end;
     fp_filterLogic :=
       match filterConfig with
       | JUndefined => fp_filterLogic p
       | _ => js_or (field "logic" filterConfig) (JStr "AND")
       end;
     fp_tenantId := fp_tenantId p;
     fp_createdBy := fp_createdBy p;
     fp_updatedAt := now env |}.

(** [findFirst] of the PATCH: another preset of the same tenant and creator
    that holds the name. *)
Definition nameTaken (name : JsVal) (userId id : string)
    (preset q : FilterPreset) : bool :=
  String.eqb (fp_tenantId q) (fp_tenantId preset)
  && FilterPresetRoute.strict_eq (fp_name q) name
  && String.eqb (fp_createdBy q) userId
  && negb (String.eqb (fp_id q) id).

(** The store after the update of the preset [id] with the body [body]. *)
Definition presetUpdated (env : Env) (id : string) (body : JsVal) (db : Db)
    : Db :=
  set_filter_presets
    (λ _, prisma.updateMany (λ r, String.eqb (fp_id r) id)
            (updateData env body) (filter_presets db))
    db.

(** The rows of the report's tenant, as the user query selects them. *)
Definition tenantRows (report : Report) (db : Db) : list Row :=
  GenerateRoute.user_select <$>
    filter (λ u, user_tenantId u = Some (report_tenantId report)) (users db).

(** [reportData] as the generate handler builds it from the rows [data] and
    the summary [summary]: the columns are those of the first section, or
    none. *)
Definition reportDataOf (report : Report) (data : list Row)
    (summary : option (list (string * JsVal))) : ReportData :=
  {| rd_columns :=
       Some (default []
               (head (default [] (report_sections report)) ≫= sec_columns));
     rd_rows := Some data;
     rd_rowCount := length data;
     rd_summary := summary |}.






(** ** Properties of stores and of texts *)

(** A handler answers, and when its answer is not a 200 the store is as it
    was. *)
Definition fails_cleanly (h : M Db Response) (db : Db) : Prop :=
  ∃ resp, (h db).1 = Ok resp ∧ (status resp ≠ 200 → (h db).2 = db).

(** The table [f] holds the same rows before and after. *)
Definition same_on {T} (f : Db → T) (db db' : Db) : Prop := f db' = f db.

(** Every recorded execution belongs to a schedule the store holds. *)
Definition executions_owned (db : Db) : Prop :=
  ∀ e, e ∈ exportScheduleExecutions db →
       ∃ s, s ∈ exportSchedules db ∧ es_id s = ese_scheduleId e.

Definition owned_kept (db db' : Db) : Prop :=
  executions_owned db → executions_owned db'.

(** No other preset of the tenant and the creator holds the new name. *)
Definition nameFree (name : JsVal) (userId id : string)
    (preset : FilterPreset) (db : Db) : Prop :=
  truthy name = false
  ∨ FilterPresetRoute.strict_eq name (fp_name preset) = true
  ∨ ∀ q, q ∈ filter_presets db → nameTaken name userId id preset q = false.

(** Every preset of [db'] is a preset of [db] by id, with the tenant and the
    creator it had there. *)
Definition presets_from (db db' : Db) : Prop :=
  ∀ q', q' ∈ filter_presets db' →
    ∃ q, q ∈ filter_presets db
         ∧ fp_id q = fp_id q'
         ∧ fp_tenantId q = fp_tenantId q'
         ∧ fp_createdBy q = fp_createdBy q'.

(** The ids of the presets are pairwise different, and no two presets of
    one creator in one tenant hold the same non-empty name. *)
Definition names_unique (db : Db) : Prop :=
  NoDup (fp_id <$> filter_presets db)
  ∧ ∀ p q n,
      p ∈ filter_presets db → q ∈ filter_presets db →
      fp_id p ≠ fp_id q →
      fp_tenantId p = fp_tenantId q → fp_createdBy p = fp_createdBy q →
      fp_name p = JStr n → fp_name q = JStr n → n = "".

Definition names_kept (db db' : Db) : Prop :=
  names_unique db → names_unique db'.

(** A text without blanks. *)
Fixpoint blank_free (s : string) : bool :=
  match s with
  | EmptyString => true
  | String c s' => negb (is_space c) && blank_free s'
  end.

(** A text that holds neither a tab nor a line break. *)
Definition cell_safe (s : string) : Prop :=
  occurs tabchar s = false ∧ occurs newline s = false.

(** The lines of a text, each cut at its tabs. *)
Definition readTsv (s : string) : list (list string) :=
  js_split tabchar <$> js_split newline s.

(** ** Further sample data *)



(** The owner [u2] of the sample presets as the caller.  [JSON.parse]
    reads the text of the empty object and rejects every other text. *)
Definition ownerEnv : Env :=
  {| rateLimit := λ _, true;
     getServerSession := Some "u2";
     hasPermission := λ _ _, true;
     getRandomUUID := Throw notAFunction;
     now := 1700000000000;
     toLocaleDateString := "1/1/2025";
     context_userId := "u2";
     tenantContext_userId := Some "u2";
     applyFilters := λ rows _, Ok rows;
     calculateSummaryStats := λ _ _, Ok None;
     generateReportHTML := λ _ _, Ok "<html></html>";
     stringifyReportData := λ _, "{}";
     JSON_parse := λ s, if String.eqb s "{}" then Ok (JObj ∅)
                        else Throw (ErrorObj "Unexpected token");
     JSON_stringify := λ _, "{}" |}.

(** A rename of [p1] to the name [p2] holds, and a store whose preset [p1]
    holds a text that is no JSON. *)
Definition clashRequest : Request :=
  {| req_forwarded_for := None;
     req_json := Ok (JObj {[ "name" := JStr "Shared" ]});
     req_ids := None; req_param_id := "p1" |}.

Definition corruptPreset : FilterPreset :=
  {| fp_id := "p1"; fp_name := JStr "Mine"; fp_description := JNull;
     fp_isPublic := JBool false; fp_icon := JNull; fp_color := JNull;
     fp_filterConfig := "{"; fp_filterLogic := JStr "AND";
     fp_tenantId := "t1"; fp_createdBy := "u2"; fp_updatedAt := 0 |}.

Definition corruptDb : Db :=
  {| users := [sampleUser "u1" "t1"; sampleUser "u2" "t1"];
     reports := []; reportExecutions := []; exportSchedules := [];
     exportScheduleExecutions := []; filter_presets := [corruptPreset] |}.

(** A report with one section of two columns, a store that holds it with
    two users of its tenant, and a request for its CSV. *)
Definition teamReport : Report :=
  {| report_id := "r1"; report_name := "Team list  2025";
     report_description := JNull; report_tenantId := "t1";
     report_sections :=
       Some [ {| sec_columns :=
                   Some [ {| col_name := "name"; col_label := "Name" |};
                          {| col_name := "role"; col_label := "Role" |} ];
                 sec_calculations := JUndefined |} ];
     report_lastGeneratedAt := None; report_generationCount := 4 |}.

Definition teamDb : Db :=
  {| users := [sampleUser "u1" "t1"; sampleUser "u2" "t1";
               sampleUser "u3" "t2"];
     reports := [teamReport];
     reportExecutions := []; exportSchedules := [];
     exportScheduleExecutions := []; filter_presets := [] |}.

(** * Properties *)

(** ** Values and strings *)

Lemma falsy_cases (v : JsVal) :
  falsy v = true ↔
  v = JUndefined ∨ v = JNull ∨ v = JBool false ∨ v = JNum 0 ∨ v = JStr "".
Proof.
  unfold falsy. split.
  - destruct v as [| |b|n|s|d|l|o|f a]; simpl; intros H; try discriminate; auto.
    + destruct b; [discriminate | auto].
    + apply negb_true_iff, negb_false_iff, Z.eqb_eq in H. subst. auto 6.
    + apply negb_true_iff, negb_false_iff, String.eqb_eq in H. subst. auto 6.
  - intros [-> | [-> | [-> | [-> | ->]]]]; reflexivity.
Qed.

Lemma js_or_falsy (v d : JsVal) : falsy v = true → js_or v d = d.
Proof.
  unfold falsy, js_or. intros H. apply negb_true_iff in H. by rewrite H.
Qed.

Lemma js_or_truthy (v d : JsVal) : truthy v = true → js_or v d = v.
Proof. unfold js_or. by intros ->. Qed.

Lemma get_own (k : string) (row : Row) :
  inherited k = None → get k row = default JUndefined (row !! k).
Proof. unfold get. intros ->. by destruct (row !! k). Qed.

Lemma get_delete (k : string) (row : Row) :
  inherited k = None → get k (delete k row) = JUndefined.
Proof. intros Hk. by rewrite get_own, lookup_delete_eq. Qed.

Lemma get_drop_falsy (k : string) (row : Row) :
  inherited k = None →
  get k (drop_falsy row) = if truthy (get k row) then get k row else JUndefined.
Proof.
  intros Hin. rewrite !get_own by done. unfold drop_falsy.
  destruct (row !! k) as [v|] eqn:Hk; simpl.
  - destruct (truthy v) eqn:Hv.
    + erewrite (proj2 (map_lookup_filter_Some _ _ _ _)); [done|]. by split.
    + rewrite (proj2 (map_lookup_filter_None _ _ _)); [done|].
      right. intros x Hx. simpl. congruence.
  - rewrite (proj2 (map_lookup_filter_None _ _ _)); [done|]. by left.
Qed.

Lemma cellText_drop_falsy (row : Row) (c : Column) :
  inherited (col_name c) = None →
  cellText (drop_falsy row) c = cellText row c.
Proof.
  intros Hc. unfold cellText. rewrite get_drop_falsy by done.
  destruct (truthy (get (col_name c) row)) eqn:Hv; [done|].
  rewrite (js_or_falsy (get (col_name c) row)); [done|].
  unfold falsy. by rewrite Hv.
Qed.

Lemma excelCell_text (row : Row) (c : Column) : excelCell row c = cellText row c.
Proof. reflexivity. Qed.

Lemma csvCell_text (row : Row) (c : Column) :
  csvCell row c = quoted (escapeQuotes (cellText row c)).
Proof. reflexivity. Qed.

Lemma foldl_ext_in {A B} (f g : B → A → B) (l : list A) (b : B) :
  (∀ a x, f a x = g a x) → foldl f b l = foldl g b l.
Proof.
  intros Hfg. revert b. induction l as [|x l IH]; intros b; simpl; [done|].
  by rewrite Hfg, IH.
Qed.

Lemma foldl_fmap {A B C} (f : B → C → B) (g : A → C) (l : list A) (b : B) :
  foldl f b (g <$> l) = foldl (λ acc x, f acc (g x)) b l.
Proof. revert b. induction l as [|x l IH]; intros b; simpl; [done|]. apply IH. Qed.

(** Both formatters read a row through [cellText] only. *)
Lemma excelCells_drop_falsy (columns : list Column) (row : Row) :
  Forall own_name columns →
  excelCell (drop_falsy row) <$> columns = excelCell row <$> columns.
Proof.
  intros Hcols. apply list_fmap_ext. intros i c Hi. rewrite !excelCell_text.
  apply cellText_drop_falsy.
  by apply (proj1 (Forall_lookup _ _) Hcols i).
Qed.

Lemma csvLine_drop_falsy (columns : list Column) (row : Row) :
  Forall own_name columns →
  csvLine columns (drop_falsy row) = csvLine columns row.
Proof.
  intros Hcols. unfold csvLine. f_equal. f_equal.
  apply list_fmap_ext. intros i c Hi. rewrite !csvCell_text.
  rewrite cellText_drop_falsy; [done|].
  by apply (proj1 (Forall_lookup _ _) Hcols i).
Qed.

Lemma nonempty_fmap {A B} (f : A → B) (l : list A) :
  nonempty (Some (f <$> l)) = nonempty (Some l).
Proof. by destruct l. Qed.

Lemma generateExcelReport_drop_falsy today report rd (rows : list Row) :
  Forall own_name (default defaultColumns (rd_columns rd)) →
  generateExcelReport today report (with_rows rd (drop_falsy <$> rows))
  = generateExcelReport today report (with_rows rd rows).
Proof.
  intros Hcols. unfold generateExcelReport. cbv zeta.
  cbn [with_rows rd_rows rd_columns rd_summary].
  rewrite nonempty_fmap.
  destruct (nonempty (Some rows)); [|done].
  cbn [default from_option id].
  rewrite foldl_fmap. apply foldl_ext_in.
  intros acc r. by rewrite excelCells_drop_falsy.
Qed.

Lemma generateCSVReport_drop_falsy report rd (rows : list Row) :
  Forall own_name (default [] (rd_columns rd)) →
  generateCSVReport report (with_rows rd (drop_falsy <$> rows))
  = generateCSVReport report (with_rows rd rows).
Proof.
  intros Hcols. unfold generateCSVReport. cbv zeta.
  cbn [with_rows rd_rows rd_columns rd_summary].
  rewrite nonempty_fmap.
  destruct (nonempty (Some rows)); [|done].
  cbn [default from_option id].
  rewrite foldl_fmap. apply foldl_ext_in.
  intros acc r. by rewrite csvLine_drop_falsy.
Qed.

Lemma inherited_truthy (k : string) (v : JsVal) :
  inherited k = Some v → truthy v = true ∧ toString v ≠ "".
Proof.
  unfold inherited, objectPrototype. cbn [List.find fst snd].
  repeat (case_match;
          [ intros [= <-]; by split | ]).
  intros [=].
Qed.

(** ** The formatters *)

(** C10, at the input on which it fails.  The row holds no field named
    [constructor], and the cell of the column of that name is not empty: it
    shows the constructor every object inherits.  A row that stores 0 under
    that name has an empty cell, so the two are told apart. *)
Lemma absent_field_shows_inherited_member :
  (∅ : Row) !! col_name constructorColumn = None
  ∧ excelCell ∅ constructorColumn = "function Object() { [native code] }"
  ∧ csvCell ∅ constructorColumn
    = quoted "function Object() { [native code] }"
  ∧ falsy (get "constructor" ({[ "constructor" := JNum 0 ]} : Row)) = true
  ∧ excelCell {[ "constructor" := JNum 0 ]} constructorColumn = ""
  ∧ excelCell {[ "constructor" := JNum 0 ]} constructorColumn
    ≠ excelCell (delete "constructor" {[ "constructor" := JNum 0 ]})
        constructorColumn
  ∧ csvCell {[ "constructor" := JNum 0 ]} constructorColumn
    ≠ csvCell ∅ constructorColumn.
Proof. by vm_compute. Qed.

(** C10.  In the tab-separated and in the CSV generator a field whose value
    [row[c.name]] is falsy ([undefined], [null], the empty string, the number
    0 or [false]) gives the same cell as the empty string: the cell is empty
    in the tab-separated text and an empty pair of quotes in the CSV text.
    When the column is not named after a member that objects inherit, that
    is the cell of the row without the field, and a report whose columns are
    all so named is the same text when generated from rows stripped of all
    their falsy fields.  When the column is named after an inherited member,
    the row without the field shows that member, which is not empty. *)
Theorem falsy_field_renders_as_absent
    (today : string) (report : Report) (rd : ReportData) (rows : list Row)
    (row : Row) (c : Column) :
  falsy (get (col_name c) row) = true →
  (get (col_name c) row = JUndefined ∨ get (col_name c) row = JNull
   ∨ get (col_name c) row = JBool false ∨ get (col_name c) row = JNum 0
   ∨ get (col_name c) row = JStr "")
  ∧ excelCell row c = ""
  ∧ csvCell row c = quoted ""
  ∧ (own_name c →
     excelCell row c = excelCell (delete (col_name c) row) c
     ∧ csvCell row c = csvCell (delete (col_name c) row) c)
  ∧ (∀ member, inherited (col_name c) = Some member →
     excelCell (delete (col_name c) row) c = toString member
     ∧ csvCell (delete (col_name c) row) c
       = quoted (escapeQuotes (toString member))
     ∧ excelCell row c ≠ excelCell (delete (col_name c) row) c)
  ∧ (Forall own_name (default defaultColumns (rd_columns rd)) →
     generateExcelReport today report (with_rows rd (drop_falsy <$> rows))
     = generateExcelReport today report (with_rows rd rows))
  ∧ (Forall own_name (default [] (rd_columns rd)) →
     generateCSVReport report (with_rows rd (drop_falsy <$> rows))
     = generateCSVReport report (with_rows rd rows)).
Proof.
  intros Hfalsy.
  assert (Htext : cellText row c = "").
  { unfold cellText. by rewrite js_or_falsy. }
  split; [by apply falsy_cases|].
  split; [by rewrite excelCell_text|].
  split; [by rewrite csvCell_text, Htext|].
  split.
  { intros Hown.
    assert (Habsent : cellText (delete (col_name c) row) c = "").
    { unfold cellText. by rewrite get_delete. }
    rewrite (excelCell_text row), (excelCell_text (delete _ row)).
    rewrite (csvCell_text row), (csvCell_text (delete _ row)).
    by rewrite Htext, Habsent. }
  split.
  { intros member Hmember.
    destruct (inherited_truthy _ _ Hmember) as [Htruthy Hshown].
    assert (Habsent : cellText (delete (col_name c) row) c = toString member).
    { unfold cellText, get. rewrite lookup_delete_eq, Hmember. simpl.
      by rewrite js_or_truthy. }
    rewrite (excelCell_text row), (excelCell_text (delete _ row)).
    rewrite (csvCell_text (delete _ row)), Htext, Habsent.
    split; [done|]. split; [done|]. congruence. }
  split.
  - apply generateExcelReport_drop_falsy.
  - apply generateCSVReport_drop_falsy.
Qed.

(** A stored 0 and a stored [false] next to an absent field. *)
Lemma falsy_field_renders_as_absent_witness :
  falsy (get "n" ({[ "n" := JNum 0 ]} : Row)) = true
  ∧ excelCell {[ "n" := JNum 0 ]} {| col_name := "n"; col_label := "N" |}
    = excelCell ∅ {| col_name := "n"; col_label := "N" |}
  ∧ csvCell {[ "n" := JBool false ]} {| col_name := "n"; col_label := "N" |}
    = quoted "".
Proof.
  split; [reflexivity|]. split.
  - pose proof (falsy_field_renders_as_absent "" 
      {| report_id := ""; report_name := ""; report_description := JNull;
         report_tenantId := ""; report_sections := None;
         report_lastGeneratedAt := None; report_generationCount := 0 |}
      headerOnly [] {[ "n" := JNum 0 ]}
      {| col_name := "n"; col_label := "N" |} eq_refl) as H.
    destruct H as (_ & _ & _ & H & _).
    destruct (H eq_refl) as [H' _]. rewrite H'. reflexivity.
  - pose proof (falsy_field_renders_as_absent ""
      {| report_id := ""; report_name := ""; report_description := JNull;
         report_tenantId := ""; report_sections := None;
         report_lastGeneratedAt := None; report_generationCount := 0 |}
      headerOnly [] {[ "n" := JBool false ]}
      {| col_name := "n"; col_label := "N" |} eq_refl) as H.
    destruct H as (_ & _ & H & _). exact H.
Defined.

(** C4, at the input on which it fails.  A header label that holds a double
    quote is put between quotes as it is: the header line of [quoteColumn]
    is a, quote, b between two quotes, which the standard reading refuses.
    The same text as a data value has its quote doubled and reads back. *)
Theorem csv_header_label_not_escaped (report : Report) :
  generateCSVReport report headerOnly = quoted quoteLabel +:+ nl
  ∧ readCsv (generateCSVReport report headerOnly) = None
  ∧ csvCell {[ "n" := JStr quoteLabel ]} quoteColumn
    = quoted ("a" +:+ str1 dquote +:+ str1 dquote +:+ "b")
  ∧ readCsv (csvLine [quoteColumn] {[ "n" := JStr quoteLabel ]})
    = Some [[quoteLabel]].
Proof.
  split; [reflexivity|].
  split; [reflexivity|].
  split; [reflexivity|].
  vm_compute. reflexivity.
Qed.

(** ** Running a handler *)

Lemma prop_field (k : string) (body : JsVal) :
  body ≠ JNull → body ≠ JUndefined → prop k body = Ok (field k body).
Proof. intros Hn Hu. unfold field. destruct body; simpl; congruence. Qed.

Lemma prop_of_object (k : string) (o : gmap string JsVal) :
  prop k (JObj o) = Ok (get k o).
Proof. reflexivity. Qed.


Lemma run_try_ok {S A} (m : M S A) (h : Exn → M S A) s a s' :
  m s = (Ok a, s') → try_catch m h s = (Ok a, s').
Proof. unfold try_catch. by intros ->. Qed.


Lemma run_bind_ok {S A B} (m : M S A) (k : A → M S B) s a s' :
  m s = (Ok a, s') → (m ≫= k) s = k a s'.
Proof. unfold mbind, M_bind. by intros ->. Qed.

Lemma run_bind_throw {S A B} (m : M S A) (k : A → M S B) s e s' :
  m s = (Throw e, s') → (m ≫= k) s = (Throw e, s').
Proof. unfold mbind, M_bind. by intros ->. Qed.

(** *** What a computation keeps

    For a reflexive and transitive [R], [keeps R] follows the structure of
    the computation. *)
Section Keeps.
Context (R : Db → Db → Prop) `{!Reflexive R, !Transitive R}.

Lemma keeps_ret {A} (a : A) : keeps R (mret a).
Proof. intros db. simpl. reflexivity. Qed.

Lemma keeps_lift {A} (r : Result A) : keeps R (lift r).
Proof. intros db. simpl. reflexivity. Qed.

Lemma keeps_throw {A} (e : Exn) : keeps R (throw e : M Db A).
Proof. intros db. simpl. reflexivity. Qed.

Lemma keeps_gets {A} (f : Db → A) : keeps R (gets f).
Proof. intros db. simpl. reflexivity. Qed.

Lemma keeps_bind {A B} (m : M Db A) (k : A → M Db B) :
  keeps R m → (∀ a, keeps R (k a)) → keeps R (m ≫= k).
Proof.
  intros Hm Hk db. unfold mbind, M_bind.
  specialize (Hm db). destruct (m db) as [[a|e] db1]; simpl in *.
  - etrans; [exact Hm | apply Hk].
  - exact Hm.
Qed.

Lemma keeps_try {A} (m : M Db A) (h : Exn → M Db A) :
  keeps R m → (∀ e, keeps R (h e)) → keeps R (try_catch m h).
Proof.
  intros Hm Hh db. unfold try_catch.
  specialize (Hm db). destruct (m db) as [[a|e] db1]; simpl in *.
  - exact Hm.
  - etrans; [exact Hm | apply Hh].
Qed.

Lemma keeps_modify (f : Db → Db) : (∀ db, R db (f db)) → keeps R (modify f).
Proof. intros Hf db. apply Hf. Qed.

Lemma keeps_write {A} (table : Db → list A)
    (set : (list A → list A) → Db → Db) (op : list A → Result (list A)) :
  (∀ db rows, op (table db) = Ok rows → R db (set (λ _, rows) db)) →
  keeps R (write table set op).
Proof.
  intros Hop db. unfold write.
  destruct (op (table db)) as [rows|e] eqn:Hrows; simpl.
  - by apply Hop.
  - reflexivity.
Qed.
End Keeps.

(** ** The export-schedule handlers *)

Lemma schedule_POST_admitted env req db uid tenantId :
  ScheduleRoute.admitted env req uid →
  tenant_of (prisma.findUnique user_id uid (users db)) = Some tenantId →
  ScheduleRoute.POST env req db
  = try_catch (ScheduleRoute.createSchedule env req uid tenantId)
      (λ _, mret (json 500 (BError "Failed to create export schedule"))) db.
Proof.
  intros (Hrate & Hsession & Hperm) Htenant.
  unfold ScheduleRoute.POST, try_catch. rewrite Hrate, Hsession, Hperm.
  cbn [negb]. run_monad. by rewrite Htenant.
Qed.

Lemma schedule_PATCH_admitted env req db uid :
  ScheduleRoute.admitted env req uid →
  ScheduleRoute.PATCH env req db
  = try_catch (ScheduleRoute.bulkUpdate req)
      (λ _, mret (json 500 (BError "Failed to update export schedules"))) db.
Proof.
  intros (Hrate & Hsession & Hperm).
  unfold ScheduleRoute.PATCH, try_catch. by rewrite Hrate, Hsession, Hperm.
Qed.

Lemma schedule_DELETE_admitted env req db uid :
  ScheduleRoute.admitted env req uid →
  ScheduleRoute.DELETE env req db
  = try_catch (ScheduleRoute.bulkDelete req)
      (λ _, mret (json 500 (BError "Failed to delete export schedules"))) db.
Proof.
  intros (Hrate & Hsession & Hperm).
  unfold ScheduleRoute.DELETE, try_catch. by rewrite Hrate, Hsession, Hperm.
Qed.

(** A request stopped at a gate leaves the store as it was. *)
Lemma schedule_POST_stopped env req db :
  (∃ uid tenantId,
     ScheduleRoute.admitted env req uid
     ∧ tenant_of (prisma.findUnique user_id uid (users db)) = Some tenantId)
  ∨ (∃ st b, ScheduleRoute.POST env req db = (Ok (json st b), db)
             ∧ (st = 429 ∨ st = 401 ∨ st = 403 ∨ st = 400)).
Proof.
  unfold ScheduleRoute.POST, ScheduleRoute.admitted, try_catch.
  destruct (rateLimit env (identifier_of req)) eqn:Hrate; simpl;
    [|right; eauto 10].
  destruct (session_id env) as [uid|] eqn:Hsession; [|right; eauto 10].
  destruct (hasPermission env uid "admin:users:export") eqn:Hperm; simpl;
    [|right; eauto 10].
  run_monad.
  destruct (tenant_of (prisma.findUnique user_id uid (users db)))
    as [tenantId|] eqn:Htenant; [|right; eauto 10].
  left. exists uid, tenantId. eauto.
Qed.

Lemma missing_required (name frequency format recipients : JsVal) :
  falsy name = true ∨ falsy frequency = true ∨ falsy format = true
  ∨ falsy recipients = true ∨ recipients = JArr [] →
  falsy name || falsy frequency || falsy format || falsy recipients
  || is_zero (js_length recipients) = true.
Proof.
  intros [H | [H | [H | [H | H]]]]; rewrite H;
    rewrite ?orb_true_r, ?orb_true_l; reflexivity.
Qed.

Lemma createSchedule_missing env req uid tenantId db body :
  req_json req = Ok body →
  body ≠ JNull → body ≠ JUndefined →
  falsy (field "name" body) = true ∨ falsy (field "frequency" body) = true
  ∨ falsy (field "format" body) = true
  ∨ falsy (field "recipients" body) = true
  ∨ field "recipients" body = JArr [] →
  ScheduleRoute.createSchedule env req uid tenantId db
  = (Ok (json 400
       (BError "Missing required fields: name, frequency, format, recipients")),
     db).
Proof.
  intros Hjson Hnull Hundef Hmissing.
  unfold ScheduleRoute.createSchedule. rewrite Hjson. run_monad.
  rewrite !prop_field by done. cbn beta iota.
  by rewrite missing_required.
Qed.

(** C2.  A creation request whose body lacks a truthy [name], [frequency] or
    [format], or whose [recipients] is missing or an empty array, creates no
    row: the store after the request is the store before it.  When the
    request has passed the rate limit, the session check and the permission
    check, the answer has status 400; when the caller moreover has a tenant
    it is the 400 for missing required fields. *)
Theorem create_schedule_missing_field_rejected
    (env : Env) (req : Request) (db : Db) (body : JsVal) :
  req_json req = Ok body →
  body ≠ JNull → body ≠ JUndefined →
  falsy (field "name" body) = true ∨ falsy (field "frequency" body) = true
  ∨ falsy (field "format" body) = true
  ∨ falsy (field "recipients" body) = true
  ∨ field "recipients" body = JArr [] →
  (ScheduleRoute.POST env req db).2 = db
  ∧ (∀ uid,
       ScheduleRoute.admitted env req uid →
       ∃ b, (ScheduleRoute.POST env req db).1 = Ok (json 400 b))
  ∧ (∀ uid tenantId,
       ScheduleRoute.admitted env req uid →
       tenant_of (prisma.findUnique user_id uid (users db)) = Some tenantId →
       (ScheduleRoute.POST env req db).1
       = Ok (json 400
           (BError "Missing required fields: name, frequency, format, recipients"))).
Proof.
  intros Hjson Hnull Hundef Hmissing.
  assert (Hpast : ∀ uid tenantId,
    ScheduleRoute.admitted env req uid →
    tenant_of (prisma.findUnique user_id uid (users db)) = Some tenantId →
    ScheduleRoute.POST env req db
    = (Ok (json 400
         (BError "Missing required fields: name, frequency, format, recipients")),
       db)).
  { intros uid tenantId Hadm Htenant.
    rewrite (schedule_POST_admitted _ _ _ _ _ Hadm Htenant).
    apply run_try_ok. by apply (createSchedule_missing _ _ _ _ _ body). }
  split; [|split].
  - destruct (schedule_POST_stopped env req db)
      as [(uid & tenantId & Hadm & Htenant) | (st & b & -> & _)]; [|done].
    by rewrite (Hpast uid tenantId).
  - intros uid Hadm.
    destruct (tenant_of (prisma.findUnique user_id uid (users db)))
      as [tenantId|] eqn:Htenant.
    { rewrite (Hpast uid tenantId) by done. eauto. }
    destruct Hadm as (Hrate & Hsession & Hperm).
    unfold ScheduleRoute.POST, try_catch. rewrite Hrate, Hsession, Hperm.
    cbn [negb]. run_monad. rewrite Htenant. eauto.
  - intros uid tenantId Hadm Htenant. by rewrite (Hpast uid tenantId).
Qed.

(** *** The limit of twenty schedules *)

#[export] Instance limit_kept_refl : Reflexive limit_kept.
Proof. intros db H. exact H. Qed.

#[export] Instance limit_kept_trans : Transitive limit_kept.
Proof. intros a b c Hab Hbc H. apply Hbc, Hab, H. Qed.


Lemma prop_cases (body : JsVal) :
  (∀ k, prop k body = Ok (field k body))
  ∨ (∀ k, ∃ e, prop k body = Throw e).
Proof.
  destruct body; first [ right; intros k; simpl; eauto; fail
                       | left; intros k; reflexivity ].
Qed.

(** What a creation does to the store: nothing, or one more schedule for a
    tenant that held fewer than twenty. *)
Lemma createSchedule_effect env req uid tenantId db :
  (ScheduleRoute.createSchedule env req uid tenantId db).2 = db
  ∨ ∃ schedule,
      es_tenantId schedule = tenantId
      ∧ (ScheduleRoute.countSchedules tenantId db < 20)%nat
      ∧ (ScheduleRoute.createSchedule env req uid tenantId db).2
        = set_exportSchedules
            (λ _, (exportSchedules db ++ [schedule])%list) db.
Proof.
  unfold ScheduleRoute.createSchedule.
  destruct (req_json req) as [body|e]; run_monad; [|by left].
  destruct (prop_cases body) as [Hok | Hthrow].
  2: { destruct (Hthrow "name") as [e ->]. by left. }
  rewrite !Hok. cbn beta iota zeta.
  destruct (_ || is_zero _); [by left|].
  destruct (negb (existsb _ _)); [by left|].
  destruct (ScheduleRoute.some_invalid _) as [[|]|e]; [by left| |by left].
  destruct (20 <=? ScheduleRoute.countSchedules tenantId db)%nat eqn:Hcount;
    [by left|].
  apply Nat.leb_gt in Hcount.
  destruct (getRandomUUID env) as [id|e]; [|by left].
  unfold prisma.create.
  match goal with |- context [prisma.findUnique es_id ?i ?rows] =>
    destruct (prisma.findUnique es_id i rows) end; [by left|].
  right. eexists. split; [|split; [exact Hcount|reflexivity]]. reflexivity.
Qed.






















(** A body without fields is refused and nothing is stored. *)
Lemma create_schedule_missing_field_rejected_witness :
  (ScheduleRoute.POST sampleEnv (requestWith (JObj ∅)) emptyDb).2 = emptyDb
  ∧ (ScheduleRoute.POST sampleEnv (requestWith (JObj ∅)) sampleDb).1
    = Ok (json 400
        (BError "Missing required fields: name, frequency, format, recipients")).
Proof.
  split.
  - apply (create_schedule_missing_field_rejected sampleEnv
             (requestWith (JObj ∅)) emptyDb (JObj ∅));
      [reflexivity | discriminate | discriminate | left; reflexivity].
  - destruct (create_schedule_missing_field_rejected sampleEnv
                (requestWith (JObj ∅)) sampleDb (JObj ∅)) as (_ & _ & Hstatus);
      [reflexivity | discriminate | discriminate | left; reflexivity |].
    apply (Hstatus "u1" "t1"); [repeat split | reflexivity].
Defined.

(** C2 does not hold of every request.  A body without fields sent without
    a session is answered 401, not 400: the session check comes before the
    validation of the body. *)
Lemma missing_fields_without_session :
  falsy (field "name" (JObj ∅)) = true
  ∧ ScheduleRoute.POST anonymousEnv (requestWith (JObj ∅)) sampleDb
    = (Ok (json 401 (BError "Unauthorized")), sampleDb)
  ∧ ¬ ∃ b, (ScheduleRoute.POST anonymousEnv (requestWith (JObj ∅)) sampleDb).1
           = Ok (json 400 b).
Proof.
  split; [reflexivity|]. split; [reflexivity|].
  intros [b Hb]. discriminate Hb.
Qed.

(** *** The bulk operations *)

Lemma field_defined_prop (k k' : string) (body v : JsVal) :
  field k body = v → v ≠ JUndefined → prop k' body = Ok (field k' body).
Proof.
  intros Hfield Hv. destruct (prop_cases body) as [Hok | Hthrow]; [apply Hok|].
  destruct (Hthrow k) as [e He]. unfold field in Hfield.
  rewrite He in Hfield. congruence.
Qed.

Lemma bulkUpdate_toggle req db body ids :
  req_json req = Ok body →
  field "action" body = JStr "toggleActive" →
  field "scheduleIds" body = JArr ids →
  ScheduleRoute.bulkUpdate req db
  = (Ok (json 200 (BMessage "Schedules updated")),
     set_exportSchedules
       (prisma.updateMany (λ s, ScheduleRoute.id_in ids (es_id s))
                          (ScheduleRoute.set_isActive ScheduleRoute.not_true))
       db).
Proof.
  intros Hjson Haction Hids.
  unfold ScheduleRoute.bulkUpdate. rewrite Hjson. run_monad.
  rewrite !(field_defined_prop "action" _ body (JStr "toggleActive"))
    by done.
  cbn beta iota. by rewrite Haction, Hids.
Qed.

Lemma schedule_PATCH_toggle env req db uid body ids :
  ScheduleRoute.admitted env req uid →
  req_json req = Ok body →
  field "action" body = JStr "toggleActive" →
  field "scheduleIds" body = JArr ids →
  ScheduleRoute.PATCH env req db
  = (Ok (json 200 (BMessage "Schedules updated")),
     set_exportSchedules
       (prisma.updateMany (λ s, ScheduleRoute.id_in ids (es_id s))
                          (ScheduleRoute.set_isActive ScheduleRoute.not_true))
       db).
Proof.
  intros Hadm Hjson Haction Hids.
  rewrite (schedule_PATCH_admitted _ _ _ _ Hadm).
  apply run_try_ok. by apply (bulkUpdate_toggle _ _ body).
Qed.

Lemma updateMany_lookup {A} (where_ : A → bool) (data : A → A)
    (rows : list A) (i : nat) :
  prisma.updateMany where_ data rows !! i
  = (λ r, if where_ r then data r else r) <$> rows !! i.
Proof. unfold prisma.updateMany. apply list_lookup_fmap. Qed.

Lemma updateMany_elem {A} (where_ : A → bool) (data : A → A)
    (rows : list A) (r' : A) :
  r' ∈ prisma.updateMany where_ data rows ↔
  ∃ r, r ∈ rows ∧ r' = if where_ r then data r else r.
Proof.
  unfold prisma.updateMany. rewrite list_elem_of_fmap.
  split; intros (r & H1 & H2); exists r; auto.
Qed.

(** [{ id: { in: scheduleIds } }] matches a row when the array holds the
    row's id as a string. *)
Lemma id_in_spec (ids : list JsVal) (id : string) :
  ScheduleRoute.id_in ids id = true ↔ JStr id ∈ ids.
Proof.
  unfold ScheduleRoute.id_in. induction ids as [|v ids IH]; cbn [existsb].
  - split; [discriminate | by intros ?%elem_of_nil].
  - rewrite orb_true_iff, IH, elem_of_cons.
    assert (Hv : str_eq v id = true ↔ JStr id = v).
    { destruct v; cbn [str_eq]; try (split; [discriminate | by intros [=]]).
      rewrite String.eqb_eq. split; [by intros -> | by intros [= ->]]. }
    by rewrite Hv.
Qed.

(** C1.  A PATCH with the action [toggleActive] and an array of schedule ids,
    sent by a caller the gates admit, answers 200 and rewrites the schedules
    in one bulk update: the row at each position is the old row when its id
    is not in the array, and the old row with [isActive] set to the constant
    [{ not: true }] when it is.  The value written does not depend on the
    row, so every matched row ends with the same [isActive], whatever it
    held before; a row is matched when the array holds its id, and no row
    changes its id. *)
Theorem toggleActive_writes_one_constant
    (env : Env) (req : Request) (db : Db) (uid : string) (body : JsVal)
    (ids : list JsVal) :
  ScheduleRoute.admitted env req uid →
  req_json req = Ok body →
  field "action" body = JStr "toggleActive" →
  field "scheduleIds" body = JArr ids →
  (ScheduleRoute.PATCH env req db).1
  = Ok (json 200 (BMessage "Schedules updated"))
  ∧ length (exportSchedules (ScheduleRoute.PATCH env req db).2)
    = length (exportSchedules db)
  ∧ (∀ i s, exportSchedules db !! i = Some s →
       exportSchedules (ScheduleRoute.PATCH env req db).2 !! i
       = Some (if ScheduleRoute.id_in ids (es_id s)
               then ScheduleRoute.set_isActive ScheduleRoute.not_true s
               else s))
  ∧ (∀ s1 s2,
       s1 ∈ exportSchedules (ScheduleRoute.PATCH env req db).2 →
       s2 ∈ exportSchedules (ScheduleRoute.PATCH env req db).2 →
       ScheduleRoute.id_in ids (es_id s1) = true →
       ScheduleRoute.id_in ids (es_id s2) = true →
       es_isActive s1 = ScheduleRoute.not_true
       ∧ es_isActive s2 = es_isActive s1)
  ∧ (∀ i s, exportSchedules db !! i = Some s →
       ∃ r, exportSchedules (ScheduleRoute.PATCH env req db).2 !! i = Some r
            ∧ es_id r = es_id s
            ∧ (JStr (es_id s) ∈ ids →
               es_isActive r = JObj {[ "not" := JBool true ]})
            ∧ (JStr (es_id s) ∉ ids → r = s)).
Proof.
  intros Hadm Hjson Haction Hids.
  rewrite (schedule_PATCH_toggle env req db uid body ids) by done.
  cbn [fst snd set_exportSchedules exportSchedules].
  split; [reflexivity|].
  split; [unfold prisma.updateMany; by rewrite length_fmap|].
  split; [|split].
  - intros i s Hs. by rewrite updateMany_lookup, Hs.
  - assert (Hmatched : ∀ s',
      s' ∈ prisma.updateMany (λ s, ScheduleRoute.id_in ids (es_id s))
             (ScheduleRoute.set_isActive ScheduleRoute.not_true)
             (exportSchedules db) →
      ScheduleRoute.id_in ids (es_id s') = true →
      es_isActive s' = ScheduleRoute.not_true).
    { intros s' [s [_ ->]]%updateMany_elem.
      destruct (ScheduleRoute.id_in ids (es_id s)) eqn:Hin; [done|].
      congruence. }
    intros s1 s2 H1 H2 Hin1 Hin2.
    rewrite (Hmatched s1), (Hmatched s2); done.
  - intros i s Hs. rewrite updateMany_lookup, Hs.
    cbn [fmap option_fmap option_map]. eexists. split; [reflexivity|].
    destruct (ScheduleRoute.id_in ids (es_id s)) eqn:Hin.
    + split; [done|]. split; [done|].
      intros Hout. by apply id_in_spec in Hin.
    + split; [done|]. split; [|done].
      intros Hin'%id_in_spec. congruence.
Qed.

(** On the sample store the schedules [A] (active) and [B] (inactive) are
    both named: after the request both hold [{ not: true }]. *)
Lemma toggleActive_writes_one_constant_witness :
  es_isActive <$> exportSchedules sampleDb !! 0%nat = Some (JBool true)
  ∧ es_isActive <$> exportSchedules sampleDb !! 1%nat = Some (JBool false)
  ∧ es_isActive <$>
      exportSchedules
        (ScheduleRoute.PATCH sampleEnv (requestWith toggleBody) sampleDb).2
        !! 0%nat
    = Some ScheduleRoute.not_true
  ∧ es_isActive <$>
      exportSchedules
        (ScheduleRoute.PATCH sampleEnv (requestWith toggleBody) sampleDb).2
        !! 1%nat
    = Some ScheduleRoute.not_true.
Proof.
  split; [reflexivity|]. split; [reflexivity|].
  destruct (toggleActive_writes_one_constant sampleEnv
    (requestWith toggleBody) sampleDb "u1" toggleBody [JStr "A"; JStr "B"])
    as (_ & _ & Hrow & _);
    [repeat split | reflexivity | reflexivity | reflexivity |].
  split.
  - erewrite Hrow; [|reflexivity]. reflexivity.
  - erewrite Hrow; [|reflexivity]. reflexivity.
Defined.

(** C1 does not hold of every toggle request.  One that names the schedules
    [A] and [B] but comes without a session is answered 401 and nothing is
    written: the two rows named keep their values, [true] and [false]. *)
Lemma toggle_without_session :
  ScheduleRoute.PATCH anonymousEnv (requestWith toggleBody) sampleDb
  = (Ok (json 401 (BError "Unauthorized")), sampleDb)
  ∧ es_isActive <$>
      List.filter (λ s, ScheduleRoute.id_in [JStr "A"; JStr "B"] (es_id s))
        (exportSchedules
           (ScheduleRoute.PATCH anonymousEnv (requestWith toggleBody)
              sampleDb).2)
    = [JBool true; JBool false].
Proof.
  split; [reflexivity|]. vm_compute. reflexivity.
Qed.

Lemma deleteMany_elem {A} (where_ : A → bool) (rows : list A) (r : A) :
  r ∈ prisma.deleteMany where_ rows ↔ r ∈ rows ∧ where_ r = false.
Proof.
  unfold prisma.deleteMany. rewrite list_elem_of_filter. tauto.
Qed.

Lemma bulkDelete_run req db :
  ScheduleRoute.ids_of req ≠ [] →
  ∃ b, ScheduleRoute.bulkDelete req db
  = (Ok (json 200 b),
     set_exportSchedules
       (prisma.deleteMany (λ s, bool_decide (es_id s ∈ ScheduleRoute.ids_of req)))
       (set_exportScheduleExecutions
          (prisma.deleteMany
             (λ e, bool_decide (ese_scheduleId e ∈ ScheduleRoute.ids_of req)))
          db)).
Proof.
  intros Hids. unfold ScheduleRoute.bulkDelete. cbv zeta.
  destruct (ScheduleRoute.ids_of req) as [|id ids] eqn:Hsplit; [done|].
  cbn [length Nat.eqb]. run_monad. eauto.
Qed.

Lemma schedule_DELETE_run env req db uid :
  ScheduleRoute.admitted env req uid →
  ScheduleRoute.ids_of req ≠ [] →
  (ScheduleRoute.DELETE env req db).2
  = set_exportSchedules
      (prisma.deleteMany (λ s, bool_decide (es_id s ∈ ScheduleRoute.ids_of req)))
      (set_exportScheduleExecutions
         (prisma.deleteMany
            (λ e, bool_decide (ese_scheduleId e ∈ ScheduleRoute.ids_of req)))
         db).
Proof.
  intros Hadm Hids. rewrite (schedule_DELETE_admitted _ _ _ _ Hadm).
  destruct (bulkDelete_run req db Hids) as [b Hb].
  by rewrite (run_try_ok _ _ _ _ _ Hb).
Qed.

Lemma str_eq_true (v : JsVal) (lit : string) :
  str_eq v lit = true → v = JStr lit.
Proof.
  destruct v; try done. simpl. by intros ->%String.eqb_eq.
Qed.

(** Whatever the caller, a bulk PATCH leaves the store as it was or runs the
    bulk update of a toggle request. *)
Lemma bulkUpdate_cases req db :
  (ScheduleRoute.bulkUpdate req db).2 = db
  ∨ ∃ body ids,
      req_json req = Ok body
      ∧ field "action" body = JStr "toggleActive"
      ∧ field "scheduleIds" body = JArr ids
      ∧ (ScheduleRoute.bulkUpdate req db).2
        = set_exportSchedules
            (prisma.updateMany (λ s, ScheduleRoute.id_in ids (es_id s))
               (ScheduleRoute.set_isActive ScheduleRoute.not_true))
            db.
Proof.
  destruct (req_json req) as [body|e] eqn:Hjson.
  2: { left. unfold ScheduleRoute.bulkUpdate. by rewrite Hjson. }
  destruct (str_eq (field "action" body) "toggleActive") eqn:Haction.
  - apply str_eq_true in Haction.
    destruct (field "scheduleIds" body) as [| | | | | |ids| |] eqn:Hids.
    7: { right. exists body, ids.
         by rewrite (bulkUpdate_toggle req db body ids). }
    all: left; unfold ScheduleRoute.bulkUpdate; rewrite Hjson; run_monad;
      rewrite !(field_defined_prop "action" _ body (JStr "toggleActive"))
        by done;
      cbn beta iota; by rewrite Haction, Hids.
  - left. unfold ScheduleRoute.bulkUpdate. rewrite Hjson. run_monad.
    destruct (prop_cases body) as [Hok | Hthrow].
    + rewrite !Hok. cbn beta iota. by rewrite Haction.
    + by destruct (Hthrow "action") as [e ->].
Qed.

Lemma schedule_PATCH_cases env req db :
  (ScheduleRoute.PATCH env req db).2 = db
  ∨ ∃ body ids,
      req_json req = Ok body
      ∧ field "action" body = JStr "toggleActive"
      ∧ field "scheduleIds" body = JArr ids
      ∧ (ScheduleRoute.PATCH env req db).2
        = set_exportSchedules
            (prisma.updateMany (λ s, ScheduleRoute.id_in ids (es_id s))
               (ScheduleRoute.set_isActive ScheduleRoute.not_true))
            db.
Proof.
  unfold ScheduleRoute.PATCH, try_catch.
  destruct (rateLimit env (identifier_of req)); cbn [negb]; [|by left].
  destruct (session_id env) as [uid|]; [|by left].
  destruct (hasPermission env uid "admin:users:export"); cbn [negb];
    [|by left].
  destruct (bulkUpdate_cases req db) as [Hsame | (body & ids & ? & ? & ? & Hrun)].
  - left. by destruct (ScheduleRoute.bulkUpdate req db) as [[r|e] db'].
  - right. exists body, ids. repeat split; try done.
    by destruct (ScheduleRoute.bulkUpdate req db) as [[r|e] db'].
Qed.

Lemma schedule_DELETE_cases env req db :
  (ScheduleRoute.DELETE env req db).2 = db
  ∨ (ScheduleRoute.ids_of req ≠ []
     ∧ (ScheduleRoute.DELETE env req db).2
       = set_exportSchedules
           (prisma.deleteMany
              (λ s, bool_decide (es_id s ∈ ScheduleRoute.ids_of req)))
           (set_exportScheduleExecutions
              (prisma.deleteMany
                 (λ e, bool_decide
                         (ese_scheduleId e ∈ ScheduleRoute.ids_of req)))
              db)).
Proof.
  destruct (decide (ScheduleRoute.ids_of req = [])) as [Hnone | Hids].
  - left. unfold ScheduleRoute.DELETE, ScheduleRoute.bulkDelete, try_catch.
    rewrite Hnone.
    destruct (rateLimit env (identifier_of req)); cbn [negb]; [|done].
    destruct (session_id env) as [uid|]; [|done].
    by destruct (hasPermission env uid "admin:users:export").
  - unfold ScheduleRoute.DELETE, try_catch.
    destruct (rateLimit env (identifier_of req)); cbn [negb]; [|by left].
    destruct (session_id env) as [uid|]; [|by left].
    destruct (hasPermission env uid "admin:users:export"); cbn [negb];
      [|by left].
    right. split; [done|].
    destruct (bulkDelete_run req db Hids) as [b ->]. reflexivity.
Qed.

(** C9.  The rows a bulk PATCH rewrites and the rows a bulk DELETE removes
    are picked by id alone: neither [where] reads the tenant or the owner of
    a row.  Whatever the caller, a row is rewritten only if the array names
    its id and removed only if the query names its id; a rewritten row is
    the row with [{ not: true }] stored as its [isActive] and nothing else
    changed.  For a caller the gates admit, every row so named is rewritten,
    or removed with its executions, and no other row is; and so a schedule
    of a tenant other than the caller's is rewritten or removed as soon as
    its id is named. *)
Theorem bulk_operations_match_by_id_only
    (env : Env) (req : Request) (db : Db) (uid : string) :
  let toggled := λ s : ExportSchedule,
    {| es_id := es_id s; es_name := es_name s;
       es_description := es_description s; es_frequency := es_frequency s;
       es_format := es_format s; es_recipients := es_recipients s;
       es_dayOfWeek := es_dayOfWeek s; es_dayOfMonth := es_dayOfMonth s;
       es_time := es_time s; es_emailSubject := es_emailSubject s;
       es_emailBody := es_emailBody s;
       es_filterPresetId := es_filterPresetId s;
       es_isActive := JObj {[ "not" := JBool true ]};
       es_tenantId := es_tenantId s; es_userId := es_userId s;
       es_createdAt := es_createdAt s; es_updatedAt := es_updatedAt s |} in
  (∀ i s, exportSchedules db !! i = Some s →
     exportSchedules (ScheduleRoute.PATCH env req db).2 !! i = Some s
     ∨ ∃ ids, field "scheduleIds" (field_of_json req) = JArr ids
              ∧ JStr (es_id s) ∈ ids
              ∧ exportSchedules (ScheduleRoute.PATCH env req db).2 !! i
                = Some (toggled s))
  ∧ (∀ s, s ∈ exportSchedules db →
       s ∈ exportSchedules (ScheduleRoute.DELETE env req db).2
       ∨ es_id s ∈ ScheduleRoute.ids_of req)
  ∧ (ScheduleRoute.admitted env req uid →
     (∀ body ids,
        req_json req = Ok body →
        field "action" body = JStr "toggleActive" →
        field "scheduleIds" body = JArr ids →
        length (exportSchedules (ScheduleRoute.PATCH env req db).2)
        = length (exportSchedules db)
        ∧ ∀ i s, exportSchedules db !! i = Some s →
            (JStr (es_id s) ∈ ids →
             exportSchedules (ScheduleRoute.PATCH env req db).2 !! i
             = Some (toggled s))
            ∧ (JStr (es_id s) ∉ ids →
               exportSchedules (ScheduleRoute.PATCH env req db).2 !! i
               = Some s))
     ∧ (ScheduleRoute.ids_of req ≠ [] →
        (∀ s, s ∈ exportSchedules (ScheduleRoute.DELETE env req db).2
              ↔ s ∈ exportSchedules db ∧ es_id s ∉ ScheduleRoute.ids_of req)
        ∧ (∀ e, e ∈ exportScheduleExecutions
                      (ScheduleRoute.DELETE env req db).2
                ↔ e ∈ exportScheduleExecutions db
                  ∧ ese_scheduleId e ∉ ScheduleRoute.ids_of req))
     ∧ (∀ s,
          s ∈ exportSchedules db →
          tenant_of (prisma.findUnique user_id uid (users db))
            ≠ Some (es_tenantId s) →
          (es_id s ∈ ScheduleRoute.ids_of req →
             s ∉ exportSchedules (ScheduleRoute.DELETE env req db).2)
          ∧ (∀ body ids,
               req_json req = Ok body →
               field "action" body = JStr "toggleActive" →
               field "scheduleIds" body = JArr ids →
               JStr (es_id s) ∈ ids →
               toggled s
                 ∈ exportSchedules (ScheduleRoute.PATCH env req db).2))).
Proof.
  intros toggled.
  assert (Htoggled : ∀ s,
    ScheduleRoute.set_isActive ScheduleRoute.not_true s = toggled s)
    by reflexivity.
  split; [|split].
  - intros i s Hs.
    destruct (schedule_PATCH_cases env req db)
      as [-> | (body & ids & Hjson & _ & Hids & ->)]; [by left|].
    cbn [set_exportSchedules exportSchedules].
    rewrite updateMany_lookup, Hs. cbn [fmap option_fmap option_map].
    destruct (ScheduleRoute.id_in ids (es_id s)) eqn:Hin; [|by left].
    right. exists ids. unfold field_of_json. rewrite Hjson.
    apply id_in_spec in Hin. by rewrite Htoggled.
  - intros s Hs.
    destruct (schedule_DELETE_cases env req db) as [-> | [_ ->]]; [by left|].
    cbn [set_exportSchedules exportSchedules set_exportScheduleExecutions].
    destruct (decide (es_id s ∈ ScheduleRoute.ids_of req)) as [|Hout];
      [by right|].
    left. apply deleteMany_elem. by rewrite bool_decide_eq_false.
  - intros Hadm.
    assert (Hdelete : ScheduleRoute.ids_of req ≠ [] →
      ∀ s, s ∈ exportSchedules (ScheduleRoute.DELETE env req db).2
           ↔ s ∈ exportSchedules db ∧ es_id s ∉ ScheduleRoute.ids_of req).
    { intros Hids s. rewrite (schedule_DELETE_run env req db uid) by done.
      cbn [set_exportSchedules exportSchedules set_exportScheduleExecutions].
      rewrite deleteMany_elem, bool_decide_eq_false. tauto. }
    split; [|split].
    + intros body ids Hjson Haction Hids.
      rewrite (schedule_PATCH_toggle env req db uid body ids) by done.
      cbn [snd set_exportSchedules exportSchedules].
      split; [unfold prisma.updateMany; by rewrite length_fmap|].
      intros i s Hs. rewrite updateMany_lookup, Hs.
      cbn [fmap option_fmap option_map]. split.
      * intros Hin%id_in_spec. by rewrite Hin, Htoggled.
      * intros Hout.
        destruct (ScheduleRoute.id_in ids (es_id s)) eqn:Hin; [|done].
        by apply id_in_spec in Hin.
    + intros Hids. split; [by apply Hdelete|].
      intros e. rewrite (schedule_DELETE_run env req db uid) by done.
      cbn [set_exportSchedules exportScheduleExecutions
           set_exportScheduleExecutions].
      rewrite deleteMany_elem, bool_decide_eq_false. tauto.
    + intros s Hs Hforeign. split.
      * intros Hin Hstill.
        assert (Hids : ScheduleRoute.ids_of req ≠ []).
        { intros Hnil. rewrite Hnil in Hin. by apply elem_of_nil in Hin. }
        apply (Hdelete Hids) in Hstill. tauto.
      * intros body ids Hjson Haction Hids Hin%id_in_spec.
        rewrite (schedule_PATCH_toggle env req db uid body ids) by done.
        cbn [snd set_exportSchedules exportSchedules].
        apply updateMany_elem. exists s. by rewrite Hin.
Qed.

(** The caller belongs to tenant [t1]; the schedule [other] belongs to
    tenant [t2].  The caller's bulk toggle stores [{ not: true }] on it, and
    the caller's bulk delete removes it. *)
Lemma bulk_operations_match_by_id_only_witness :
  tenant_of (prisma.findUnique user_id "u1" (users sampleDb)) = Some "t1"
  ∧ sampleSchedule "other" "t2" (JBool true) ∈ exportSchedules sampleDb
  ∧ sampleSchedule "other" "t2" (JObj {[ "not" := JBool true ]})
      ∈ exportSchedules (ScheduleRoute.PATCH sampleEnv toggleOther sampleDb).2
  ∧ sampleSchedule "other" "t2" (JBool true)
      ∉ exportSchedules (ScheduleRoute.DELETE sampleEnv deleteOther sampleDb).2.
Proof.
  assert (Hin : sampleSchedule "other" "t2" (JBool true)
                  ∈ exportSchedules sampleDb).
  { apply elem_of_app. right. apply list_elem_of_singleton. reflexivity. }
  split; [reflexivity|]. split; [exact Hin|]. split.
  - destruct (bulk_operations_match_by_id_only sampleEnv toggleOther sampleDb
                "u1") as (_ & _ & Hadmitted).
    destruct Hadmitted as (_ & _ & Hforeign); [repeat split|].
    destruct (Hforeign (sampleSchedule "other" "t2" (JBool true)) Hin)
      as [_ Hpatch]; [discriminate|].
    apply (Hpatch
      (JObj (list_to_map
         [ ("action", JStr "toggleActive");
           ("scheduleIds", JArr [JStr "other"]) ]))
      [JStr "other"]); try reflexivity.
    apply list_elem_of_singleton. reflexivity.
  - destruct (bulk_operations_match_by_id_only sampleEnv deleteOther sampleDb
                "u1") as (_ & _ & Hadmitted).
    destruct Hadmitted as (_ & _ & Hforeign); [repeat split|].
    apply (Hforeign (sampleSchedule "other" "t2" (JBool true)) Hin).
    + discriminate.
    + apply list_elem_of_singleton. reflexivity.
Defined.

(** ** The filter-preset handlers *)

Lemma string_eqb_ne (a b : string) : a ≠ b → String.eqb a b = false.
Proof. intros Hne. by apply String.eqb_neq. Qed.

(** C5.  For a caller with a tenant context and a preset that exists: a GET
    of a preset that is not public and was not created by the caller is
    answered 403; a PATCH or a DELETE of a preset the caller did not create
    is answered 403, public or not.  In each of these cases the answer
    carries no preset and the store is left as it was. *)
Theorem preset_of_another_user_forbidden
    (env : Env) (req : Request) (db : Db) (userId : string)
    (preset : FilterPreset) :
  FilterPresetRoute.ctx_userId env = Some userId →
  prisma.findUnique fp_id (req_param_id req) (filter_presets db)
    = Some preset →
  fp_createdBy preset ≠ userId →
  (falsy (fp_isPublic preset) = true →
     FilterPresetRoute.GET env req db
     = (Ok FilterPresetRoute.respond.forbidden, db))
  ∧ FilterPresetRoute.PATCH env req db
    = (Ok FilterPresetRoute.respond.forbidden, db)
  ∧ FilterPresetRoute.DELETE env req db
    = (Ok FilterPresetRoute.respond.forbidden, db)
  ∧ status FilterPresetRoute.respond.forbidden = 403
  ∧ body FilterPresetRoute.respond.forbidden = BHelperDefault.
Proof.
  intros Hctx Hfound Hother.
  apply string_eqb_ne in Hother.
  split; [|split; [|split]].
  - intros Hprivate.
    unfold FilterPresetRoute.GET. rewrite Hctx. run_monad.
    by rewrite Hfound, Hprivate, Hother.
  - unfold FilterPresetRoute.PATCH. rewrite Hctx. run_monad.
    by rewrite Hfound, Hother.
  - unfold FilterPresetRoute.DELETE. rewrite Hctx. run_monad.
    by rewrite Hfound, Hother.
  - split; reflexivity.
Qed.

(** User [u1] asks for, patches and deletes the private preset of [u2]. *)
Lemma preset_of_another_user_forbidden_witness :
  FilterPresetRoute.GET sampleEnv presetRequest presetDb
  = (Ok FilterPresetRoute.respond.forbidden, presetDb)
  ∧ FilterPresetRoute.PATCH sampleEnv presetRequest presetDb
    = (Ok FilterPresetRoute.respond.forbidden, presetDb)
  ∧ FilterPresetRoute.DELETE sampleEnv presetRequest presetDb
    = (Ok FilterPresetRoute.respond.forbidden, presetDb).
Proof.
  destruct (preset_of_another_user_forbidden sampleEnv presetRequest presetDb
              "u1" privatePreset) as (Hget & Hpatch & Hdelete & _);
    [reflexivity | reflexivity | discriminate |].
  split; [apply Hget; reflexivity|]. split; [exact Hpatch | exact Hdelete].
Defined.

(** ** The report generation handler *)

Lemma findUnique_key {A} (key : A → string) (id : string) (rows : list A) r :
  prisma.findUnique key id rows = Some r → key r = id.
Proof.
  unfold prisma.findUnique. intros H. apply find_some in H as [_ H].
  by apply String.eqb_eq.
Qed.


Lemma updateMany_keys {A} (key : A → string) (where_ : A → bool)
    (data : A → A) (rows : list A) :
  (∀ r, key (data r) = key r) →
  key <$> prisma.updateMany where_ data rows = key <$> rows.
Proof.
  intros Hkey. unfold prisma.updateMany. rewrite <- list_fmap_compose.
  apply list_fmap_ext. intros _ r _. simpl. destruct (where_ r); auto.
Qed.


Lemma findUnique_updateMany {A} (key : A → string) (id : string)
    (where_ : A → bool) (data : A → A) (rows : list A) :
  (∀ r, key (data r) = key r) →
  prisma.findUnique key id (prisma.updateMany where_ data rows)
  = (λ r, if where_ r then data r else r) <$> prisma.findUnique key id rows.
Proof.
  intros Hkey. unfold prisma.findUnique, prisma.updateMany.
  induction rows as [|r rows IH]; [done|].
  rewrite fmap_cons. cbn [List.find].
  assert (Hsame : key (if where_ r then data r else r) = key r)
    by (destruct (where_ r); auto).
  rewrite Hsame. destruct (String.eqb (key r) id); [done | apply IH].
Qed.





(** ** The filter state *)

Section FilterStateFacts.
Import FilterStateHook.

Lemma startsWith_spec (needle hay : string) :
  startsWith needle hay = true ↔ ∃ after, hay = needle +:+ after.
Proof.
  revert hay. induction needle as [|a needle IH]; intros hay; simpl.
  - split; [intros _; by exists hay | done].
  - destruct hay as [|b hay].
    + split; [done | by intros [after ?]].
    + rewrite andb_true_iff, Ascii.eqb_eq, IH. split.
      * intros [-> [after ->]]. by exists after.
      * intros [after [= -> ->]]. eauto.
Qed.

Lemma includes_unfold (needle hay : string) :
  includes needle hay
  = startsWith needle hay
    || match hay with
       | EmptyString => false
       | String _ hay' => includes needle hay'
       end.
Proof. by destruct hay. Qed.

Lemma includes_spec (needle hay : string) :
  includes needle hay = true ↔ Contains needle hay.
Proof.
  unfold Contains. split.
  - induction hay as [|c hay IH]; simpl; rewrite orb_true_iff.
    + intros [[after ->]%startsWith_spec | ?]; [|done].
      by exists "", after.
    + intros [[after ->]%startsWith_spec | Hrest].
      * by exists "", after.
      * destruct (IH Hrest) as (before & after & ->).
        by exists (String c before), after.
  - intros (before & after & ->).
    induction before as [|c before IH].
    + rewrite includes_unfold, orb_true_iff. left.
      apply startsWith_spec. by exists after.
    + rewrite includes_unfold, orb_true_iff. right. exact IH.
Qed.

Lemma matchesSearch_spec (query : string) (u : UserItem) :
  matchesSearch query u = true ↔
  ∃ v, Some v ∈ searchFields u
       ∧ Contains (toLowerCase query) (toLowerCase v).
Proof.
  unfold matchesSearch. rewrite existsb_exists. split.
  - intros ([v|] & Hin & Hv); [|done].
    exists v. split; [by apply list_elem_of_In | by apply includes_spec].
  - intros (v & Hin & Hv). exists (Some v).
    split; [by apply list_elem_of_In | by apply includes_spec].
Qed.

Lemma matchesChoice_spec (choice : option string) (v : string) :
  matchesChoice choice v = true ↔ ∀ c, choice = Some c → v = c.
Proof.
  destruct choice as [c|]; simpl.
  - rewrite String.eqb_eq. split; [by intros -> ? [= <-] | eauto].
  - split; [done | done].
Qed.

Lemma matches_spec (f : FilterState) (u : UserItem) :
  matches f u = true ↔ Satisfies f u.
Proof.
  unfold matches, Satisfies.
  rewrite !andb_true_iff, orb_true_iff, !matchesChoice_spec,
    matchesSearch_spec, String.eqb_eq.
  split.
  - intros [[[Hempty | Hfound] Hrole] Hstatus]; repeat split; auto.
    by intros ?.
  - intros (Hsearch & Hrole & Hstatus). repeat split; auto.
    destruct (String.eqb (fs_search f) "") eqn:Hq.
    + left. by apply String.eqb_eq.
    + right. apply Hsearch. by apply String.eqb_neq.
Qed.

Lemma filter_counts {A} (p : A → bool) (P : A → Prop) (l : list A) :
  (∀ x, p x = true ↔ P x) → CountOf P l (length (List.filter p l)).
Proof.
  intros Hp. induction l as [|x l IH]; simpl; [constructor|].
  destruct (p x) eqn:Hx; simpl.
  - apply CountOf_yes; [by apply Hp | exact IH].
  - apply CountOf_no; [|exact IH].
    intros HP. apply Hp in HP. congruence.
Qed.

(** A list has one count only. *)
Lemma CountOf_unique {A} (P : A → Prop) (l : list A) (n m : nat) :
  CountOf P l n → CountOf P l m → n = m.
Proof.
  intros Hn. revert m. induction Hn as [|x l n Hx _ IH|x l n Hx _ IH];
    intros m Hm; inversion Hm; subst; auto; done.
Qed.

(** C7.  For every filter specification and every collection of user
    records, the filtered count is the number of records that satisfy every
    active predicate: the text predicate (lower-cased query contained in
    the lower-cased text of one of name, email, phone, company) when the
    query is not empty, the role when one is chosen, the status when one
    is chosen.  The filtered records are exactly those records; the total
    is the size of the collection; and the flag tells whether a predicate
    is active. *)
Theorem filtered_count_is_cardinality
    (users : list UserItem) (f : FilterState) :
  CountOf (Satisfies f) users (filteredCount (useFilterState users f).2)
  ∧ (∀ u, u ∈ (useFilterState users f).1 ↔ u ∈ users ∧ Satisfies f u)
  ∧ filteredCount (useFilterState users f).2
    = length (useFilterState users f).1
  ∧ totalCount (useFilterState users f).2 = length users
  ∧ (filteredCount (useFilterState users f).2
     ≤ totalCount (useFilterState users f).2)%nat
  ∧ (isFiltered (useFilterState users f).2 = true ↔
     fs_search f ≠ "" ∨ is_Some (fs_role f) ∨ is_Some (fs_status f)).
Proof.
  unfold useFilterState. cbn [fst snd filteredCount totalCount isFiltered].
  split; [apply filter_counts, matches_spec|].
  split.
  { intros u. rewrite list_elem_of_In, filter_In, <- list_elem_of_In.
    by rewrite matches_spec. }
  split; [reflexivity|]. split; [reflexivity|].
  split; [apply List.filter_length_le|].
  rewrite !orb_true_iff, negb_true_iff, !bool_decide_eq_true.
  rewrite String.eqb_neq. tauto.
Qed.

(** The role views of the component tests: 150 in all, 50, 75 and 25. *)
Example role_view_counts :
  (λ r, filteredCount (useFilterState directory (roleView r)).2)
    <$> [None; Some "CLIENT"; Some "TEAM"; Some "ADMIN"]
  = [150; 50; 75; 25]%nat.
Proof. vm_compute. reflexivity. Qed.
End FilterStateFacts.

(** ** The saved-view buttons *)

Section SavedViewsFacts.
Import SavedViews.



End SavedViewsFacts.

(** ** Reading the CSV output back *)

Lemma append_nil_r (s : string) : s +:+ "" = s.
Proof. induction s as [|c s IH]; [done|]. unfold String.append. fold String.append. by rewrite IH. Qed.

Lemma append_cons (c : ascii) (s t : string) :
  String c s +:+ t = String c (s +:+ t).
Proof. reflexivity. Qed.

Lemma append_assoc (s t u : string) : (s +:+ t) +:+ u = s +:+ (t +:+ u).
Proof.
  induction s as [|c s IH]; [done|]. by rewrite !append_cons, IH.
Qed.

Lemma join_cons (sep x : string) (l : list string) :
  l ≠ [] → join sep (x :: l) = x +:+ sep +:+ join sep l.
Proof. by destruct l. Qed.

Lemma append_nil_l (s : string) : "" +:+ s = s.
Proof. reflexivity. Qed.

(** Bring a text to the form character, character, ..., rest. *)
Ltac spell :=
  unfold quoted, nl, str1;
  repeat first [ rewrite append_cons | rewrite append_nil_l
               | rewrite append_assoc ].

Lemma escapeQuotes_plain (s : string) :
  occurs dquote s = false → escapeQuotes s = s.
Proof.
  unfold escapeQuotes. induction s as [|c s IH]; [done|].
  cbn [occurs replaceAll]. intros [Hc Hs]%orb_false_iff.
  by rewrite Hc, IH.
Qed.

(** Inside quotes, the escaped text of [v] followed by a closing quote
    reads as [v]. *)
Lemma parse_quoted (v field_ : string) (record : list string) (rest : string) :
  parseCsv InQuoted field_ record (escapeQuotes v +:+ String dquote rest)
  = parseCsv AfterQuote (field_ +:+ v) record rest.
Proof.
  unfold escapeQuotes, str1. revert field_.
  induction v as [|c v IH]; intros field_.
  - cbn [replaceAll]. rewrite append_nil_r, append_nil_l.
    cbn [parseCsv]. by rewrite Ascii.eqb_refl.
  - cbn [replaceAll]. destruct (Ascii.eqb c dquote) eqn:Hc.
    + apply Ascii.eqb_eq in Hc as ->. spell.
      cbn [parseCsv]. rewrite !Ascii.eqb_refl.
      rewrite IH. f_equal. by spell.
    + rewrite append_cons. cbn [parseCsv]. rewrite Hc, IH. f_equal.
      by spell.
Qed.

Lemma comma_not_quote : Ascii.eqb comma dquote = false.
Proof. reflexivity. Qed.

Lemma newline_not_quote : Ascii.eqb newline dquote = false.
Proof. reflexivity. Qed.

Lemma newline_not_comma : Ascii.eqb newline comma = false.
Proof. reflexivity. Qed.

(** A line of quoted cells reads as one record. *)
Lemma parse_line (vs : list string) (record : list string) (rest : string) :
  vs ≠ [] →
  parseCsv FieldStart "" record
    (join (str1 comma) ((λ v, quoted (escapeQuotes v)) <$> vs)
       +:+ String newline rest)
  = cons (record ++ vs)%list <$> parseCsv FieldStart "" [] rest.
Proof.
  unfold quoted, str1. revert record.
  induction vs as [|v vs IH]; intros record Hvs; [done|].
  destruct vs as [|v2 vs].
  - cbn [fmap list_fmap join]. spell.
    cbn [parseCsv]. rewrite Ascii.eqb_refl, parse_quoted.
    cbn [parseCsv]. rewrite newline_not_quote, newline_not_comma.
    by rewrite Ascii.eqb_refl.
  - rewrite fmap_cons, join_cons by done. spell.
    cbn [parseCsv]. rewrite Ascii.eqb_refl, parse_quoted.
    cbn [parseCsv]. rewrite comma_not_quote, Ascii.eqb_refl.
    rewrite IH by done. by rewrite <- app_assoc.
Qed.

Lemma foldl_append {A} (g : A → string) (l : list A) (init : string) :
  foldl (λ acc x, acc +:+ g x) init l
  = init +:+ foldr (λ x acc, g x +:+ acc) "" l.
Proof.
  revert init. induction l as [|x l IH]; intros init; simpl.
  - by rewrite append_nil_r.
  - by rewrite IH, append_assoc.
Qed.

Lemma parse_lines {A} (cells : A → list string) (l : list A) :
  (∀ x, cells x ≠ []) →
  parseCsv FieldStart "" []
    (foldr (λ x acc,
              (join (str1 comma) ((λ v, quoted (escapeQuotes v)) <$> cells x)
                 +:+ nl) +:+ acc) "" l)
  = Some (cells <$> l).
Proof.
  intros Hcells. induction l as [|x l IH]; [done|].
  cbn [foldr]. unfold nl at 1. unfold str1 at 2.
  rewrite append_assoc, append_cons, append_nil_l, parse_line by done.
  rewrite IH. reflexivity.
Qed.

Lemma foldr_fun_ext {A B} (f g : A → B → B) (b : B) (l : list A) :
  (∀ x acc, f x acc = g x acc) → foldr f b l = foldr g b l.
Proof. intros Hfg. induction l as [|x l IH]; simpl; [done|]. by rewrite IH, Hfg. Qed.

Lemma csvHeader_cells (columns : list Column) :
  (∀ col, col ∈ columns → occurs dquote (col_label col) = false) →
  csvHeader columns
  = join (str1 comma)
      ((λ v, quoted (escapeQuotes v)) <$> (col_label <$> columns)) +:+ nl.
Proof.
  intros Hplain. unfold csvHeader. f_equal. f_equal.
  rewrite <- list_fmap_compose. apply list_fmap_ext.
  intros i col Hcol. simpl. rewrite escapeQuotes_plain; [done|].
  apply Hplain. by apply list_elem_of_lookup_2 in Hcol.
Qed.

Lemma csvLine_cells (columns : list Column) (row : Row) :
  csvLine columns row
  = join (str1 comma)
      ((λ v, quoted (escapeQuotes v)) <$> (cellText row <$> columns)) +:+ nl.
Proof.
  unfold csvLine. f_equal. f_equal. by rewrite <- list_fmap_compose.
Qed.

(** X1.  The CSV report reads back, by the standard rules, as the labels and the
    cell texts it was written from, when the report has a column and no label
    holds a double quote. *)
Theorem csv_report_reads_back
    (report : Report) (rd : ReportData) (c : Column) (cs : list Column) :
  rd_columns rd = Some (c :: cs) →
  (∀ col, col ∈ c :: cs → occurs dquote (col_label col) = false) →
  readCsv (generateCSVReport report rd)
  = Some ((col_label <$> c :: cs)
            :: ((λ row, cellText row <$> c :: cs)
                  <$> default [] (rd_rows rd))).
Proof.
  intros Hcolumns Hplain. unfold readCsv, generateCSVReport. cbv zeta.
  rewrite Hcolumns. cbn [nonempty default from_option id].
  rewrite append_nil_l.
  assert (Hrows :
    (if nonempty (rd_rows rd)
     then foldl (λ acc row, acc +:+ csvLine (c :: cs) row)
            (csvHeader (c :: cs)) (default [] (rd_rows rd))
     else csvHeader (c :: cs))
    = foldl (λ acc row, acc +:+ csvLine (c :: cs) row)
        (csvHeader (c :: cs)) (default [] (rd_rows rd))).
  { by destruct (rd_rows rd) as [[|row rows]|]. }
  rewrite Hrows, foldl_append, csvHeader_cells by done.
  unfold nl at 1. unfold str1 at 2.
  rewrite append_assoc, append_cons, append_nil_l, parse_line by done.
  rewrite (foldr_fun_ext _
    (λ row acc,
       (join (str1 comma)
          ((λ v, quoted (escapeQuotes v)) <$> (cellText row <$> c :: cs))
        +:+ nl) +:+ acc)).
  - by rewrite (parse_lines (λ row, cellText row <$> c :: cs)).
  - intros row acc. by rewrite csvLine_cells.
Qed.

(** A report of one column and two rows, one of them with a quote in its
    value, reads back. *)
Lemma csv_report_reads_back_witness :
  readCsv
    (generateCSVReport brokenReport
       {| rd_columns := Some [ {| col_name := "n"; col_label := "Name" |} ];
          rd_rows := Some [ {[ "n" := JStr quoteLabel ]}; {[ "n" := JNum 0 ]} ];
          rd_rowCount := 2; rd_summary := None |})
  = Some [ ["Name"]; [quoteLabel]; [""] ].
Proof.
  rewrite (csv_report_reads_back brokenReport _
             {| col_name := "n"; col_label := "Name" |} []).
  - reflexivity.
  - reflexivity.
  - intros col ->%list_elem_of_singleton. reflexivity.
Defined.

(** ** The recipient pattern *)

Lemma all_plain_app (a b : string) :
  all_plain (a +:+ b) = all_plain a && all_plain b.
Proof.
  induction a as [|x a IH]; [done|].
  rewrite append_cons. cbn [all_plain]. by rewrite IH, andb_assoc.
Qed.

Lemma all_plain_no_at (a : string) :
  all_plain a = true → occurs "@"%char a = false.
Proof.
  induction a as [|x a IH]; [done|]. cbn [all_plain occurs].
  intros [[_ Hx%negb_true_iff]%andb_true_iff Ha]%andb_true_iff.
  by rewrite Hx, IH.
Qed.

Lemma cut_spec (c : ascii) (s l r : string) :
  cut c s = Some (l, r) ↔ s = l +:+ String c r ∧ occurs c l = false.
Proof.
  revert l. induction s as [|x s IH]; intros l; cbn [cut].
  - split; [done|]. intros [Hs _]. by destruct l.
  - destruct (Ascii.eqb x c) eqn:Hx.
    + apply Ascii.eqb_eq in Hx as ->. split.
      * by intros [= <- <-].
      * intros [Hs Hl]. destruct l as [|y l].
        -- rewrite append_nil_l in Hs. by injection Hs as ->.
        -- rewrite append_cons in Hs. injection Hs as -> _.
           cbn [occurs] in Hl. by rewrite Ascii.eqb_refl in Hl.
    + split.
      * destruct (cut c s) as [[l' r']|] eqn:Hcut; [|done].
        intros [= <- <-]. destruct (proj1 (IH l') eq_refl) as [-> Hl'].
        split; [done|]. cbn [occurs]. by rewrite Hx.
      * intros [Hs Hl]. destruct l as [|y l].
        -- rewrite append_nil_l in Hs. injection Hs as -> _.
           by rewrite Ascii.eqb_refl in Hx.
        -- rewrite append_cons in Hs. injection Hs as <- ->.
           cbn [occurs] in Hl. apply orb_false_iff in Hl as [_ Hl].
           by rewrite (proj2 (IH l) (conj eq_refl Hl)).
Qed.

Lemma dot_then_more_spec (s : string) :
  dot_then_more s = true ↔ ∃ y r, s = String "."%char (String y r).
Proof.
  destruct s as [|c [|y r]]; cbn [dot_then_more].
  - split; [done | by intros (? & ? & ?)].
  - split; [done | by intros (? & ? & ?)].
  - rewrite Ascii.eqb_eq. split.
    + intros ->. eauto.
    + by intros (? & ? & [= -> _ _]).
Qed.

Lemma inner_dot_spec (s : string) :
  inner_dot s = true ↔ ∃ b c, b ≠ "" ∧ c ≠ "" ∧ s = b +:+ "." +:+ c.
Proof.
  split.
  - induction s as [|x s IH]; [done|]. cbn [inner_dot].
    intros [(y & r & ->)%dot_then_more_spec | Hs]%orb_true_iff.
    + by exists (String x ""), (String y r).
    + destruct (IH Hs) as (b & c & Hb & Hc & ->).
      by exists (String x b), c.
  - intros (b & c & Hb & Hc & ->).
    induction b as [|x b IH]; [done|].
    rewrite append_cons. cbn [inner_dot]. apply orb_true_iff.
    destruct b as [|x' b].
    + left. apply dot_then_more_spec. destruct c as [|y r]; [done|]. eauto.
    + right. by apply IH.
Qed.

(** X2.  The test the handler runs on a recipient accepts exactly the texts
    of the shape the pattern describes. *)
Theorem emailRegex_test_spec (email : JsVal) :
  emailRegex_test email = true ↔ EmailShaped (toString email).
Proof.
  unfold emailRegex_test, EmailShaped. split.
  - destruct (cut "@"%char (toString email)) as [[a d]|] eqn:Hcut; [|done].
    apply cut_spec in Hcut as [-> _].
    rewrite !andb_true_iff, negb_true_iff, String.eqb_neq.
    intros [[[Ha Hplain] Hd] (b & c & Hb & Hc & ->)%inner_dot_spec].
    rewrite !all_plain_app in Hd.
    apply andb_true_iff in Hd as [Hpb [_ Hpc]%andb_true_iff].
    by exists a, b, c.
  - intros (a & b & c & -> & Ha & Hb & Hc & Hpa & Hpb & Hpc).
    assert (Hcut : cut "@"%char (a +:+ "@" +:+ b +:+ "." +:+ c)
                   = Some (a, b +:+ "." +:+ c)).
    { apply cut_spec. split; [done | by apply all_plain_no_at]. }
    rewrite Hcut, !andb_true_iff, negb_true_iff, String.eqb_neq.
    repeat split; auto.
    + rewrite !all_plain_app, Hpb, Hpc. reflexivity.
    + apply inner_dot_spec. by exists b, c.
Qed.

(** ** Further properties of the handlers *)

Lemma listed_format_truthy (format : JsVal) :
  existsb (str_eq format) ["csv"; "xlsx"; "json"; "pdf"] = true →
  falsy format = false.
Proof.
  destruct format as [| |b|n|s|d|l|o|f a]; try done.
  cbn [existsb str_eq]. unfold falsy, truthy.
  destruct (String.eqb s "") eqn:Hs; [|done].
  apply String.eqb_eq in Hs as ->. done.
Qed.

Lemma existsb_negb_forallb {A} (p : A → bool) (l : list A) :
  forallb p l = true → existsb (λ x, negb (p x)) l = false.
Proof.
  induction l as [|x l IH]; [done|]. cbn [forallb existsb].
  intros [-> Hl]%andb_true_iff. by rewrite IH.
Qed.

(** A valid body reaches the limit check. *)
Lemma createSchedule_valid env req uid tenantId db body :
  req_json req = Ok body →
  validCreation body →
  ScheduleRoute.createSchedule env req uid tenantId db
  = (existingSchedules ← gets (ScheduleRoute.countSchedules tenantId);
     if (20 <=? existingSchedules)%nat
     then mret (json 400
            (BError "Maximum number of export schedules (20) reached for this tenant"))
     else
       id ← lift (getRandomUUID env);
       let schedule :=
         {| es_id := id; es_name := field "name" body;
            es_description := field "description" body;
            es_frequency := field "frequency" body;
            es_format := field "format" body;
            es_recipients := field "recipients" body;
            es_dayOfWeek := js_or (field "dayOfWeek" body) JNull;
            es_dayOfMonth := js_or (field "dayOfMonth" body) JNull;
            es_time := js_or (field "time" body) (JStr "09:00");
            es_emailSubject := field "emailSubject" body;
            es_emailBody := field "emailBody" body;
            es_filterPresetId := js_or (field "filterPresetId" body) JNull;
            es_isActive := or_default (field "isActive" body) (JBool true);
            es_tenantId := tenantId; es_userId := uid;
            es_createdAt := now env; es_updatedAt := now env |} in
       write exportSchedules set_exportSchedules
         (prisma.create es_id schedule);;
       mret (json 200
         (BSchedule schedule "Export schedule created successfully"))) db.
Proof.
  intros Hjson (Hname & Hfrequency & Hformat & l & Hrecipients & Hl & Hemails).
  unfold ScheduleRoute.createSchedule. rewrite Hjson.
  unfold mbind at 1, M_bind at 1, lift at 1. cbn beta iota.
  assert (Hdefined : ∀ k, prop k body = Ok (field k body)).
  { intros k. by apply (field_defined_prop "recipients" k body (JArr l)). }
  unfold mbind at 1 2 3 4 5 6 7 8 9 10 11 12,
         M_bind at 1 2 3 4 5 6 7 8 9 10 11 12,
         lift at 1 2 3 4 5 6 7 8 9 10 11 12.
  rewrite !Hdefined. cbn beta iota zeta.
  unfold falsy at 1 2. rewrite Hname, Hfrequency.
  rewrite (listed_format_truthy _ Hformat), Hformat, Hrecipients.
  destruct l as [|email l]; [done|].
  cbn [falsy truthy negb js_length length is_zero orb Z.of_nat Z.eqb].
  cbn [ScheduleRoute.some_invalid].
  unfold mbind at 1, M_bind at 1, lift at 1. cbn beta iota.
  by rewrite (existsb_negb_forallb _ _ Hemails).
Qed.

(** Without an id there is no schedule: the creation ends in a 400 or in
    an exception, and the store is as it was. *)
Lemma createSchedule_without_id env req uid tenantId db e :
  getRandomUUID env = Throw e →
  (∃ resp, ScheduleRoute.createSchedule env req uid tenantId db
           = (Ok resp, db) ∧ status resp = 400)
  ∨ (∃ e', ScheduleRoute.createSchedule env req uid tenantId db
           = (Throw e', db)).
Proof.
  intros Huuid. unfold ScheduleRoute.createSchedule.
  destruct (req_json req) as [body|e0]; run_monad; [|right; eauto].
  destruct (prop_cases body) as [Hok | Hthrow].
  2: { destruct (Hthrow "name") as [e0 ->]. right; eauto. }
  rewrite !Hok. cbn beta iota zeta.
  destruct (_ || is_zero _); [left; eauto|].
  destruct (negb (existsb _ _)); [left; eauto|].
  destruct (ScheduleRoute.some_invalid _) as [[|]|e0];
    [left; eauto | | right; eauto].
  destruct (20 <=? ScheduleRoute.countSchedules tenantId db)%nat;
    [left; eauto|].
  rewrite Huuid. right; eauto.
Qed.

(** X3.  The id of a new schedule is computed by [crypto.getRandomUUID()]
    inside the argument of the create.  When that call throws, as it does
    on a [crypto] that has no such member, no creation request stores a
    schedule or is answered 200: the store is as it was whatever the
    request, and a valid request of an admitted caller whose tenant holds
    fewer than twenty schedules is answered with the generic 500. *)
Theorem schedule_creation_always_fails
    (env : Env) (req : Request) (db : Db) (e : Exn) :
  getRandomUUID env = Throw e →
  (ScheduleRoute.POST env req db).2 = db
  ∧ (∀ resp, (ScheduleRoute.POST env req db).1 = Ok resp →
       status resp ≠ 200)
  ∧ (∀ uid tenantId body,
       ScheduleRoute.admitted env req uid →
       tenant_of (prisma.findUnique user_id uid (users db)) = Some tenantId →
       req_json req = Ok body →
       validCreation body →
       (ScheduleRoute.countSchedules tenantId db < 20)%nat →
       ScheduleRoute.POST env req db
       = (Ok (json 500 (BError "Failed to create export schedule")), db)).
Proof.
  intros Huuid.
  assert (Hall : (ScheduleRoute.POST env req db).2 = db
                 ∧ ∀ resp, (ScheduleRoute.POST env req db).1 = Ok resp →
                           status resp ≠ 200).
  { destruct (schedule_POST_stopped env req db)
      as [(uid & tenantId & Hadm & Htenant) | (st & b & -> & Hst)].
    - rewrite (schedule_POST_admitted _ _ _ _ _ Hadm Htenant).
      unfold try_catch.
      destruct (createSchedule_without_id env req uid tenantId db e Huuid)
        as [(resp & -> & Hresp) | (e' & ->)]; cbn [fst snd].
      + split; [done|]. intros ? [= <-]. lia.
      + split; [done|]. by intros ? [= <-].
    - cbn [fst snd]. split; [done|]. intros ? [= <-]. cbn [json status]. lia. }
  split; [apply Hall|]. split; [apply Hall|].
  intros uid tenantId body Hadm Htenant Hjson Hvalid Hcount.
  rewrite (schedule_POST_admitted _ _ _ _ _ Hadm Htenant).
  unfold try_catch. rewrite (createSchedule_valid _ _ _ _ _ body) by done.
  run_monad. apply Nat.leb_gt in Hcount as Hleb. by rewrite Hleb, Huuid.
Qed.

(** A valid request for a tenant without schedules. *)
Lemma schedule_creation_always_fails_witness :
  ScheduleRoute.POST sampleEnv (requestWith validBody) presetDb
  = (Ok (json 500 (BError "Failed to create export schedule")), presetDb).
Proof.
  destruct (schedule_creation_always_fails sampleEnv (requestWith validBody)
              presetDb notAFunction eq_refl) as (_ & _ & Hpost).
  apply (Hpost "u1" "t1" validBody).
  - repeat split.
  - reflexivity.
  - reflexivity.
  - repeat split. exists [JStr "ann@example.com"]. repeat split. done.
  - vm_compute. lia.
Defined.

(** X4.  A valid creation request of an admitted caller whose tenant already
    holds twenty schedules is refused with the message of the limit. *)
Theorem schedule_limit_message
    (env : Env) (req : Request) (db : Db) (uid tenantId : string)
    (body : JsVal) :
  ScheduleRoute.admitted env req uid →
  tenant_of (prisma.findUnique user_id uid (users db)) = Some tenantId →
  req_json req = Ok body →
  validCreation body →
  (20 ≤ ScheduleRoute.countSchedules tenantId db)%nat →
  ScheduleRoute.POST env req db
  = (Ok (json 400
       (BError "Maximum number of export schedules (20) reached for this tenant")),
     db).
Proof.
  intros Hadm Htenant Hjson Hvalid Hcount.
  rewrite (schedule_POST_admitted _ _ _ _ _ Hadm Htenant).
  unfold try_catch. rewrite (createSchedule_valid _ _ _ _ _ body) by done.
  run_monad. apply Nat.leb_le in Hcount. by rewrite Hcount.
Qed.

Lemma schedule_limit_message_witness :
  ScheduleRoute.POST sampleEnv (requestWith validBody) sampleDb
  = (Ok (json 400
       (BError "Maximum number of export schedules (20) reached for this tenant")),
     sampleDb).
Proof.
  apply (schedule_limit_message sampleEnv (requestWith validBody) sampleDb
           "u1" "t1" validBody).
  - repeat split.
  - reflexivity.
  - reflexivity.
  - repeat split. exists [JStr "ann@example.com"]. repeat split. done.
  - apply Nat.leb_le. vm_compute. reflexivity.
Defined.

(** X5.  A caller the gates turn away changes nothing, and each gate has
    its answer: without a pass from the rate limiter each of the four
    schedule handlers answers 429; with the pass but without a session,
    401; with a session but without the export permission, 403.  A caller
    who is not admitted is stopped at one of the three, and the store stays
    as it was. *)
Theorem schedule_gates_refuse (env : Env) (req : Request) (db : Db) :
  let handlers :=
    [ScheduleRoute.GET; ScheduleRoute.POST; ScheduleRoute.PATCH;
     ScheduleRoute.DELETE] in
  (rateLimit env (identifier_of req) = false →
   Forall (λ h, h env req db
              = (Ok (json 429 (BError "Rate limit exceeded")), db)) handlers)
  ∧ (rateLimit env (identifier_of req) = true →
     session_id env = None →
     Forall (λ h, h env req db
                = (Ok (json 401 (BError "Unauthorized")), db)) handlers)
  ∧ (∀ uid,
       rateLimit env (identifier_of req) = true →
       session_id env = Some uid →
       hasPermission env uid "admin:users:export" = false →
       Forall (λ h, h env req db
                  = (Ok (json 403 (BError "Forbidden")), db)) handlers)
  ∧ ((∀ uid, ¬ ScheduleRoute.admitted env req uid) →
     rateLimit env (identifier_of req) = false
     ∨ (rateLimit env (identifier_of req) = true ∧ session_id env = None)
     ∨ (∃ uid, rateLimit env (identifier_of req) = true
               ∧ session_id env = Some uid
               ∧ hasPermission env uid "admin:users:export" = false)).
Proof.
  intros handlers. unfold handlers.
  split; [|split; [|split]].
  - intros Hrate.
    repeat constructor;
      unfold ScheduleRoute.GET, ScheduleRoute.POST, ScheduleRoute.PATCH,
        ScheduleRoute.DELETE, try_catch; by rewrite Hrate.
  - intros Hrate Hsession.
    repeat constructor;
      unfold ScheduleRoute.GET, ScheduleRoute.POST, ScheduleRoute.PATCH,
        ScheduleRoute.DELETE, try_catch; by rewrite Hrate, Hsession.
  - intros uid Hrate Hsession Hperm.
    repeat constructor;
      unfold ScheduleRoute.GET, ScheduleRoute.POST, ScheduleRoute.PATCH,
        ScheduleRoute.DELETE, try_catch;
      by rewrite Hrate, Hsession, Hperm.
  - intros Hrefused. unfold ScheduleRoute.admitted in Hrefused.
    destruct (rateLimit env (identifier_of req)); [|by left].
    destruct (session_id env) as [uid|]; [|right; by left].
    destruct (hasPermission env uid "admin:users:export") eqn:Hperm.
    + destruct (Hrefused uid). auto.
    + right. right. by exists uid.
Qed.

(** A throttled caller, a caller without a session and a caller without the
    permission, each at one of the handlers. *)
Lemma schedule_gates_refuse_witness :
  ScheduleRoute.GET throttledEnv deleteOther sampleDb
  = (Ok (json 429 (BError "Rate limit exceeded")), sampleDb)
  ∧ ScheduleRoute.DELETE anonymousEnv deleteOther sampleDb
    = (Ok (json 401 (BError "Unauthorized")), sampleDb)
  ∧ ScheduleRoute.PATCH unprivilegedEnv toggleOther sampleDb
    = (Ok (json 403 (BError "Forbidden")), sampleDb).
Proof.
  split; [|split].
  - destruct (schedule_gates_refuse throttledEnv deleteOther sampleDb)
      as (H429 & _).
    exact (Forall_inv (H429 eq_refl)).
  - destruct (schedule_gates_refuse anonymousEnv deleteOther sampleDb)
      as (_ & H401 & _).
    exact (Forall_inv
             (Forall_inv_tail (Forall_inv_tail (Forall_inv_tail
                (H401 eq_refl eq_refl))))).
  - destruct (schedule_gates_refuse unprivilegedEnv toggleOther sampleDb)
      as (_ & _ & H403 & _).
    exact (Forall_inv
             (Forall_inv_tail (Forall_inv_tail
                (H403 "u1" eq_refl eq_refl eq_refl)))).
Defined.

(** X6.  A public preset is served to any caller with a tenant context, owner or
    not, with its creator and its parsed configuration; the store is not
    written. *)
Theorem public_preset_served
    (env : Env) (req : Request) (db : Db) (userId : string)
    (preset : FilterPreset) (config : JsVal) :
  FilterPresetRoute.ctx_userId env = Some userId →
  prisma.findUnique fp_id (req_param_id req) (filter_presets db)
    = Some preset →
  truthy (fp_isPublic preset) = true →
  JSON_parse env (fp_filterConfig preset) = Ok config →
  FilterPresetRoute.GET env req db
  = (Ok (FilterPresetRoute.respond.ok
           (BPreset preset (FilterPresetRoute.creator_of db preset) config)),
     db).
Proof.
  intros Hctx Hfound Hpublic Hconfig.
  unfold FilterPresetRoute.GET. rewrite Hctx. run_monad.
  rewrite Hfound. unfold falsy. rewrite Hpublic. cbn [negb andb].
  by rewrite Hconfig.
Qed.

Lemma public_preset_served_witness :
  fp_createdBy publicPreset ≠ "u1"
  ∧ ∃ b, FilterPresetRoute.GET sampleEnv sharedRequest sharedDb
         = (Ok (json 200 b), sharedDb).
Proof.
  split; [discriminate|]. eexists.
  apply (public_preset_served sampleEnv sharedRequest sharedDb "u1"
           publicPreset (JObj ∅)); reflexivity.
Defined.

(** X7.  A generation request for a format that is not one of pdf, xlsx, csv and
    json is answered 400 before any execution record is created. *)
Theorem generate_unknown_format_rejected
    (env : Env) (req : Request) (db : Db) (report : Report) (body : JsVal) :
  rateLimit env (identifier_of req) = true →
  hasPermission env (context_userId env) "admin:reports:generate" = true →
  prisma.findUnique report_id (req_param_id req) (reports db) = Some report →
  req_json req = Ok body → body ≠ JNull → body ≠ JUndefined →
  existsb (str_eq (or_default (field "format" body) (JStr "pdf")))
    ["pdf"; "xlsx"; "csv"; "json"] = false →
  GenerateRoute.POST env req db
  = (Ok (json 400
       (BError "Invalid export format. Supported: pdf, xlsx, csv, json")),
     db).
Proof.
  intros Hrate Hperm Hfound Hjson Hnull Hundef Hformat.
  unfold GenerateRoute.POST. rewrite Hrate, Hperm. cbn [negb]. run_monad.
  rewrite Hfound, Hjson. cbn beta iota.
  rewrite !prop_field by done. cbn beta iota zeta.
  by rewrite Hformat.
Qed.

Lemma generate_unknown_format_rejected_witness :
  GenerateRoute.POST sampleEnv
    {| req_forwarded_for := None;
       req_json := Ok (JObj {[ "format" := JStr "docx" ]});
       req_ids := None; req_param_id := "r1" |}
    reportDb
  = (Ok (json 400
       (BError "Invalid export format. Supported: pdf, xlsx, csv, json")),
     reportDb).
Proof.
  apply (generate_unknown_format_rejected sampleEnv _ reportDb brokenReport
           (JObj {[ "format" := JStr "docx" ]}));
    first [ reflexivity | discriminate ].
Defined.

#[export] Instance newest_first_total : Total ScheduleRoute.newest_first.
Proof.
  intros a b. unfold ScheduleRoute.newest_first.
  destruct (Z.le_ge_cases (es_createdAt b) (es_createdAt a)); [left|right]; lia.
Qed.

(** X8.  The list handler, unlike the bulk operations, is scoped to the caller's
    tenant: it answers with the schedules of that tenant, all of them and no
    others, newest first, each with the number of its executions. *)
Theorem schedule_GET_lists_own_tenant
    (env : Env) (req : Request) (db : Db) (uid tenantId : string) :
  ScheduleRoute.admitted env req uid →
  tenant_of (prisma.findUnique user_id uid (users db)) = Some tenantId →
  ∃ listed,
    ScheduleRoute.GET env req db = (Ok (json 200 (BSchedules listed)), db)
    ∧ listed.*1 ≡ₚ filter (λ s, es_tenantId s = tenantId) (exportSchedules db)
    ∧ Sorted ScheduleRoute.newest_first listed.*1
    ∧ (∀ s n, (s, n) ∈ listed →
         es_tenantId s = tenantId ∧ n = ScheduleRoute.executionCount db s).
Proof.
  intros (Hrate & Hsession & Hperm) Htenant.
  unfold ScheduleRoute.GET, try_catch. rewrite Hrate, Hsession, Hperm.
  cbn [negb]. run_monad. rewrite Htenant.
  eexists. split; [reflexivity|].
  assert (Hfst : ∀ l : list ExportSchedule,
    ((λ s, (s, ScheduleRoute.executionCount db s)) <$> l).*1 = l).
  { intros l. rewrite <- list_fmap_compose. apply list_fmap_id. }
  rewrite Hfst. split; [apply merge_sort_Permutation|].
  split; [apply (Sorted_merge_sort _)|].
  intros s n [s' [[= -> ->] Hs']]%list_elem_of_fmap. split; [|done].
  rewrite merge_sort_Permutation in Hs'.
  by apply list_elem_of_filter in Hs' as [? _].
Qed.

Lemma schedule_GET_lists_own_tenant_witness :
  ∃ listed,
    ScheduleRoute.GET sampleEnv (requestWith JNull) sampleDb
    = (Ok (json 200 (BSchedules listed)), sampleDb)
    ∧ length listed = 20%nat
    ∧ length (exportSchedules sampleDb) = 21%nat.
Proof.
  destruct (schedule_GET_lists_own_tenant sampleEnv (requestWith JNull)
              sampleDb "u1" "t1") as (listed & Hget & Hperm & _);
    [repeat split | reflexivity |].
  exists listed. split; [exact Hget|]. split; [|reflexivity].
  rewrite <- (length_fmap fst), Hperm. vm_compute. reflexivity.
Defined.

(** * Further properties *)

(** [split] always returns at least one piece. *)
Lemma js_split_cons (c : ascii) (s : string) :
  ∃ x xs, js_split c s = x :: xs.
Proof.
  induction s as [|a s IH]; simpl; [eauto|].
  destruct (Ascii.eqb a c); [eauto|].
  destruct IH as (x & xs & ->). eauto.
Qed.

Lemma ids_of_present (req : Request) (s : string) :
  req_ids req = Some s → ScheduleRoute.ids_of req ≠ [].
Proof.
  intros Hs. unfold ScheduleRoute.ids_of. rewrite Hs.
  by destruct (js_split_cons comma s) as (x & xs & ->).
Qed.

Lemma filter_split_length {A} (p : A → bool) (rows : list A) :
  (length (filter (λ r, p r = true) rows)
   + length (filter (λ r, p r = false) rows))%nat = length rows.
Proof.
  induction rows as [|r rows IH]; [done|].
  rewrite !filter_cons. destruct (p r) eqn:Hp.
  - rewrite decide_True, decide_False by done. simpl. lia.
  - rewrite decide_False, decide_True by done. simpl. lia.
Qed.

(** X9.  A bulk DELETE by a caller the gates admit answers 400 only when the
    [ids] parameter is absent: a parameter that is present, even empty,
    splits into at least one id.  With the parameter present the answer is
    200, its [deletedCount] is the number of schedules whose id is among the
    ids, the message carries that number, and the store holds that many
    schedules fewer. *)
Theorem schedule_DELETE_counts
    (env : Env) (req : Request) (db : Db) (uid : string) :
  ScheduleRoute.admitted env req uid →
  (req_ids req = None →
     ScheduleRoute.DELETE env req db
     = (Ok (json 400 (BError "No schedule IDs provided")), db))
  ∧ (∀ s, req_ids req = Some s →
       ∃ n,
         (ScheduleRoute.DELETE env req db).1
         = Ok (json 200 (BDeleted n (pretty n +:+ " schedule(s) deleted")))
         ∧ n = length (filter (λ r, es_id r ∈ js_split comma s)
                         (exportSchedules db))
         ∧ (n + length (exportSchedules (ScheduleRoute.DELETE env req db).2))%nat
           = length (exportSchedules db)).
Proof.
  intros Hadm. rewrite (schedule_DELETE_admitted _ _ _ _ Hadm). split.
  - intros Hnone. unfold ScheduleRoute.bulkDelete, ScheduleRoute.ids_of.
    rewrite Hnone. reflexivity.
  - intros s Hs.
    pose proof (ids_of_present req s Hs) as Hids.
    unfold ScheduleRoute.bulkDelete. cbv zeta.
    assert (Hsplit : ScheduleRoute.ids_of req = js_split comma s).
    { unfold ScheduleRoute.ids_of. by rewrite Hs. }
    destruct (ScheduleRoute.ids_of req) as [|id ids] eqn:Hof; [done|].
    cbn [length Nat.eqb]. run_monad.
    cbn [fst snd set_exportSchedules exportSchedules
         set_exportScheduleExecutions].
    eexists. split; [reflexivity|]. rewrite <- Hsplit.
    unfold prisma.countWhere, prisma.deleteMany. split.
    + f_equal. apply list_filter_iff. intros r.
      by rewrite bool_decide_eq_true.
    + apply filter_split_length.
Qed.

Lemma schedule_DELETE_counts_witness :
  (ScheduleRoute.DELETE sampleEnv deleteOther sampleDb).1
  = Ok (json 200 (BDeleted 1 "1 schedule(s) deleted"))
  ∧ length (exportSchedules
              (ScheduleRoute.DELETE sampleEnv deleteOther sampleDb).2)
    = 20%nat.
Proof.
  destruct (schedule_DELETE_counts sampleEnv deleteOther sampleDb "u1")
    as [_ Hcount]; [repeat split|].
  destruct (Hcount "other" eq_refl) as (n & Hanswer & Hn & Hsum).
  assert (n = 1%nat) as -> by (rewrite Hn; vm_compute; reflexivity).
  split; [exact Hanswer|].
  change (length (exportSchedules sampleDb)) with 21%nat in Hsum. lia.
Defined.

(** *** Reading the ids parameter *)

Lemma js_split_plain (c : ascii) (s : string) :
  occurs c s = false → js_split c s = [s].
Proof.
  induction s as [|a s IH]; simpl; [done|].
  destruct (Ascii.eqb a c) eqn:Hac; simpl; [done|].
  intros H. by rewrite (IH H).
Qed.

Lemma js_split_app (c : ascii) (x rest : string) :
  occurs c x = false →
  js_split c (x +:+ String c rest) = x :: js_split c rest.
Proof.
  induction x as [|a x IH]; simpl.
  - by rewrite Ascii.eqb_refl.
  - destruct (Ascii.eqb a c) eqn:Hac; simpl; [done|].
    intros H. by rewrite (IH H).
Qed.

Lemma js_split_join (c : ascii) (l : list string) :
  l ≠ [] → Forall (λ x, occurs c x = false) l →
  js_split c (join (str1 c) l) = l.
Proof.
  induction l as [|x l IH]; [done|]. intros _ Hl.
  apply Forall_cons in Hl as [Hx Hl].
  destruct l as [|y l].
  - simpl. by apply js_split_plain.
  - change (join (str1 c) (x :: y :: l))
      with (x +:+ String c (join (str1 c) (y :: l))).
    rewrite js_split_app by done. f_equal. by apply IH.
Qed.

(** X10.  The [ids] parameter reads back: when there is at least one id and
    no id holds a comma, the handler reads from [id1,id2,...] the ids that
    were joined, in their order. *)
Theorem ids_parameter_round_trip (req : Request) (ids : list string) :
  ids ≠ [] →
  Forall (λ id, occurs comma id = false) ids →
  req_ids req = Some (join (str1 comma) ids) →
  ScheduleRoute.ids_of req = ids.
Proof.
  intros Hne Hplain Hreq. unfold ScheduleRoute.ids_of. rewrite Hreq.
  by apply js_split_join.
Qed.

Lemma ids_parameter_round_trip_witness :
  ScheduleRoute.ids_of
    {| req_forwarded_for := None; req_json := Throw (ErrorObj "no body");
       req_ids := Some "A,B,other"; req_param_id := "" |}
  = ["A"; "B"; "other"].
Proof.
  apply ids_parameter_round_trip.
  - discriminate.
  - repeat constructor.
  - reflexivity.
Defined.

(** *** Repeating a bulk operation *)

Lemma updateMany_twice {A} (where_ : A → bool) (data : A → A)
    (rows : list A) :
  (∀ r, where_ (data r) = where_ r) → (∀ r, data (data r) = data r) →
  prisma.updateMany where_ data (prisma.updateMany where_ data rows)
  = prisma.updateMany where_ data rows.
Proof.
  intros Hwhere Hdata. unfold prisma.updateMany.
  rewrite <- list_fmap_compose. apply list_fmap_ext. intros _ r _. simpl.
  destruct (where_ r) eqn:Hr.
  - by rewrite Hwhere, Hr, Hdata.
  - by rewrite Hr.
Qed.

Lemma deleteMany_twice {A} (where_ : A → bool) (rows : list A) :
  prisma.deleteMany where_ (prisma.deleteMany where_ rows)
  = prisma.deleteMany where_ rows.
Proof.
  unfold prisma.deleteMany. induction rows as [|r rows IH]; [done|].
  rewrite (filter_cons _ r rows). destruct (decide (where_ r = false)) as [Hr|Hr].
  - rewrite filter_cons, decide_True by done. by rewrite IH.
  - exact IH.
Qed.

(** A bulk PATCH answers and writes the same whatever the store holds, and
    what it writes it writes once. *)
Lemma schedule_PATCH_shape env req :
  ∃ (resp : Response) (f : Db → Db),
    (∀ db, ScheduleRoute.PATCH env req db = (Ok resp, f db))
    ∧ (∀ db, f (f db) = f db).
Proof.
  unfold ScheduleRoute.PATCH, try_catch.
  destruct (rateLimit env (identifier_of req)); cbn [negb];
    [|by eexists _, (λ db, db)].
  destruct (session_id env) as [uid|]; [|by eexists _, (λ db, db)].
  destruct (hasPermission env uid "admin:users:export"); cbn [negb];
    [|by eexists _, (λ db, db)].
  unfold ScheduleRoute.bulkUpdate.
  destruct (req_json req) as [body|e]; run_monad;
    [|by eexists _, (λ db, db)].
  destruct (prop_cases body) as [Hok | Hthrow].
  2: { destruct (Hthrow "action") as [e ->]. by eexists _, (λ db, db). }
  rewrite !Hok. cbn beta iota.
  destruct (str_eq (field "action" body) "toggleActive");
    [|by eexists _, (λ db, db)].
  destruct (field "scheduleIds" body) as [| | | | | |ids| |];
    try by eexists _, (λ db, db).
  eexists _, _. split; [reflexivity|].
  intros db. unfold set_exportSchedules. cbn [exportSchedules users reports
    reportExecutions exportScheduleExecutions filter_presets].
  by rewrite updateMany_twice.
Qed.

Lemma countWhere_deleteMany {A} (where_ : A → bool) (rows : list A) :
  prisma.countWhere where_ (prisma.deleteMany where_ rows) = 0%nat.
Proof.
  unfold prisma.countWhere, prisma.deleteMany.
  induction rows as [|r rows IH]; [done|].
  rewrite (filter_cons (λ r, where_ r = false)).
  destruct (decide (where_ r = false)) as [Hr|Hr]; [|exact IH].
  rewrite filter_cons, decide_False by congruence. exact IH.
Qed.

(** X11.  Repeating a bulk operation changes nothing more.  A second PATCH
    of the same request gives the answer and the store of the first: the
    operation called toggle does not toggle back.  A second DELETE leaves
    the store of the first, and when it reports a count the count is 0. *)
Theorem bulk_operations_idempotent (env : Env) (req : Request) (db : Db) :
  ScheduleRoute.PATCH env req (ScheduleRoute.PATCH env req db).2
  = ScheduleRoute.PATCH env req db
  ∧ (ScheduleRoute.DELETE env req (ScheduleRoute.DELETE env req db).2).2
    = (ScheduleRoute.DELETE env req db).2
  ∧ (∀ n message,
       (ScheduleRoute.DELETE env req (ScheduleRoute.DELETE env req db).2).1
       = Ok (json 200 (BDeleted n message)) →
       n = 0%nat).
Proof.
  split.
  { destruct (schedule_PATCH_shape env req) as (resp & f & Hrun & Hf).
    rewrite !Hrun. cbn [snd]. by rewrite Hf. }
  unfold ScheduleRoute.DELETE, try_catch.
  destruct (rateLimit env (identifier_of req)); cbn [negb];
    [|split; [done | intros ? ? [=]]].
  destruct (session_id env) as [uid|]; [|split; [done | intros ? ? [=]]].
  destruct (hasPermission env uid "admin:users:export"); cbn [negb];
    [|split; [done | intros ? ? [=]]].
  unfold ScheduleRoute.bulkDelete. cbv zeta.
  destruct (ScheduleRoute.ids_of req) as [|id ids];
    cbn [length Nat.eqb]; run_monad; [split; [done | intros ? ? [=]]|].
  cbn [fst snd set_exportSchedules exportSchedules
       set_exportScheduleExecutions exportScheduleExecutions
       users reports reportExecutions filter_presets].
  split.
  - unfold set_exportSchedules, set_exportScheduleExecutions.
    cbn [exportSchedules exportScheduleExecutions users reports
         reportExecutions filter_presets].
    by rewrite !deleteMany_twice.
  - intros n message [= <- _]. apply countWhere_deleteMany.
Qed.

(** *** Other bodies of a bulk PATCH *)

(** X12.  For a caller the gates admit, a PATCH whose [action] is not
    [toggleActive], or whose [scheduleIds] is not an array, is answered 400
    with [Invalid action]; a body that does not parse, or that is [null], is
    answered with the generic 500.  In both cases the store is unchanged. *)
Theorem schedule_PATCH_other_actions
    (env : Env) (req : Request) (db : Db) (uid : string) :
  ScheduleRoute.admitted env req uid →
  (∀ body,
     req_json req = Ok body → body ≠ JNull → body ≠ JUndefined →
     field "action" body ≠ JStr "toggleActive"
     ∨ (∀ ids, field "scheduleIds" body ≠ JArr ids) →
     ScheduleRoute.PATCH env req db
     = (Ok (json 400 (BError "Invalid action")), db))
  ∧ ((∃ e, req_json req = Throw e) ∨ req_json req = Ok JNull →
     ScheduleRoute.PATCH env req db
     = (Ok (json 500 (BError "Failed to update export schedules")), db)).
Proof.
  intros Hadm. rewrite (schedule_PATCH_admitted _ _ _ _ Hadm).
  unfold ScheduleRoute.bulkUpdate. split.
  - intros body Hjson Hnull Hundef Hother. rewrite Hjson. run_monad.
    rewrite !prop_field by done. cbn beta iota.
    destruct (str_eq (field "action" body) "toggleActive") eqn:Haction;
      [|done].
    apply str_eq_true in Haction.
    destruct Hother as [Hne | Hnot]; [done|].
    destruct (field "scheduleIds" body) as [| | | | | |ids| |] eqn:Hids;
      try done.
    by destruct (Hnot ids).
  - intros [[e ->] | ->]; reflexivity.
Qed.

Lemma schedule_PATCH_other_actions_witness :
  ScheduleRoute.PATCH sampleEnv
    (requestWith (JObj {[ "action" := JStr "activate" ]})) sampleDb
  = (Ok (json 400 (BError "Invalid action")), sampleDb)
  ∧ ScheduleRoute.PATCH sampleEnv deleteOther sampleDb
    = (Ok (json 500 (BError "Failed to update export schedules")), sampleDb).
Proof.
  split.
  - destruct (schedule_PATCH_other_actions sampleEnv
      (requestWith (JObj {[ "action" := JStr "activate" ]})) sampleDb "u1")
      as [Hother _]; [repeat split|].
    apply (Hother (JObj {[ "action" := JStr "activate" ]}));
      [reflexivity | discriminate | discriminate |].
    left. discriminate.
  - destruct (schedule_PATCH_other_actions sampleEnv deleteOther sampleDb "u1")
      as [_ Hthrown]; [repeat split|].
    apply Hthrown. left. eexists. reflexivity.
Defined.

(** *** The order of the checks on a creation *)



(** *** Answers and writes *)

Ltac clean :=
  eexists; split; [reflexivity | first [done | by intros []]].

Lemma createSchedule_clean env req uid tenantId db :
  (∃ resp, ScheduleRoute.createSchedule env req uid tenantId db
           = (Ok resp, db) ∧ status resp = 400)
  ∨ (∃ e, ScheduleRoute.createSchedule env req uid tenantId db = (Throw e, db))
  ∨ (∃ schedule db',
       ScheduleRoute.createSchedule env req uid tenantId db
       = (Ok (json 200
            (BSchedule schedule "Export schedule created successfully")),
          db')).
Proof.
  unfold ScheduleRoute.createSchedule.
  destruct (req_json req) as [body|e]; run_monad; [|right; left; eauto].
  destruct (prop_cases body) as [Hok | Hthrow].
  2: { destruct (Hthrow "name") as [e ->]. right; left; eauto. }
  rewrite !Hok. cbn beta iota zeta.
  destruct (_ || is_zero _); [left; eauto|].
  destruct (negb (existsb _ _)); [left; eauto|].
  destruct (ScheduleRoute.some_invalid _) as [[|]|e];
    [left; eauto | | right; left; eauto].
  destruct (20 <=? ScheduleRoute.countSchedules tenantId db)%nat;
    [left; eauto|].
  destruct (getRandomUUID env) as [id|e]; [|right; left; eauto].
  unfold prisma.create.
  match goal with |- context [prisma.findUnique es_id ?i ?rows] =>
    destruct (prisma.findUnique es_id i rows) end; [right; left; eauto|].
  right. right. eauto.
Qed.

(** X14.  The four schedule handlers and the GET and DELETE of the presets
    always answer, whatever their collaborators throw, and an answer other
    than 200 means that nothing was written. *)
Theorem handlers_fail_cleanly (env : Env) (req : Request) (db : Db) :
  fails_cleanly (ScheduleRoute.GET env req) db
  ∧ fails_cleanly (ScheduleRoute.POST env req) db
  ∧ fails_cleanly (ScheduleRoute.PATCH env req) db
  ∧ fails_cleanly (ScheduleRoute.DELETE env req) db
  ∧ fails_cleanly (FilterPresetRoute.GET env req) db
  ∧ fails_cleanly (FilterPresetRoute.DELETE env req) db.
Proof.
  unfold fails_cleanly.
  repeat split.
  - unfold ScheduleRoute.GET, try_catch.
    destruct (rateLimit env (identifier_of req)); cbn [negb]; [|clean].
    destruct (session_id env) as [uid|]; [|clean].
    destruct (hasPermission env uid "admin:users:export"); cbn [negb];
      [|clean].
    run_monad. destruct (tenant_of _); clean.
  - unfold ScheduleRoute.POST, try_catch.
    destruct (rateLimit env (identifier_of req)); cbn [negb]; [|clean].
    destruct (session_id env) as [uid|]; [|clean].
    destruct (hasPermission env uid "admin:users:export"); cbn [negb];
      [|clean].
    run_monad. destruct (tenant_of _) as [tenantId|]; [|clean].
    destruct (createSchedule_clean env req uid tenantId db)
      as [(resp & -> & Hst) | [[e ->] | (schedule & db' & ->)]]; clean.
  - unfold ScheduleRoute.PATCH, try_catch.
    destruct (rateLimit env (identifier_of req)); cbn [negb]; [|clean].
    destruct (session_id env) as [uid|]; [|clean].
    destruct (hasPermission env uid "admin:users:export"); cbn [negb];
      [|clean].
    unfold ScheduleRoute.bulkUpdate.
    destruct (req_json req) as [body|e]; run_monad; [|clean].
    destruct (prop_cases body) as [Hok | Hthrow].
    2: { destruct (Hthrow "action") as [e ->]. clean. }
    rewrite !Hok. cbn beta iota.
    destruct (str_eq (field "action" body) "toggleActive"); [|clean].
    destruct (field "scheduleIds" body); clean.
  - unfold ScheduleRoute.DELETE, try_catch.
    destruct (rateLimit env (identifier_of req)); cbn [negb]; [|clean].
    destruct (session_id env) as [uid|]; [|clean].
    destruct (hasPermission env uid "admin:users:export"); cbn [negb];
      [|clean].
    unfold ScheduleRoute.bulkDelete. cbv zeta.
    destruct (ScheduleRoute.ids_of req); cbn [length Nat.eqb]; run_monad;
      clean.
  - unfold FilterPresetRoute.GET, try_catch.
    destruct (FilterPresetRoute.ctx_userId env) as [userId|]; [|clean].
    run_monad. destruct (prisma.findUnique _ _ _) as [preset|]; [|clean].
    destruct (_ && _); [clean|].
    destruct (JSON_parse env (fp_filterConfig preset)); clean.
  - unfold FilterPresetRoute.DELETE, try_catch.
    destruct (FilterPresetRoute.ctx_userId env) as [userId|]; [|clean].
    run_monad. destruct (prisma.findUnique _ _ _) as [preset|] eqn:Hfound;
      [|clean].
    destruct (negb _); [clean|].
    unfold prisma.delete. rewrite Hfound. clean.
Qed.

(** *** Tables a handler leaves alone *)

#[export] Instance same_on_refl {T} (f : Db → T) : Reflexive (same_on f).
Proof. intros db. reflexivity. Qed.

#[export] Instance same_on_trans {T} (f : Db → T) : Transitive (same_on f).
Proof. intros a b c Hab Hbc. unfold same_on in *. congruence. Qed.

(** Follow the structure of a computation under [keeps R]. *)
Ltac keeps_step :=
  lazymatch goal with
  | |- keeps ?R (try_catch _ _) => apply (keeps_try R); [ | intros ? ]
  | |- keeps ?R (mbind _ _) => apply (keeps_bind R); [ | intros ? ]
  | |- keeps ?R (mret _) => apply (keeps_ret R)
  | |- keeps ?R (lift _) => apply (keeps_lift R)
  | |- keeps ?R (gets _) => apply (keeps_gets R)
  | |- keeps ?R (throw _) => apply (keeps_throw R)
  | |- keeps ?R (write _ _ _) => apply (keeps_write R); intros ? ? ?
  | |- keeps ?R (modify _) => apply (keeps_modify R); intros ?
  | |- keeps _ (if ?b then _ else _) => destruct b
  | |- keeps _ (match ?x with _ => _ end) => destruct x
  | |- keeps _ (let _ := _ in _) => cbv zeta
  end.

Ltac frame :=
  unfold GenerateRoute.POST, GenerateRoute.attempt, GenerateRoute.generate,
    ScheduleRoute.GET, ScheduleRoute.POST, ScheduleRoute.createSchedule,
    ScheduleRoute.PATCH, ScheduleRoute.bulkUpdate,
    ScheduleRoute.DELETE, ScheduleRoute.bulkDelete,
    FilterPresetRoute.GET, FilterPresetRoute.PATCH, FilterPresetRoute.DELETE;
  repeat first [ keeps_step | reflexivity ].

Lemma handle_keeps_users op env req :
  keeps (same_on users) (handle op env req).
Proof. destruct op; simpl; frame. Qed.

Lemma handle_keeps_reports op env req :
  op ≠ GenerateReport → keeps (same_on reports) (handle op env req).
Proof. destruct op; try done; intros _; simpl; frame. Qed.

Lemma handle_keeps_reportExecutions op env req :
  op ≠ GenerateReport → keeps (same_on reportExecutions) (handle op env req).
Proof. destruct op; try done; intros _; simpl; frame. Qed.

Lemma handle_keeps_exportSchedules op env req :
  op ≠ CreateSchedule → op ≠ ToggleSchedules → op ≠ DeleteSchedules →
  keeps (same_on exportSchedules) (handle op env req).
Proof. destruct op; try done; intros _ _ _; simpl; frame. Qed.

Lemma handle_keeps_executions op env req :
  op ≠ DeleteSchedules →
  keeps (same_on exportScheduleExecutions) (handle op env req).
Proof. destruct op; try done; intros _; simpl; frame. Qed.

Lemma handle_keeps_filter_presets op env req :
  op ≠ UpdatePreset → op ≠ DeletePreset →
  keeps (same_on filter_presets) (handle op env req).
Proof. destruct op; try done; intros _ _; simpl; frame. Qed.

Lemma Db_ext (db db' : Db) :
  users db' = users db → reports db' = reports db →
  reportExecutions db' = reportExecutions db →
  exportSchedules db' = exportSchedules db →
  exportScheduleExecutions db' = exportScheduleExecutions db →
  filter_presets db' = filter_presets db →
  db' = db.
Proof. destruct db, db'; simpl; intros; by subst. Qed.

(** X15.  Each handler writes its own tables only.  No handler writes the
    users; only the generation writes reports and report executions; only
    the creation and the two bulk operations write schedules, and only the
    bulk delete writes their executions; only the PATCH and the DELETE of
    presets write presets; the list of schedules and the GET of a preset
    write nothing at all. *)
Theorem handlers_write_only_their_tables
    (op : Operation) (env : Env) (req : Request) (db : Db) :
  users (handle op env req db).2 = users db
  ∧ (op ≠ GenerateReport →
     reports (handle op env req db).2 = reports db
     ∧ reportExecutions (handle op env req db).2 = reportExecutions db)
  ∧ (op ≠ CreateSchedule → op ≠ ToggleSchedules → op ≠ DeleteSchedules →
     exportSchedules (handle op env req db).2 = exportSchedules db)
  ∧ (op ≠ DeleteSchedules →
     exportScheduleExecutions (handle op env req db).2
     = exportScheduleExecutions db)
  ∧ (op ≠ UpdatePreset → op ≠ DeletePreset →
     filter_presets (handle op env req db).2 = filter_presets db)
  ∧ (op = ListSchedules ∨ op = GetPreset → (handle op env req db).2 = db).
Proof.
  split; [apply (handle_keeps_users op env req db)|].
  split.
  { intros Hop. split.
    - by apply (handle_keeps_reports op env req).
    - by apply (handle_keeps_reportExecutions op env req). }
  split; [intros; by apply (handle_keeps_exportSchedules op env req)|].
  split; [intros; by apply (handle_keeps_executions op env req)|].
  split; [intros; by apply (handle_keeps_filter_presets op env req)|].
  intros Hop. apply Db_ext.
  - apply (handle_keeps_users op env req db).
  - apply (handle_keeps_reports op env req); by destruct Hop as [-> | ->].
  - apply (handle_keeps_reportExecutions op env req);
      by destruct Hop as [-> | ->].
  - apply (handle_keeps_exportSchedules op env req);
      by destruct Hop as [-> | ->].
  - apply (handle_keeps_executions op env req); by destruct Hop as [-> | ->].
  - apply (handle_keeps_filter_presets op env req);
      by destruct Hop as [-> | ->].
Qed.

(** *** Executions and their schedules *)

#[export] Instance owned_kept_refl : Reflexive owned_kept.
Proof. intros db H. exact H. Qed.

#[export] Instance owned_kept_trans : Transitive owned_kept.
Proof. intros a b c Hab Hbc H. apply Hbc, Hab, H. Qed.

Lemma owned_kept_same (db db' : Db) :
  exportSchedules db' = exportSchedules db →
  exportScheduleExecutions db' = exportScheduleExecutions db →
  owned_kept db db'.
Proof.
  intros Hs He Howned e. unfold executions_owned in Howned.
  rewrite He, Hs. apply Howned.
Qed.

Lemma schedule_POST_owned env req :
  keeps owned_kept (ScheduleRoute.POST env req).
Proof.
  intros db Howned e.
  pose proof (handle_keeps_executions CreateSchedule env req
                ltac:(done) db) as Hexecs.
  unfold same_on in Hexecs. cbn [handle] in Hexecs. rewrite Hexecs.
  intros (s & Hs & Hid)%Howned. exists s. split; [|done].
  destruct (schedule_POST_stopped env req db)
    as [(uid & tenantId & Hadm & Htenant) | (st & b & -> & _)]; [|done].
  rewrite (schedule_POST_admitted _ _ _ _ _ Hadm Htenant).
  unfold try_catch.
  destruct (createSchedule_effect env req uid tenantId db)
    as [Hsame | (schedule & _ & _ & Hrun)].
  - destruct (ScheduleRoute.createSchedule env req uid tenantId db)
      as [[r|x] db']; simpl in *; by subst.
  - destruct (ScheduleRoute.createSchedule env req uid tenantId db)
      as [[r|x] db']; simpl in *; subst; simpl;
      apply elem_of_app; by left.
Qed.

Lemma schedule_PATCH_owned env req :
  keeps owned_kept (ScheduleRoute.PATCH env req).
Proof.
  intros db Howned e.
  pose proof (handle_keeps_executions ToggleSchedules env req
                ltac:(done) db) as Hexecs.
  unfold same_on in Hexecs. cbn [handle] in Hexecs. rewrite Hexecs.
  intros (s & Hs & Hid)%Howned.
  destruct (schedule_PATCH_cases env req db)
    as [-> | (body & ids & _ & _ & _ & ->)]; [eauto|].
  cbn [set_exportSchedules exportSchedules].
  exists (if ScheduleRoute.id_in ids (es_id s)
          then ScheduleRoute.set_isActive ScheduleRoute.not_true s else s).
  split; [apply updateMany_elem; eauto|].
  by destruct (ScheduleRoute.id_in ids (es_id s)).
Qed.

Lemma schedule_DELETE_owned env req :
  keeps owned_kept (ScheduleRoute.DELETE env req).
Proof.
  intros db Howned e.
  destruct (schedule_DELETE_cases env req db) as [-> | [_ ->]];
    [apply Howned|].
  cbn [set_exportSchedules exportSchedules set_exportScheduleExecutions
       exportScheduleExecutions].
  rewrite deleteMany_elem, bool_decide_eq_false.
  intros [(s & Hs & Hid)%Howned Hout]. exists s. split; [|done].
  apply deleteMany_elem. rewrite bool_decide_eq_false. by rewrite Hid.
Qed.

Lemma handle_keeps_owned op env req : keeps owned_kept (handle op env req).
Proof.
  destruct op;
    first [ apply schedule_POST_owned
          | apply schedule_PATCH_owned
          | apply schedule_DELETE_owned
          | intros db; apply owned_kept_same;
            [ by apply (handle_keeps_exportSchedules _ env req)
            | by apply (handle_keeps_executions _ env req) ] ].
Qed.

(** X16.  No operation leaves an execution behind without its schedule: if
    every execution belongs to a stored schedule, the same holds after any
    handler and after any sequence of requests.  The bulk delete removes the
    executions of the schedules it removes. *)
Theorem executions_stay_owned
    (requests : list (Operation * Env * Request))
    (op : Operation) (env : Env) (req : Request) (db : Db) :
  executions_owned db →
  executions_owned (handle op env req db).2
  ∧ executions_owned (run requests db).
Proof.
  intros Howned. split; [by apply (handle_keeps_owned op env req db)|].
  revert db Howned.
  induction requests as [|[[op' env'] req'] rest IH]; intros db Howned;
    [done|].
  simpl. apply IH. by apply (handle_keeps_owned op' env' req' db).
Qed.

Lemma executions_stay_owned_witness :
  executions_owned sampleDb
  ∧ exportScheduleExecutions
      (ScheduleRoute.DELETE sampleEnv deleteOther sampleDb).2 = []
  ∧ executions_owned (ScheduleRoute.DELETE sampleEnv deleteOther sampleDb).2.
Proof.
  assert (Howned : executions_owned sampleDb).
  { intros e ->%list_elem_of_singleton.
    exists (sampleSchedule "other" "t2" (JBool true)). split; [|reflexivity].
    apply elem_of_app. right. by apply list_elem_of_singleton. }
  split; [exact Howned|]. split; [reflexivity|].
  apply (executions_stay_owned [] DeleteSchedules sampleEnv deleteOther
           sampleDb Howned).
Defined.

(** ** The filter-preset handlers, further *)

Lemma preset_unknown env req db :
  FilterPresetRoute.ctx_userId env ≠ None →
  prisma.findUnique fp_id (req_param_id req) (filter_presets db) = None →
  FilterPresetRoute.GET env req db = (Ok FilterPresetRoute.respond.notFound, db)
  ∧ FilterPresetRoute.PATCH env req db
    = (Ok FilterPresetRoute.respond.notFound, db)
  ∧ FilterPresetRoute.DELETE env req db
    = (Ok FilterPresetRoute.respond.notFound, db).
Proof.
  intros Hctx Hnone.
  unfold FilterPresetRoute.GET, FilterPresetRoute.PATCH,
    FilterPresetRoute.DELETE, try_catch.
  destruct (FilterPresetRoute.ctx_userId env) as [userId|]; [|done].
  run_monad. by rewrite Hnone.
Qed.

(** X17.  The preset handlers look at the caller before the preset: without
    a user in the tenant context all three answer 401, whether the preset
    exists or not; with one, an id that no preset has is answered 404.  The
    store is unchanged. *)
Theorem preset_anonymous_or_unknown (env : Env) (req : Request) (db : Db) :
  (FilterPresetRoute.ctx_userId env = None →
     FilterPresetRoute.GET env req db
     = (Ok FilterPresetRoute.respond.unauthorized, db)
     ∧ FilterPresetRoute.PATCH env req db
       = (Ok FilterPresetRoute.respond.unauthorized, db)
     ∧ FilterPresetRoute.DELETE env req db
       = (Ok FilterPresetRoute.respond.unauthorized, db))
  ∧ (FilterPresetRoute.ctx_userId env ≠ None →
     prisma.findUnique fp_id (req_param_id req) (filter_presets db) = None →
     FilterPresetRoute.GET env req db
     = (Ok FilterPresetRoute.respond.notFound, db)
     ∧ FilterPresetRoute.PATCH env req db
       = (Ok FilterPresetRoute.respond.notFound, db)
     ∧ FilterPresetRoute.DELETE env req db
       = (Ok FilterPresetRoute.respond.notFound, db)).
Proof.
  split; [|apply preset_unknown].
  intros Hnone.
  unfold FilterPresetRoute.GET, FilterPresetRoute.PATCH,
    FilterPresetRoute.DELETE, try_catch.
  by rewrite Hnone.
Qed.

(** *** Deleting a preset *)

Lemma findUnique_deleteMany {A} (key : A → string) (id : string)
    (rows : list A) :
  prisma.findUnique key id
    (prisma.deleteMany (λ r, String.eqb (key r) id) rows) = None.
Proof.
  unfold prisma.findUnique, prisma.deleteMany.
  induction rows as [|r rows IH]; [done|].
  rewrite filter_cons. destruct (decide (String.eqb (key r) id = false)) as [Hr|Hr];
    [|exact IH].
  simpl. by rewrite Hr.
Qed.

(** X18.  The DELETE of its owner answers 200 with [Preset deleted
    successfully] and removes the presets of that id and no others;
    afterwards GET, PATCH and DELETE of the same id answer 404 to every
    caller with a tenant context. *)
Theorem preset_deleted_is_gone
    (env : Env) (req : Request) (db : Db) (userId : string)
    (preset : FilterPreset) :
  FilterPresetRoute.ctx_userId env = Some userId →
  prisma.findUnique fp_id (req_param_id req) (filter_presets db)
    = Some preset →
  fp_createdBy preset = userId →
  (FilterPresetRoute.DELETE env req db).1
  = Ok (FilterPresetRoute.respond.ok (BMessage "Preset deleted successfully"))
  ∧ (∀ q, q ∈ filter_presets (FilterPresetRoute.DELETE env req db).2
          ↔ q ∈ filter_presets db ∧ fp_id q ≠ req_param_id req)
  ∧ (∀ env',
       FilterPresetRoute.ctx_userId env' ≠ None →
       (FilterPresetRoute.GET env' req
          (FilterPresetRoute.DELETE env req db).2).1
       = Ok FilterPresetRoute.respond.notFound
       ∧ (FilterPresetRoute.PATCH env' req
            (FilterPresetRoute.DELETE env req db).2).1
         = Ok FilterPresetRoute.respond.notFound
       ∧ (FilterPresetRoute.DELETE env' req
            (FilterPresetRoute.DELETE env req db).2).1
         = Ok FilterPresetRoute.respond.notFound).
Proof.
  intros Hctx Hfound Howner.
  assert (Hrun : FilterPresetRoute.DELETE env req db
    = (Ok (FilterPresetRoute.respond.ok
             (BMessage "Preset deleted successfully")),
       set_filter_presets
         (λ _, prisma.deleteMany
                 (λ r, String.eqb (fp_id r) (req_param_id req))
                 (filter_presets db)) db)).
  { unfold FilterPresetRoute.DELETE, try_catch. rewrite Hctx. run_monad.
    rewrite Hfound, Howner, String.eqb_refl. cbn [negb].
    unfold prisma.delete. by rewrite Hfound. }
  rewrite Hrun. cbn [fst snd set_filter_presets filter_presets].
  split; [done|]. split.
  - intros q. rewrite deleteMany_elem, String.eqb_neq. tauto.
  - intros env' Hctx'.
    destruct (preset_unknown env' req
      (set_filter_presets
         (λ _, prisma.deleteMany
                 (λ r, String.eqb (fp_id r) (req_param_id req))
                 (filter_presets db)) db) Hctx') as (-> & -> & ->);
      [apply findUnique_deleteMany | done].
Qed.

Lemma preset_deleted_is_gone_witness :
  (FilterPresetRoute.DELETE ownerEnv presetRequest presetDb).1
  = Ok (FilterPresetRoute.respond.ok (BMessage "Preset deleted successfully"))
  ∧ (FilterPresetRoute.GET sampleEnv presetRequest
       (FilterPresetRoute.DELETE ownerEnv presetRequest presetDb).2).1
    = Ok FilterPresetRoute.respond.notFound.
Proof.
  destruct (preset_deleted_is_gone ownerEnv presetRequest presetDb "u2"
              privatePreset eq_refl eq_refl eq_refl) as (Hanswer & _ & Hgone).
  split; [exact Hanswer|].
  destruct (Hgone sampleEnv) as (Hget & _); [discriminate | exact Hget].
Defined.

(** *** Updating a preset *)

Lemma assigned_js_or (x d old : JsVal) :
  d ≠ JUndefined →
  FilterPresetRoute.assigned (js_or x d) old = js_or x d.
Proof.
  intros Hd. unfold js_or. destruct (truthy x) eqn:Hx.
  - by destruct x.
  - by destruct d.
Qed.

Lemma updateMany_ext {A} (where_ : A → bool) (f g : A → A) (rows : list A) :
  (∀ r, f r = g r) →
  prisma.updateMany where_ f rows = prisma.updateMany where_ g rows.
Proof.
  intros Hfg. unfold prisma.updateMany. apply list_fmap_ext.
  intros _ r _. by rewrite Hfg.
Qed.

Lemma preset_PATCH_run env req db userId preset body :
  FilterPresetRoute.ctx_userId env = Some userId →
  prisma.findUnique fp_id (req_param_id req) (filter_presets db)
    = Some preset →
  fp_createdBy preset = userId →
  req_json req = Ok body →
  body ≠ JNull → body ≠ JUndefined →
  field "filterConfig" body ≠ JNull →
  FilterPresetRoute.PATCH env req db
  = match (if truthy (field "name" body)
              && negb (FilterPresetRoute.strict_eq (field "name" body)
                         (fp_name preset))
           then List.find
                  (nameTaken (field "name" body) userId (req_param_id req)
                     preset)
                  (filter_presets db)
           else None) with
    | Some _ =>
        (Ok (FilterPresetRoute.respond.conflict
               "Another preset with this name already exists"), db)
    | None =>
        (match JSON_parse env (fp_filterConfig (updateData env body preset))
         with
         | Ok parsed =>
             Ok (FilterPresetRoute.respond.ok
                   (BPreset (updateData env body preset)
                      (FilterPresetRoute.creator_of db preset) parsed))
         | Throw _ =>
             Ok (FilterPresetRoute.respond.serverError
                   "Failed to update preset")
         end,
         presetUpdated env (req_param_id req) body db)
    end.
Proof.
  intros Hctx Hfound <- Hjson Hnull Hundef Hconfig.
  assert (Heqb : String.eqb (fp_id preset) (req_param_id req) = true).
  { apply String.eqb_eq. by apply (findUnique_key _ _ _ _ Hfound). }
  unfold FilterPresetRoute.PATCH, try_catch. rewrite Hctx. run_monad.
  rewrite Hfound, String.eqb_refl. cbn [negb]. rewrite Hjson.
  rewrite !prop_field by done. cbn beta iota.
  unfold nameTaken, presetUpdated, FilterPresetRoute.creator_of.
  destruct (field "filterConfig" body) eqn:Hfc; try done.
  all: try rewrite (prop_field "logic") by done.
  all: run_monad.
  all: destruct (truthy (field "name" body)
                 && negb (FilterPresetRoute.strict_eq (field "name" body)
                            (fp_name preset)));
    [ destruct (find _ (filter_presets db)); [reflexivity|] | ].
  all: unfold prisma.update; rewrite Hfound;
    cbn [set_filter_presets filter_presets users];
    rewrite findUnique_updateMany by reflexivity;
    rewrite Hfound; cbn [fmap option_fmap option_map default from_option id];
    rewrite !Heqb;
    unfold updateData; rewrite Hfc;
    cbn [FilterPresetRoute.assigned fp_filterConfig fp_createdBy];
    rewrite ?assigned_js_or by discriminate.
  all: match goal with
       | |- context [JSON_parse ?e ?c] => destruct (JSON_parse e c)
       end.
  all: try reflexivity.
  all: f_equal; unfold set_filter_presets; f_equal; apply updateMany_ext;
    intros r; by rewrite assigned_js_or.
Qed.

(** X19.  The PATCH of its owner with a truthy name that differs from the
    stored one is answered 409 when another preset of the same tenant and
    creator holds that name; nothing is written. *)
Theorem preset_rename_conflict
    (env : Env) (req : Request) (db : Db) (userId : string)
    (preset other : FilterPreset) (body : JsVal) :
  FilterPresetRoute.ctx_userId env = Some userId →
  prisma.findUnique fp_id (req_param_id req) (filter_presets db)
    = Some preset →
  fp_createdBy preset = userId →
  req_json req = Ok body →
  body ≠ JNull → body ≠ JUndefined →
  field "filterConfig" body ≠ JNull →
  truthy (field "name" body) = true →
  FilterPresetRoute.strict_eq (field "name" body) (fp_name preset) = false →
  other ∈ filter_presets db →
  fp_id other ≠ req_param_id req →
  fp_tenantId other = fp_tenantId preset →
  fp_createdBy other = userId →
  FilterPresetRoute.strict_eq (fp_name other) (field "name" body) = true →
  FilterPresetRoute.PATCH env req db
  = (Ok (FilterPresetRoute.respond.conflict
           "Another preset with this name already exists"), db).
Proof.
  intros Hctx Hfound Howner Hjson Hnull Hundef Hconfig Hname Hnew
    Hother Hid Htenant Hcreator Hsame.
  rewrite (preset_PATCH_run env req db userId preset body) by done.
  rewrite Hname, Hnew. cbn [andb negb].
  destruct (find _ (filter_presets db)) eqn:Hfind; [done|].
  apply list_elem_of_In in Hother.
  pose proof (find_none _ _ Hfind other Hother) as Hfalse.
  unfold nameTaken in Hfalse.
  rewrite Htenant, Hcreator, Hsame, !String.eqb_refl in Hfalse.
  apply String.eqb_neq in Hid. by rewrite Hid in Hfalse.
Qed.

Lemma preset_rename_conflict_witness :
  FilterPresetRoute.PATCH ownerEnv clashRequest sharedDb
  = (Ok (FilterPresetRoute.respond.conflict
           "Another preset with this name already exists"), sharedDb).
Proof.
  apply (preset_rename_conflict ownerEnv clashRequest sharedDb "u2"
           privatePreset publicPreset (JObj {[ "name" := JStr "Shared" ]}));
    try reflexivity; try discriminate.
  apply list_elem_of_In. simpl. auto.
Defined.

Lemma nameFree_find name userId id preset db :
  nameFree name userId id preset db →
  (if truthy name && negb (FilterPresetRoute.strict_eq name (fp_name preset))
   then List.find (nameTaken name userId id preset) (filter_presets db)
   else None) = None.
Proof.
  intros [-> | [-> | Hfree]]; [done | by rewrite andb_false_r |].
  destruct (_ && _); [|done].
  destruct (find _ _) as [q|] eqn:Hfind; [|done].
  apply find_some in Hfind as [Hq%list_elem_of_In Htaken].
  by rewrite (Hfree q Hq) in Htaken.
Qed.

Lemma updateMany_other {A} (key : A → string) (id : string) (data : A → A)
    (rows : list A) (i : nat) (r : A) :
  rows !! i = Some r → key r ≠ id →
  prisma.updateMany (λ r, String.eqb (key r) id) data rows !! i = Some r.
Proof.
  intros Hr Hne. rewrite updateMany_lookup, Hr. simpl.
  apply String.eqb_neq in Hne. by rewrite Hne.
Qed.

(** X20.  The PATCH of its owner under a free name answers 200 with the
    updated preset, its creator and its parsed configuration.  The stored
    preset is [updateData] of the old one: the properties the body gives
    replace the stored ones, the others stay, [updatedAt] is the time of the
    request, and id, tenant and creator stay.  Presets of other ids are as
    they were, and none is added or removed. *)
Theorem preset_updated_by_owner
    (env : Env) (req : Request) (db : Db) (userId : string)
    (preset : FilterPreset) (body parsed : JsVal) :
  FilterPresetRoute.ctx_userId env = Some userId →
  prisma.findUnique fp_id (req_param_id req) (filter_presets db)
    = Some preset →
  fp_createdBy preset = userId →
  req_json req = Ok body →
  body ≠ JNull → body ≠ JUndefined →
  field "filterConfig" body ≠ JNull →
  nameFree (field "name" body) userId (req_param_id req) preset db →
  JSON_parse env (fp_filterConfig (updateData env body preset)) = Ok parsed →
  (FilterPresetRoute.PATCH env req db).1
  = Ok (FilterPresetRoute.respond.ok
          (BPreset (updateData env body preset)
             (FilterPresetRoute.creator_of db preset) parsed))
  ∧ prisma.findUnique fp_id (req_param_id req)
      (filter_presets (FilterPresetRoute.PATCH env req db).2)
    = Some (updateData env body preset)
  ∧ (∀ i q, filter_presets db !! i = Some q → fp_id q ≠ req_param_id req →
       filter_presets (FilterPresetRoute.PATCH env req db).2 !! i = Some q)
  ∧ length (filter_presets (FilterPresetRoute.PATCH env req db).2)
    = length (filter_presets db).
Proof.
  intros Hctx Hfound Howner Hjson Hnull Hundef Hconfig Hfree Hparse.
  rewrite (preset_PATCH_run env req db userId preset body) by done.
  rewrite (nameFree_find _ _ _ _ _ Hfree), Hparse.
  cbn [fst snd presetUpdated set_filter_presets filter_presets].
  split; [done|]. split; [|split].
  - rewrite findUnique_updateMany by reflexivity. rewrite Hfound. simpl.
    apply findUnique_key in Hfound. apply String.eqb_eq in Hfound.
    by rewrite Hfound.
  - intros i q Hq Hne. by apply updateMany_other.
  - unfold prisma.updateMany. by rewrite length_fmap.
Qed.

Lemma preset_updated_by_owner_witness :
  (FilterPresetRoute.PATCH ownerEnv presetRequest sharedDb).1
  = Ok (FilterPresetRoute.respond.ok
          (BPreset
             (updateData ownerEnv (JObj {[ "name" := JStr "Taken over" ]})
                privatePreset)
             (Some (sampleUser "u2" "t1")) (JObj ∅)))
  ∧ fp_name (updateData ownerEnv (JObj {[ "name" := JStr "Taken over" ]})
               privatePreset) = JStr "Taken over"
  ∧ filter_presets (FilterPresetRoute.PATCH ownerEnv presetRequest sharedDb).2
      !! 1%nat = Some publicPreset.
Proof.
  destruct (preset_updated_by_owner ownerEnv presetRequest sharedDb "u2"
    privatePreset (JObj {[ "name" := JStr "Taken over" ]}) (JObj ∅))
    as (Hanswer & _ & Hothers & _);
    try reflexivity; try discriminate.
  { right. right. intros q Hq%list_elem_of_In. simpl in Hq.
    destruct Hq as [<- | [<- | []]]; reflexivity. }
  split; [exact Hanswer|]. split; [reflexivity|].
  apply Hothers; [reflexivity | discriminate].
Defined.

(** X21.  The PATCH parses the stored configuration after the update is
    written: when that parse throws, the answer is the generic 500 although
    the store already holds the updated preset. *)
Theorem preset_update_failure_keeps_write
    (env : Env) (req : Request) (db : Db) (userId : string)
    (preset : FilterPreset) (body : JsVal) (e : Exn) :
  FilterPresetRoute.ctx_userId env = Some userId →
  prisma.findUnique fp_id (req_param_id req) (filter_presets db)
    = Some preset →
  fp_createdBy preset = userId →
  req_json req = Ok body →
  body ≠ JNull → body ≠ JUndefined →
  field "filterConfig" body ≠ JNull →
  nameFree (field "name" body) userId (req_param_id req) preset db →
  JSON_parse env (fp_filterConfig (updateData env body preset)) = Throw e →
  (FilterPresetRoute.PATCH env req db).1
  = Ok (FilterPresetRoute.respond.serverError "Failed to update preset")
  ∧ prisma.findUnique fp_id (req_param_id req)
      (filter_presets (FilterPresetRoute.PATCH env req db).2)
    = Some (updateData env body preset).
Proof.
  intros Hctx Hfound Howner Hjson Hnull Hundef Hconfig Hfree Hparse.
  rewrite (preset_PATCH_run env req db userId preset body) by done.
  rewrite (nameFree_find _ _ _ _ _ Hfree), Hparse.
  cbn [fst snd presetUpdated set_filter_presets filter_presets].
  split; [done|].
  rewrite findUnique_updateMany by reflexivity. rewrite Hfound. simpl.
  apply findUnique_key in Hfound. apply String.eqb_eq in Hfound.
  by rewrite Hfound.
Qed.

Lemma preset_update_failure_keeps_write_witness :
  (FilterPresetRoute.PATCH ownerEnv presetRequest corruptDb).1
  = Ok (FilterPresetRoute.respond.serverError "Failed to update preset")
  ∧ fp_name <$> prisma.findUnique fp_id "p1"
      (filter_presets (FilterPresetRoute.PATCH ownerEnv presetRequest
                         corruptDb).2)
    = Some (JStr "Taken over").
Proof.
  destruct (preset_update_failure_keeps_write ownerEnv presetRequest corruptDb
    "u2" corruptPreset (JObj {[ "name" := JStr "Taken over" ]})
    (ErrorObj "Unexpected token")) as (Hanswer & Hrow);
    try reflexivity; try discriminate.
  { right. right. intros q Hq%list_elem_of_In. simpl in Hq.
    destruct Hq as [<- | []]; reflexivity. }
  split; [exact Hanswer|].
  change "p1" with (req_param_id presetRequest). rewrite Hrow. reflexivity.
Defined.

(** *** Who owns a preset *)

#[export] Instance presets_from_refl : Reflexive presets_from.
Proof. intros db q Hq. by exists q. Qed.

#[export] Instance presets_from_trans : Transitive presets_from.
Proof.
  intros a b c Hab Hbc q'' (q' & Hq' & ? & ? & ?)%Hbc.
  apply Hab in Hq' as (q & Hq & ? & ? & ?).
  exists q. repeat split; congruence.
Qed.

Lemma update_from {A} (key : A → string) (id : string) (data : A → A)
    (rows rows' : list A) :
  prisma.update key id data rows = Ok rows' →
  ∀ r', r' ∈ rows' → ∃ r, r ∈ rows ∧ (r' = r ∨ r' = data r).
Proof.
  unfold prisma.update. destruct (prisma.findUnique key id rows); [|done].
  intros [= <-] r' (r & Hr & ->)%updateMany_elem.
  exists r. split; [done|]. destruct (String.eqb (key r) id); auto.
Qed.

Lemma delete_from {A} (key : A → string) (id : string)
    (rows rows' : list A) :
  prisma.delete key id rows = Ok rows' → ∀ r, r ∈ rows' → r ∈ rows.
Proof.
  unfold prisma.delete. destruct (prisma.findUnique key id rows); [|done].
  intros [= <-] r Hr. by apply deleteMany_elem in Hr as [Hr _].
Qed.

Ltac presets_closer :=
  lazymatch goal with
  | H : prisma.update fp_id _ _ _ = Ok _ |- presets_from _ _ =>
      intros q' Hq'; cbn [set_filter_presets filter_presets] in Hq';
      destruct (update_from _ _ _ _ _ H q' Hq') as (q & Hq & [-> | ->]);
      exists q; repeat split; exact Hq
  | H : prisma.delete fp_id _ _ = Ok _ |- presets_from _ _ =>
      intros q' Hq'; cbn [set_filter_presets filter_presets] in Hq';
      exists q'; repeat split; exact (delete_from _ _ _ _ H q' Hq')
  | |- presets_from _ _ => intros q' Hq'; exists q'; repeat split; exact Hq'
  end.

Lemma handle_presets_from op env req : keeps presets_from (handle op env req).
Proof.
  destruct op; simpl;
  unfold GenerateRoute.POST, GenerateRoute.attempt, GenerateRoute.generate,
    ScheduleRoute.GET, ScheduleRoute.POST, ScheduleRoute.createSchedule,
    ScheduleRoute.PATCH, ScheduleRoute.bulkUpdate,
    ScheduleRoute.DELETE, ScheduleRoute.bulkDelete,
    FilterPresetRoute.GET, FilterPresetRoute.PATCH, FilterPresetRoute.DELETE;
  repeat first [ keeps_step | presets_closer ].
Qed.

(** X22.  No request moves a preset: after any handler, and after any
    sequence of requests, every stored preset was stored before under the
    same id, tenant and creator.  None of these handlers creates one. *)
Theorem preset_ownership_never_changes
    (requests : list (Operation * Env * Request))
    (op : Operation) (env : Env) (req : Request) (db : Db) :
  presets_from db (handle op env req db).2
  ∧ presets_from db (run requests db).
Proof.
  split; [apply handle_presets_from|].
  revert db. induction requests as [|[[op' env'] req'] rest IH]; intros db.
  - reflexivity.
  - simpl. etrans; [apply (handle_presets_from op' env' req') | apply IH].
Qed.

(** *** Names of presets *)

#[export] Instance names_kept_refl : Reflexive names_kept.
Proof. intros db H. exact H. Qed.

#[export] Instance names_kept_trans : Transitive names_kept.
Proof. intros a b c Hab Hbc H. apply Hbc, Hab, H. Qed.

Lemma findUnique_the_row {A} (key : A → string) (id : string)
    (rows : list A) (r r' : A) :
  NoDup (key <$> rows) →
  prisma.findUnique key id rows = Some r →
  r' ∈ rows → key r' = id → r' = r.
Proof.
  unfold prisma.findUnique.
  induction rows as [|x rows IH]; [done|].
  rewrite fmap_cons, NoDup_cons. intros [Hx Hrows]. cbn [List.find].
  destruct (String.eqb (key x) id) eqn:Hkey.
  - apply String.eqb_eq in Hkey. intros [= <-] [-> | Hin]%elem_of_cons Hid;
      [done|].
    destruct Hx. rewrite Hkey, <- Hid. by apply list_elem_of_fmap_2.
  - apply String.eqb_neq in Hkey.
    intros Hfind [-> | Hin]%elem_of_cons Hid; [done | by apply IH].
Qed.

(** What a preset PATCH does to the store: nothing, or the update of the
    caller's own preset under a name that is free. *)
Lemma preset_PATCH_cases env req db :
  (FilterPresetRoute.PATCH env req db).2 = db
  ∨ ∃ preset body,
      prisma.findUnique fp_id (req_param_id req) (filter_presets db)
        = Some preset
      ∧ nameFree (field "name" body) (fp_createdBy preset) (req_param_id req)
          preset db
      ∧ (FilterPresetRoute.PATCH env req db).2
        = presetUpdated env (req_param_id req) body db.
Proof.
  destruct (FilterPresetRoute.ctx_userId env) as [userId|] eqn:Hctx.
  2: { left. unfold FilterPresetRoute.PATCH, try_catch. by rewrite Hctx. }
  destruct (prisma.findUnique fp_id (req_param_id req) (filter_presets db))
    as [preset|] eqn:Hfound.
  2: { left. unfold FilterPresetRoute.PATCH, try_catch. rewrite Hctx.
       run_monad. by rewrite Hfound. }
  destruct (String.eqb (fp_createdBy preset) userId) eqn:Howner.
  2: { left. unfold FilterPresetRoute.PATCH, try_catch. rewrite Hctx.
       run_monad. by rewrite Hfound, Howner. }
  apply String.eqb_eq in Howner.
  destruct (req_json req) as [body|e] eqn:Hjson.
  2: { left. unfold FilterPresetRoute.PATCH, try_catch. rewrite Hctx.
       run_monad. rewrite Hfound, Howner, String.eqb_refl. cbn [negb].
       by rewrite Hjson. }
  destruct (prop_cases body) as [Hok | Hthrow].
  2: { left. unfold FilterPresetRoute.PATCH, try_catch. rewrite Hctx.
       run_monad. rewrite Hfound, Howner, String.eqb_refl. cbn [negb].
       rewrite Hjson. by destruct (Hthrow "name") as [e ->]. }
  assert (Hbody : body ≠ JNull ∧ body ≠ JUndefined).
  { split; intros ->; by specialize (Hok "name"). }
  destruct Hbody as [Hnull Hundef].
  assert (Hdec : field "filterConfig" body = JNull
                 ∨ field "filterConfig" body ≠ JNull).
  { destruct (field "filterConfig" body); auto; by right. }
  destruct Hdec as [Hconfig|Hconfig].
  { left. unfold FilterPresetRoute.PATCH, try_catch. rewrite Hctx.
    run_monad. rewrite Hfound, Howner, String.eqb_refl. cbn [negb].
    rewrite Hjson, !Hok. cbn beta iota. by rewrite Hconfig. }
  rewrite (preset_PATCH_run env req db userId preset body) by done.
  destruct (if truthy (field "name" body) && _ then _ else _) eqn:Hcheck;
    [by left|].
  right. exists preset, body. split; [done|]. split; [|done].
  rewrite Howner.
  destruct (truthy (field "name" body)) eqn:Hname; [|by left].
  destruct (FilterPresetRoute.strict_eq (field "name" body) (fp_name preset))
    eqn:Hsame; [right; by left|].
  right. right. intros q Hq%list_elem_of_In. cbn [andb negb] in Hcheck.
  by apply (find_none _ _ Hcheck).
Qed.

Lemma preset_DELETE_cases env req db :
  (FilterPresetRoute.DELETE env req db).2 = db
  ∨ (FilterPresetRoute.DELETE env req db).2
    = set_filter_presets
        (λ _, prisma.deleteMany
                (λ r, String.eqb (fp_id r) (req_param_id req))
                (filter_presets db)) db.
Proof.
  unfold FilterPresetRoute.DELETE, try_catch.
  destruct (FilterPresetRoute.ctx_userId env) as [userId|]; [|by left].
  run_monad.
  destruct (prisma.findUnique fp_id (req_param_id req) (filter_presets db))
    as [preset|] eqn:Hfound; [|by left].
  destruct (negb _); [by left|].
  unfold prisma.delete. rewrite Hfound. by right.
Qed.

Lemma strict_eq_str (v : JsVal) (n : string) :
  FilterPresetRoute.strict_eq (JStr n) v = true → v = JStr n.
Proof.
  destruct v; try done. simpl. intros ->%String.eqb_eq. reflexivity.
Qed.

(** The renamed row against a row it must not clash with. *)
Lemma renamed_apart env id body preset db q n :
  names_unique db →
  prisma.findUnique fp_id id (filter_presets db) = Some preset →
  nameFree (field "name" body) (fp_createdBy preset) id preset db →
  q ∈ filter_presets db →
  fp_id q ≠ id →
  fp_tenantId preset = fp_tenantId q →
  fp_createdBy preset = fp_createdBy q →
  fp_name (updateData env body preset) = JStr n →
  fp_name q = JStr n →
  n = "".
Proof.
  intros [Hids Hnames] Hfound Hfree Hq Hne Htenant Hcreator Hnew Hold.
  assert (Hpreset : preset ∈ filter_presets db).
  { unfold prisma.findUnique in Hfound. apply find_some in Hfound as [H _].
    by apply list_elem_of_In. }
  assert (Hid : fp_id preset = id) by by apply (findUnique_key _ _ _ _ Hfound).
  assert (Hkept : fp_name preset = JStr n → n = "").
  { intros Hsame. apply (Hnames preset q n); try done. by rewrite Hid. }
  cbn [updateData fp_name] in Hnew.
  destruct (field "name" body) eqn:Hname; cbn in Hnew; try done;
    [by apply Hkept|].
  injection Hnew as ->.
  destruct Hfree as [Hfalsy | [Hsame | Hfree]].
  - simpl in Hfalsy. apply negb_false_iff, String.eqb_eq in Hfalsy. done.
  - apply Hkept. by apply strict_eq_str.
  - specialize (Hfree q Hq). unfold nameTaken in Hfree.
    rewrite Htenant, Hcreator, Hold, !String.eqb_refl in Hfree.
    simpl in Hfree. rewrite String.eqb_refl in Hfree.
    apply String.eqb_neq in Hne. by rewrite Hne in Hfree.
Qed.

Lemma presetUpdated_names env id body preset db :
  prisma.findUnique fp_id id (filter_presets db) = Some preset →
  nameFree (field "name" body) (fp_createdBy preset) id preset db →
  names_kept db (presetUpdated env id body db).
Proof.
  intros Hfound Hfree Hunique. pose proof Hunique as [Hids Hnames].
  unfold names_unique, presetUpdated.
  cbn [set_filter_presets filter_presets]. split.
  - by rewrite updateMany_keys.
  - intros p' q' n (p & Hp & ->)%updateMany_elem (q & Hq & ->)%updateMany_elem.
    destruct (String.eqb (fp_id p) id) eqn:Hpid;
      destruct (String.eqb (fp_id q) id) eqn:Hqid.
    + apply String.eqb_eq in Hpid, Hqid. cbn [updateData fp_id]. congruence.
    + apply String.eqb_eq in Hpid. apply String.eqb_neq in Hqid.
      assert (p = preset) as -> by by apply (findUnique_the_row fp_id id
        (filter_presets db)).
      cbn [updateData fp_id fp_tenantId fp_createdBy].
      intros _ Htenant Hcreator Hnew Hold.
      by apply (renamed_apart env id body preset db q n).
    + apply String.eqb_neq in Hpid. apply String.eqb_eq in Hqid.
      assert (q = preset) as -> by by apply (findUnique_the_row fp_id id
        (filter_presets db)).
      cbn [updateData fp_id fp_tenantId fp_createdBy].
      intros _ Htenant Hcreator Hold Hnew.
      by apply (renamed_apart env id body preset db p n).
    + by apply Hnames.
Qed.

Lemma deleteMany_names (where_ : FilterPreset → bool) db :
  names_kept db (set_filter_presets (λ _, prisma.deleteMany where_
                                            (filter_presets db)) db).
Proof.
  intros [Hids Hnames]. unfold names_unique.
  cbn [set_filter_presets filter_presets]. split.
  - eapply sublist_NoDup; [exact Hids|].
    apply fmap_sublist. unfold prisma.deleteMany. apply sublist_filter.
  - intros p q n [Hp _]%deleteMany_elem [Hq _]%deleteMany_elem.
    by apply Hnames.
Qed.

Lemma names_kept_same (db db' : Db) :
  filter_presets db' = filter_presets db → names_kept db db'.
Proof. intros Heq. unfold names_kept, names_unique. by rewrite Heq. Qed.

Lemma handle_keeps_names op env req : keeps names_kept (handle op env req).
Proof.
  destruct op;
    try (intros db; apply names_kept_same;
         by apply (handle_keeps_filter_presets _ env req)).
  - intros db. simpl.
    destruct (preset_PATCH_cases env req db)
      as [-> | (preset & body & Hfound & Hfree & ->)]; [reflexivity|].
    by apply presetUpdated_names with preset.
  - intros db. simpl.
    destruct (preset_DELETE_cases env req db) as [-> | ->]; [reflexivity|].
    apply deleteMany_names.
Qed.

(** X23.  If the ids of the presets are pairwise different and no two
    presets of one creator in one tenant share a non-empty name, the same
    holds after any handler and after any sequence of requests.  The name
    check of the PATCH is skipped for a falsy name, hence non-empty. *)
Theorem preset_names_stay_unique
    (requests : list (Operation * Env * Request))
    (op : Operation) (env : Env) (req : Request) (db : Db) :
  names_unique db →
  names_unique (handle op env req db).2 ∧ names_unique (run requests db).
Proof.
  intros Hunique. split; [by apply (handle_keeps_names op env req db)|].
  revert db Hunique.
  induction requests as [|[[op' env'] req'] rest IH]; intros db Hunique;
    [done|].
  simpl. apply IH. by apply (handle_keeps_names op' env' req' db).
Qed.

Lemma preset_names_stay_unique_witness :
  names_unique sharedDb
  ∧ names_unique (FilterPresetRoute.PATCH ownerEnv presetRequest sharedDb).2.
Proof.
  assert (Hunique : names_unique sharedDb).
  { split.
    - simpl. apply NoDup_cons. split.
      + intros Hin%list_elem_of_singleton. discriminate.
      + apply NoDup_singleton.
    - intros p q n Hp%list_elem_of_In Hq%list_elem_of_In. simpl in Hp, Hq.
      destruct Hp as [<- | [<- | []]]; destruct Hq as [<- | [<- | []]];
        simpl; try done; intros _ _ _ [= <-] [=]. }
  split; [exact Hunique|].
  apply (preset_names_stay_unique [] UpdatePreset ownerEnv presetRequest
           sharedDb Hunique).
Defined.






(** X25.  The id of an execution record is computed by
    [crypto.getRandomUUID()] inside the argument of the create, ahead of
    the inner [try].  When that call throws, as it does on a [crypto] that
    has no such member, no request has a report generated: whatever the
    request, the store is as it was (no execution record, no generation
    count raised) and the answer is an error, 429, 403, 404, 400 or 500,
    never a file. *)
Theorem report_generation_always_fails
    (env : Env) (req : Request) (db : Db) (e : Exn) :
  getRandomUUID env = Throw e →
  (GenerateRoute.POST env req db).2 = db
  ∧ ∃ st message,
      (GenerateRoute.POST env req db).1 = Ok (json st (BError message))
      ∧ (st = 429 ∨ st = 403 ∨ st = 404 ∨ st = 400 ∨ st = 500).
Proof.
  intros Huuid. unfold GenerateRoute.POST, try_catch.
  destruct (rateLimit env (identifier_of req)); cbn [negb];
    [|split; [done|]; eauto 10].
  destruct (hasPermission env (context_userId env) "admin:reports:generate");
    cbn [negb]; [|split; [done|]; eauto 10].
  run_monad.
  destruct (prisma.findUnique report_id (req_param_id req) (reports db));
    [|split; [done|]; eauto 10].
  destruct (req_json req) as [body|e0]; cbn beta iota;
    [|split; [done|]; eauto 10].
  destruct (prop_cases body) as [Hok | Hthrow].
  2: { destruct (Hthrow "format") as [e0 ->]. split; [done|]. eauto 10. }
  rewrite !Hok. cbn beta iota zeta.
  destruct (negb (existsb _ _)); [split; [done|]; eauto 10|].
  rewrite Huuid. split; [done|]. eauto 10.
Qed.

(** A permitted request for the CSV of the stored team report. *)
Lemma report_generation_always_fails_witness :
  (GenerateRoute.POST sampleEnv generateRequest teamDb).2 = teamDb
  ∧ ∃ st message,
      (GenerateRoute.POST sampleEnv generateRequest teamDb).1
      = Ok (json st (BError message))
      ∧ (st = 429 ∨ st = 403 ∨ st = 404 ∨ st = 400 ∨ st = 500).
Proof.
  exact (report_generation_always_fails sampleEnv generateRequest teamDb
           notAFunction eq_refl).
Defined.

(** ** The file name of a generated report *)

Lemma dash_blanks_free (in_run : bool) (name : string) :
  blank_free (GenerateRoute.dash_blanks in_run name) = true.
Proof.
  revert in_run. induction name as [|c name IH]; intros in_run; [done|].
  cbn [GenerateRoute.dash_blanks].
  destruct (is_space c) eqn:Hc.
  - destruct in_run; [apply IH|]. cbn [blank_free]. rewrite IH.
    reflexivity.
  - cbn [blank_free]. by rewrite Hc, IH.
Qed.

Lemma dash_blanks_length (in_run : bool) (name : string) :
  (String.length (GenerateRoute.dash_blanks in_run name)
   ≤ String.length name)%nat.
Proof.
  revert in_run. induction name as [|c name IH]; intros in_run; [done|].
  cbn [GenerateRoute.dash_blanks String.length].
  destruct (is_space c); [destruct in_run|]; cbn [String.length];
    pose proof (IH true); pose proof (IH false); lia.
Qed.

Lemma dash_blanks_word (word rest : string) :
  blank_free word = true →
  GenerateRoute.dash_blanks false (word +:+ rest)
  = word +:+ GenerateRoute.dash_blanks false rest.
Proof.
  induction word as [|c word IH]; [done|].
  cbn [blank_free]. intros [Hc Hword]%andb_true_iff.
  apply negb_true_iff in Hc. rewrite !append_cons.
  cbn [GenerateRoute.dash_blanks]. by rewrite Hc, IH.
Qed.

Lemma dash_blanks_run (run : list ascii) (rest : string) :
  Forall (λ c, is_space c = true) run →
  (∀ c rest', rest = String c rest' → is_space c = false) →
  GenerateRoute.dash_blanks true (string_of_list_ascii run +:+ rest)
  = GenerateRoute.dash_blanks false rest.
Proof.
  intros Hrun Hrest. induction Hrun as [|c run Hc _ IH].
  - cbn [string_of_list_ascii]. rewrite append_nil_l.
    destruct rest as [|c rest]; [done|].
    cbn [GenerateRoute.dash_blanks]. by rewrite (Hrest c rest).
  - cbn [string_of_list_ascii]. rewrite append_cons.
    cbn [GenerateRoute.dash_blanks]. by rewrite Hc.
Qed.

(** X26.  The file name built from a report name holds no blank: every run
    of blanks has become one dash, that is, a word without blanks followed
    by a run of one or more blanks becomes the word followed by one dash,
    and the rest of the name is treated alike.  The result is never longer
    than the name, and a name without blanks is unchanged. *)
Theorem report_filename_has_no_blank (name : string) :
  blank_free (GenerateRoute.dash_blanks false name) = true
  ∧ (String.length (GenerateRoute.dash_blanks false name)
     ≤ String.length name)%nat
  ∧ (blank_free name = true → GenerateRoute.dash_blanks false name = name)
  ∧ (∀ (word : string) (run : list ascii) (rest : string),
       name = word +:+ string_of_list_ascii run +:+ rest →
       blank_free word = true →
       run ≠ [] → Forall (λ c, is_space c = true) run →
       (∀ c rest', rest = String c rest' → is_space c = false) →
       GenerateRoute.dash_blanks false name
       = word +:+ "-" +:+ GenerateRoute.dash_blanks false rest).
Proof.
  split; [apply dash_blanks_free|]. split; [apply dash_blanks_length|].
  split.
  - induction name as [|c name IH]; [done|].
    cbn [blank_free GenerateRoute.dash_blanks].
    intros [Hc Hname]%andb_true_iff. apply negb_true_iff in Hc.
    by rewrite Hc, IH.
  - intros word run rest -> Hword Hne Hrun Hrest.
    rewrite dash_blanks_word by done. f_equal.
    destruct run as [|c run]; [done|].
    apply Forall_cons in Hrun as [Hc Hrun].
    cbn [string_of_list_ascii]. rewrite append_cons.
    cbn [GenerateRoute.dash_blanks]. rewrite Hc.
    rewrite dash_blanks_run by done. reflexivity.
Qed.

(** ** Reading the tab-separated output back *)

Lemma occurs_app (c : ascii) (s t : string) :
  occurs c (s +:+ t) = occurs c s || occurs c t.
Proof.
  induction s as [|a s IH]; [done|].
  rewrite append_cons. cbn [occurs]. by rewrite IH, orb_assoc.
Qed.

Lemma occurs_join (c : ascii) (sep : string) (l : list string) :
  occurs c sep = false → Forall (λ x, occurs c x = false) l →
  occurs c (join sep l) = false.
Proof.
  intros Hsep. induction l as [|x l IH]; [done|].
  intros [Hx Hl]%Forall_cons. destruct l as [|y l]; [done|].
  rewrite join_cons by done. rewrite !occurs_app, Hx, Hsep. by apply IH.
Qed.

Lemma split_lines (c : ascii) (lines : list string) :
  Forall (λ x, occurs c x = false) lines →
  js_split c (foldr (λ x acc, (x +:+ str1 c) +:+ acc) "" lines)
  = (lines ++ [""])%list.
Proof.
  induction lines as [|x lines IH]; [done|].
  intros [Hx Hlines]%Forall_cons. cbn [foldr].
  unfold str1 at 1. rewrite append_assoc, append_cons, append_nil_l.
  rewrite js_split_app by done. by rewrite IH.
Qed.

(** X27.  When there is at least one row and one column, and no label and
    no cell holds a tab or a line break, the tab-separated output is the
    title block (the output for no rows) followed by a table that reads
    back, line by line and tab by tab, as the labels and then the cells of
    each row, with one empty last line. *)
Theorem excel_table_reads_back
    (today : string) (report : Report) (rd : ReportData)
    (rows : list Row) :
  let columns := default defaultColumns (rd_columns rd) in
  rd_rows rd = Some rows → rows ≠ [] → columns ≠ [] →
  (∀ c, c ∈ columns → cell_safe (col_label c)) →
  (∀ row c, row ∈ rows → c ∈ columns → cell_safe (excelCell row c)) →
  ∃ table,
    generateExcelReport today report rd
    = generateExcelReport today report (with_rows rd []) +:+ table
    ∧ readTsv table
      = ((col_label <$> columns)
         :: ((λ row, excelCell row <$> columns) <$> rows) ++ [[""]])%list.
Proof.
  intros columns Hrows Hne Hcolumns Hlabels Hcells.
  set (lines := join tab (col_label <$> columns)
                :: ((λ row, join tab (excelCell row <$> columns)) <$> rows)).
  exists (foldr (λ x acc, (x +:+ nl) +:+ acc) "" lines). split.
  - unfold generateExcelReport. cbv zeta.
    cbn [with_rows rd_rows rd_columns rd_summary nonempty].
    rewrite Hrows. destruct rows as [|row rows]; [done|].
    cbn [nonempty default from_option id].
    fold columns.
    match goal with
    | |- foldl _ (?t +:+ _ +:+ _) _ = _ => generalize t
    end.
    intros title.
    rewrite (foldl_append (λ r, join tab (excelCell r <$> columns) +:+ nl)).
    unfold lines. cbn [foldr fmap list_fmap].
    rewrite !append_assoc.
    assert (Hfold :
      foldr (λ (x : Row) acc,
               (join tab (excelCell x <$> columns) +:+ nl) +:+ acc) "" rows
      = foldr (λ x acc : string, (x +:+ nl) +:+ acc) ""
          ((λ row : Row, join tab (excelCell row <$> columns)) <$> rows)).
    { clear. induction rows as [|r rows IH]; [done|].
      cbn [foldr fmap list_fmap]. by rewrite IH. }
    by rewrite Hfold.
  - unfold readTsv, nl. rewrite split_lines.
    + unfold lines. rewrite fmap_app, fmap_cons. cbn [fmap list_fmap].
      change (js_split tabchar "") with [""].
      rewrite app_comm_cons. f_equal. f_equal.
      * apply js_split_join.
        -- by destruct columns.
        -- apply Forall_fmap, Forall_forall. intros c Hc. by apply Hlabels.
      * rewrite <- list_fmap_compose. apply list_fmap_ext.
        intros _ row Hrow%list_elem_of_lookup_2. simpl. apply js_split_join.
        -- by destruct columns.
        -- apply Forall_fmap, Forall_forall. intros c Hc.
           by apply (Hcells row c).
    + unfold lines. apply Forall_cons. split.
      * apply occurs_join; [done|].
        apply Forall_fmap, Forall_forall. intros c Hc. by apply Hlabels.
      * apply Forall_fmap, Forall_forall. intros row Hrow. simpl.
        apply occurs_join; [done|].
        apply Forall_fmap, Forall_forall. intros c Hc.
        by apply (Hcells row c).
Qed.

Lemma excel_table_reads_back_witness :
  ∃ table,
    generateExcelReport "1/1/2025" teamReport
      (reportDataOf teamReport (tenantRows teamReport teamDb) None)
    = generateExcelReport "1/1/2025" teamReport
        (with_rows
           (reportDataOf teamReport (tenantRows teamReport teamDb) None) [])
      +:+ table
    ∧ readTsv table
      = [ ["Name"; "Role"]; ["Ann"; "ADMIN"]; ["Ann"; "ADMIN"]; [""] ].
Proof.
  destruct (excel_table_reads_back "1/1/2025" teamReport
    (reportDataOf teamReport (tenantRows teamReport teamDb) None)
    (tenantRows teamReport teamDb)) as (table & Htable & Hread).
  - reflexivity.
  - discriminate.
  - discriminate.
  - intros c Hc%list_elem_of_In. simpl in Hc.
    destruct Hc as [<- | [<- | []]]; split; reflexivity.
  - intros row c Hrow%list_elem_of_In Hc%list_elem_of_In.
    simpl in Hrow, Hc.
    destruct Hrow as [<- | [<- | []]]; destruct Hc as [<- | [<- | []]];
      split; vm_compute; reflexivity.
  - exists table. split; [exact Htable|]. rewrite Hread.
    vm_compute. reflexivity.
Defined.

Section ClientFormFacts.
Import ClientForm.

Lemma trimStart_blank (s : string) :
  trimStart s = "" ↔ all_blank s = true.
Proof.
  induction s as [|c s IH]; [done|]. cbn [trimStart all_blank].
  destruct (is_space c); [exact IH|]. split; discriminate.
Qed.

Lemma trimEnd_empty (s : string) :
  trimEnd s = "" ↔ all_blank s = true.
Proof.
  induction s as [|c s IH]; [done|]. cbn [trimEnd all_blank].
  destruct (is_space c); cbn [andb]; [|split; discriminate].
  destruct (String.eqb (trimEnd s) "") eqn:Hrest.
  - apply String.eqb_eq in Hrest. split; [intros _; by apply IH | done].
  - apply String.eqb_neq in Hrest. split; [discriminate|].
    intros H. by destruct Hrest; apply IH.
Qed.

Lemma all_blank_trimStart (s : string) :
  all_blank (trimStart s) = true → all_blank s = true.
Proof.
  induction s as [|c s IH]; [done|]. cbn [trimStart all_blank].
  destruct (is_space c) eqn:Hc; [exact IH|].
  cbn [all_blank]. by rewrite Hc.
Qed.

Lemma trim_blank (s : string) : trim s = "" ↔ all_blank s = true.
Proof.
  unfold trim. rewrite trimEnd_empty. split.
  - apply all_blank_trimStart.
  - intros H. apply trimStart_blank in H. by rewrite H.
Qed.

Lemma emailRegex_shaped (s : string) :
  emailRegex_test (JStr s) = true ↔ EmailShaped s.
Proof.
  unfold emailRegex_test, EmailShaped. cbn [toString]. split.
  - destruct (cut "@"%char s) as [[a d]|] eqn:Hcut; [|done].
    apply cut_spec in Hcut as [-> _].
    rewrite !andb_true_iff, negb_true_iff, String.eqb_neq.
    intros [[[Ha Hplain] Hd] (b & c & Hb & Hc & ->)%inner_dot_spec].
    rewrite !all_plain_app in Hd.
    apply andb_true_iff in Hd as [Hpb [_ Hpc]%andb_true_iff].
    by exists a, b, c.
  - intros (a & b & c & -> & Ha & Hb & Hc & Hpa & Hpb & Hpc).
    assert (Hcut : cut "@"%char (a +:+ "@" +:+ b +:+ "." +:+ c)
                   = Some (a, b +:+ "." +:+ c)).
    { apply cut_spec. split; [done | by apply all_plain_no_at]. }
    rewrite Hcut, !andb_true_iff, negb_true_iff, String.eqb_neq.
    repeat split; auto.
    + rewrite !all_plain_app, Hpb, Hpc. reflexivity.
    + apply inner_dot_spec. by exists b, c.
Qed.

Lemma all_blank_app (a b : string) :
  all_blank (a +:+ b) = all_blank a && all_blank b.
Proof.
  induction a as [|c a IH]; [done|].
  rewrite append_cons. cbn [all_blank]. by rewrite IH, andb_assoc.
Qed.

Lemma plain_not_blank (a : string) :
  a ≠ "" → all_plain a = true → all_blank a = false.
Proof.
  destruct a as [|c a]; [done|]. intros _. cbn [all_plain all_blank].
  unfold plain. intros [[Hc _]%andb_true_iff _]%andb_true_iff.
  apply negb_true_iff in Hc. by rewrite Hc.
Qed.

Lemma shaped_not_blank (s : string) : EmailShaped s → all_blank s = false.
Proof.
  intros (a & b & c & -> & Ha & _ & _ & Hpa & _).
  rewrite all_blank_app. by rewrite (plain_not_blank a).
Qed.

(** X28.  [validateForm] accepts the forms whose name holds a character that
    is no blank and whose email has the shape of the pattern, and no others;
    it then leaves the state alone.  When it rejects it only sets the error:
    [Client name is required] for a blank name, else [Email is required] for
    a blank email, else [Invalid email format]. *)
Theorem validateForm_accepts
    (st : FormState) :
  ((validateForm st).1 = true
   ↔ all_blank (cf_name (formData st)) = false
     ∧ EmailShaped (cf_email (formData st)))
  ∧ ((validateForm st).1 = true → (validateForm st).2 = st)
  ∧ ((validateForm st).1 = false →
     formData (validateForm st).2 = formData st
     ∧ isSubmitting (validateForm st).2 = isSubmitting st
     ∧ error (validateForm st).2
       = Some (if all_blank (cf_name (formData st))
               then "Client name is required"
               else if all_blank (cf_email (formData st))
               then "Email is required"
               else "Invalid email format")).
Proof.
  unfold validateForm.
  destruct (String.eqb (trim (cf_name (formData st))) "") eqn:Hname.
  { apply String.eqb_eq, trim_blank in Hname. rewrite Hname.
    split; [split; [done | by intros [? _]]|]. split; done. }
  apply String.eqb_neq in Hname. rewrite trim_blank in Hname.
  apply not_true_is_false in Hname. rewrite Hname.
  destruct (String.eqb (trim (cf_email (formData st))) "") eqn:Hemail.
  { apply String.eqb_eq, trim_blank in Hemail. rewrite Hemail.
    split; [split; [done|]|by split].
    intros [_ Hshaped%shaped_not_blank]. congruence. }
  apply String.eqb_neq in Hemail. rewrite trim_blank in Hemail.
  apply not_true_is_false in Hemail. rewrite Hemail.
  destruct (emailRegex_test (JStr (cf_email (formData st)))) eqn:Htest;
    cbn [negb fst snd].
  - apply emailRegex_shaped in Htest. split; [by split|]. by split.
  - split; [split; [done|]|by split].
    intros [_ Hshaped%emailRegex_shaped]. congruence.
Qed.

Lemma validateForm_valid (st : FormState) :
  (validateForm st).1 = true → validateForm st = (true, st).
Proof.
  unfold validateForm.
  repeat (match goal with |- context [if ?b then _ else _] => destruct b end;
          try done).
Qed.

(** Settle a membership in a list that is written out. *)
Ltac absent :=
  let Hin := fresh "Hin" in
  intros Hin;
  repeat (apply elem_of_cons in Hin as [Hin|Hin]; [discriminate|]);
  by apply elem_of_nil in Hin.

(** X29.  A form that does not validate is not sent.  A valid form is sent
    once, to the endpoint and with the method of the mode; afterwards the
    form is no longer submitting and its data are unchanged; and either the
    dialog closes as the last call, with no error toast and the error state
    untouched, or it stays open and the failure message is both the last
    toast and the error state. *)
Theorem handleSubmit_outcomes
    (props : Props)
    (fetch : string → string → ClientFormData → Result FetchResponse)
    (st : FormState) :
  ((validateForm st).1 = false →
     handleSubmit props fetch st = ([PreventDefault], (validateForm st).2))
  ∧ ((validateForm st).1 = true →
     ∃ rest,
       (handleSubmit props fetch st).1
       = PreventDefault
         :: Fetch (endpointOf props) (methodOf props) (formData st) :: rest
       ∧ (∀ endpoint method data, Fetch endpoint method data ∉ rest)
       ∧ isSubmitting (handleSubmit props fetch st).2 = false
       ∧ formData (handleSubmit props fetch st).2 = formData st
       ∧ ((last rest = Some OnClose
           ∧ error (handleSubmit props fetch st).2 = error st
           ∧ (∀ message, ToastError message ∉ rest))
          ∨ ((OnClose ∉ rest)
             ∧ (∃ message,
                  last rest = Some (ToastError message)
                  ∧ error (handleSubmit props fetch st).2 = Some message)))).
Proof.
  split.
  - intros Hinvalid. unfold handleSubmit.
    destruct (validateForm st) as [valid st']. simpl in *. by subst.
  - intros Hvalid%validateForm_valid. unfold handleSubmit. rewrite Hvalid.
    cbn [negb]. unfold send.
    destruct (fetch _ _ _) as [response|e].
    2: { eexists. split; [reflexivity|]. split; [intros ???; absent|].
         split; [done|]. split; [done|]. right. split; [absent|]. eauto. }
    destruct (resp_ok response); cbn [negb].
    + destruct (resp_json response) as [result|e].
      2: { eexists. split; [reflexivity|]. split; [intros ???; absent|].
           split; [done|]. split; [done|]. right. split; [absent|]. eauto. }
      destruct (onSuccess props).
      * destruct (prop "id" result) as [id|e].
        -- eexists. split; [reflexivity|]. split; [intros ???; absent|].
           split; [done|]. split; [done|]. left.
           split; [done|]. split; [done|]. intros ?; absent.
        -- eexists. split; [reflexivity|]. split; [intros ???; absent|].
           split; [done|]. split; [done|]. right. split; [absent|]. eauto.
      * eexists. split; [reflexivity|]. split; [intros ???; absent|].
        split; [done|]. split; [done|]. left.
        split; [done|]. split; [done|]. intros ?; absent.
    + destruct (resp_json response) as [errorData|e].
      2: { eexists. split; [reflexivity|]. split; [intros ???; absent|].
           split; [done|]. split; [done|]. right. split; [absent|]. eauto. }
      destruct (prop "message" errorData) as [message|e];
        (eexists; split; [reflexivity|]; split; [intros ???; absent|];
         split; [done|]; split; [done|]; right; split; [absent|]; eauto).
Qed.

End ClientFormFacts.
